(** * Order processing of the food-delivery backend

    A shallow embedding of the order model (models/Order.js), the menu item
    model (models/MenuItem.js) and the order routes (routes/orders.js).

    Conventions of the embedding:
    - a JavaScript [Number] holding money or an add-on multiplier is an exact
      rational ([Q], compared with [==]); rounding of doubles is not
      modelled.  Quantities of dishes and counters are integers ([Z]);
    - a [Date] is a number of milliseconds ([Z]);
    - a Mongoose collection is a finite map from document ids ([_id]) to
      documents; a document loaded by a handler is a value, and [save]
      writes it back under its id;
    - a handler is a computation in a state-and-exception monad over the
      [World] (collections, gateway log, emitted events).  When a handler
      throws, the world it leaves behind is the world at the throw;
    - what the platform supplies (clock, day and time strings, fresh ids,
      the outcome of the mocked gateway's coin flip) is read from an [Env].
      An [Env] holds one reading of the clock: a property that relates two
      readings takes two environments;
    - an exception that is none of the error classes of the application (a
      [TypeError], a [RangeError]) is a [ServerError];
    - fields that the order routes only carry along (scheduling,
      notification flags, coordinates, special requests) are left out. *)

From stdpp Require Import gmap strings list fin_maps.
From Stdlib Require Import QArith Lqa.

Local Open Scope Z_scope.

(** ** Document ids and enumerations *)

Abbreviation ObjectId := N (only parsing).

Inductive OrderStatus :=
  | pending | confirmed | preparing | ready_for_pickup
  | out_for_delivery | delivered | cancelled | refunded.

Inductive PaymentMethod := card | upi | wallet | cash_on_delivery.

Inductive PaymentStatus :=
  | pay_pending | pay_completed | pay_failed | pay_refunded.

Inductive PaymentGateway := razorpay | stripe | paytm | phonepe.

Inductive MenuItemStatus := active | inactive | out_of_stock.

Inductive RestaurantStatus := r_active | r_other.

Inductive Role := role_user | role_admin | role_restaurant_owner.

#[global] Instance OrderStatus_eq_dec : EqDecision OrderStatus.
Proof. solve_decision. Defined.
#[global] Instance PaymentMethod_eq_dec : EqDecision PaymentMethod.
Proof. solve_decision. Defined.
#[global] Instance PaymentStatus_eq_dec : EqDecision PaymentStatus.
Proof. solve_decision. Defined.
#[global] Instance MenuItemStatus_eq_dec : EqDecision MenuItemStatus.
Proof. solve_decision. Defined.
#[global] Instance RestaurantStatus_eq_dec : EqDecision RestaurantStatus.
Proof. solve_decision. Defined.
#[global] Instance Role_eq_dec : EqDecision Role.
Proof. solve_decision. Defined.

(** ** JavaScript helpers *)

(** [Array.prototype.includes]. *)
Definition includes {A} `{EqDecision A} (l : list A) (x : A) : bool :=
  bool_decide (x ∈ l).

(** Truthiness of an optional number: [undefined], [null] and [0] are falsy. *)
Definition truthyQ (x : option Q) : bool :=
  match x with
  | Some q => negb (Qeq_bool q 0)
  | None => false
  end.

Definition truthyZ (x : option Z) : bool :=
  match x with
  | Some z => negb (z =? 0)
  | None => false
  end.

(** [x || d] on an optional number. *)
Definition orQ (x : option Q) (d : Q) : Q :=
  match x with
  | Some q => if truthyQ x then q else d
  | None => d
  end.

(** [s || d] on an optional string: the empty string is falsy. *)
Definition orString (s : option string) (d : string) : string :=
  match s with
  | Some EmptyString | None => d
  | Some s' => s'
  end.

Definition Qltb (x y : Q) : bool := negb (Qle_bool y x).

(** ** Errors *)

(** The error classes of middleware/errorHandler.js that the routes raise;
    [MongooseValidation] is the validation error of a schema, raised by
    [save] and [create]; [DuplicateKey] is the database's error 11000
    (answered with status 400) and [ServerError] stands for any other
    exception (a [TypeError] or a [RangeError], answered with status
    500). *)
Inductive ErrorKind :=
  | Validation | NotFound | Authorization | PaymentError
  | MongooseValidation | DuplicateKey | ServerError.

#[global] Instance ErrorKind_eq_dec : EqDecision ErrorKind.
Proof. solve_decision. Defined.

Inductive Result (A : Type) :=
  | Ok (a : A)
  | Err (e : ErrorKind).
Arguments Ok {A} a.
Arguments Err {A} e.

(** ** Menu items (models/MenuItem.js) *)

Record CustomizationOption := {
  opt_name : string;
  opt_price : Q
}.

Record Customization := {
  cz_name : string;
  cz_options : list CustomizationOption
}.

Record AddOn := {
  ao_name : string;
  ao_price : Q
}.

Record Availability := {
  isAvailable : bool;
  availableQuantity : option Z;      (* null means unlimited *)
  availableDays : list string;
  availableHours_start : string;
  availableHours_end : string
}.

Record MenuItem := {
  mi_name : string;
  mi_restaurant : ObjectId;
  mi_price : Q;
  mi_customizations : list Customization;
  mi_addOns : list AddOn;
  mi_availability : Availability;
  mi_orderCount : Z;
  mi_isPopular : bool;
  mi_status : MenuItemStatus
}.

(** What a client selects for one line of an order. *)
Record SelectedCustomization := {
  sc_name : string;
  sc_selectedOption : string
}.

Record SelectedAddOn := {
  sa_name : string;
  sa_price : option Q;       (* carried along; the price charged is the menu's *)
  sa_quantity : option Q
}.

(** The platform values a handler reads. *)
Record Env := {
  now : Z;                    (* Date.now() *)
  currentDay : string;        (* the weekday as toLocaleDateString names it *)
  currentTime : string;       (* toTimeString().slice(0, 5), HH:MM *)
  newOrderId : ObjectId;      (* the ObjectId given to a new order *)
  gatewayAccepts : bool;      (* outcome of the mocked gateway *)
  newTransactionId : string
}.

(** [date.toLocaleDateString('en-US', { weekday })] of the current date:
    the option [weekday] takes "narrow", "short" or "long"; with any other
    value the call throws a [RangeError]. *)
Definition weekdayStyles : list string := ["narrow"; "short"; "long"].

Definition toLocaleDateString_weekday (env : Env) (weekday : string) : Result string :=
  if bool_decide (weekday ∈ weekdayStyles) then Ok (currentDay env)
  else Err ServerError.

(** The virtual [isCurrentlyAvailable]; it asks for the weekday in the
    style "lowercase". *)
Definition isCurrentlyAvailable (env : Env) (this : MenuItem) : Result bool :=
  if negb (isAvailable (mi_availability this))
     || negb (bool_decide (mi_status this = active)) then Ok false
  else if match availableQuantity (mi_availability this) with
          | Some q => q <=? 0
          | None => false
          end then Ok false
  else
    match toLocaleDateString_weekday env "lowercase" with
    | Err e => Err e
    | Ok currentDay =>
        if negb (length (availableDays (mi_availability this)) =? 0)%nat
           && negb (includes (availableDays (mi_availability this)) currentDay)
        then Ok false
        else
          let currentTime := currentTime env in
          let startTime := availableHours_start (mi_availability this) in
          let endTime := availableHours_end (mi_availability this) in
          if String.ltb currentTime startTime || String.ltb endTime currentTime
          then Ok false
          else Ok true
    end.

(** The method [calculatePrice]: the two [forEach] loops accumulate into
    [totalPrice]. *)
Definition addCustomization (this : MenuItem) (totalPrice : Q)
    (customization : SelectedCustomization) : Q :=
  match find (fun c => String.eqb (cz_name c) (sc_name customization))
             (mi_customizations this) with
  | Some customizationConfig =>
      match find (fun o => String.eqb (opt_name o) (sc_selectedOption customization))
                 (cz_options customizationConfig) with
      | Some selectedOption => (totalPrice + opt_price selectedOption)%Q
      | None => totalPrice
      end
  | None => totalPrice
  end.

Definition addAddOn (this : MenuItem) (totalPrice : Q) (addOn : SelectedAddOn) : Q :=
  match find (fun a => String.eqb (ao_name a) (sa_name addOn)) (mi_addOns this) with
  | Some addOnConfig =>
      (totalPrice + ao_price addOnConfig * orQ (sa_quantity addOn) 1)%Q
  | None => totalPrice
  end.

Definition calculatePrice (this : MenuItem)
    (customizations : list SelectedCustomization) (addOns : list SelectedAddOn) : Q :=
  let totalPrice := mi_price this in
  let totalPrice := fold_left (addCustomization this) customizations totalPrice in
  let totalPrice := fold_left (addAddOn this) addOns totalPrice in
  totalPrice.

(** The pre-save hook of the menu item schema. *)
Definition menuItem_preSave (this : MenuItem) : MenuItem :=
  if 50 <=? mi_orderCount this then
    {| mi_name := mi_name this; mi_restaurant := mi_restaurant this;
       mi_price := mi_price this; mi_customizations := mi_customizations this;
       mi_addOns := mi_addOns this; mi_availability := mi_availability this;
       mi_orderCount := mi_orderCount this; mi_isPopular := true;
       mi_status := mi_status this |}
  else this.

Definition set_availableQuantity (q : option Z) (this : MenuItem) : MenuItem :=
  {| mi_name := mi_name this; mi_restaurant := mi_restaurant this;
     mi_price := mi_price this; mi_customizations := mi_customizations this;
     mi_addOns := mi_addOns this;
     mi_availability :=
       {| isAvailable := isAvailable (mi_availability this);
          availableQuantity := q;
          availableDays := availableDays (mi_availability this);
          availableHours_start := availableHours_start (mi_availability this);
          availableHours_end := availableHours_end (mi_availability this) |};
     mi_orderCount := mi_orderCount this; mi_isPopular := mi_isPopular this;
     mi_status := mi_status this |}.

Definition set_orderCount (n : Z) (this : MenuItem) : MenuItem :=
  {| mi_name := mi_name this; mi_restaurant := mi_restaurant this;
     mi_price := mi_price this; mi_customizations := mi_customizations this;
     mi_addOns := mi_addOns this; mi_availability := mi_availability this;
     mi_orderCount := n; mi_isPopular := mi_isPopular this;
     mi_status := mi_status this |}.

(** ** Orders (models/Order.js) *)

Record OrderItem := {
  oi_menuItem : ObjectId;
  oi_name : string;
  oi_price : Q;
  oi_quantity : Z;
  oi_customizations : list SelectedCustomization;
  oi_addOns : list SelectedAddOn;
  oi_specialInstructions : string;
  oi_itemTotal : Q
}.

Record Pricing := {
  subtotal : Q;
  deliveryFee : Q;
  tax : Q;
  discount_amount : Q;
  tip : Q;
  total : Q
}.

Record DeliveryAddress := {
  street : string;
  city : string;
  state : string;
  zipCode : string
}.

Record StatusEntry := {
  se_status : OrderStatus;
  se_timestamp : Z;
  se_note : string;
  se_updatedBy : option ObjectId
}.

Record PaymentInfo := {
  pi_method : PaymentMethod;
  pi_status : PaymentStatus;
  pi_transactionId : option string;
  pi_paymentGateway : option PaymentGateway;
  pi_paidAt : option Z;
  pi_refundedAt : option Z;
  pi_refundAmount : Q
}.

Record DeliveryTracking := {
  pickedUpAt : option Z;
  estimatedArrival : option Z
}.

Record Rating := {
  r_food : option Z;
  r_delivery : option Z;
  r_overall : option Z;
  r_review : option string;
  r_ratedAt : option Z
}.

Definition noRating : Rating :=
  {| r_food := None; r_delivery := None; r_overall := None;
     r_review := None; r_ratedAt := None |}.

Record Order := {
  orderNumber : option (Z * nat);     (* ORD<timestamp><count + 1> *)
  o_user : ObjectId;
  o_restaurant : ObjectId;
  items : list OrderItem;
  pricing : Pricing;
  deliveryAddress : DeliveryAddress;
  contactPhone : string;
  status : OrderStatus;
  statusHistory : list StatusEntry;
  estimatedDeliveryTime : Z;
  actualDeliveryTime : option Z;
  paymentInfo : PaymentInfo;
  deliveryTracking : DeliveryTracking;
  rating : Rating;
  cancellationReason : option string
}.

(** Field assignments on an order document. *)
Definition set_orderNumber (n : option (Z * nat)) (o : Order) : Order :=
  {| orderNumber := n; o_user := o_user o;
     o_restaurant := o_restaurant o; items := items o; pricing := pricing o;
     deliveryAddress := deliveryAddress o; contactPhone := contactPhone o;
     status := status o; statusHistory := statusHistory o;
     estimatedDeliveryTime := estimatedDeliveryTime o;
     actualDeliveryTime := actualDeliveryTime o; paymentInfo := paymentInfo o;
     deliveryTracking := deliveryTracking o; rating := rating o;
     cancellationReason := cancellationReason o |}.

Definition set_status (s : OrderStatus) (o : Order) : Order :=
  {| orderNumber := orderNumber o; o_user := o_user o;
     o_restaurant := o_restaurant o; items := items o; pricing := pricing o;
     deliveryAddress := deliveryAddress o; contactPhone := contactPhone o;
     status := s; statusHistory := statusHistory o;
     estimatedDeliveryTime := estimatedDeliveryTime o;
     actualDeliveryTime := actualDeliveryTime o; paymentInfo := paymentInfo o;
     deliveryTracking := deliveryTracking o; rating := rating o;
     cancellationReason := cancellationReason o |}.

(** [statusHistory.push(e)]. *)
Definition push_statusHistory (e : StatusEntry) (o : Order) : Order :=
  {| orderNumber := orderNumber o; o_user := o_user o;
     o_restaurant := o_restaurant o; items := items o; pricing := pricing o;
     deliveryAddress := deliveryAddress o; contactPhone := contactPhone o;
     status := status o; statusHistory := statusHistory o ++ [e];
     estimatedDeliveryTime := estimatedDeliveryTime o;
     actualDeliveryTime := actualDeliveryTime o; paymentInfo := paymentInfo o;
     deliveryTracking := deliveryTracking o; rating := rating o;
     cancellationReason := cancellationReason o |}.

Definition set_estimatedDeliveryTime (t : Z) (o : Order) : Order :=
  {| orderNumber := orderNumber o; o_user := o_user o;
     o_restaurant := o_restaurant o; items := items o; pricing := pricing o;
     deliveryAddress := deliveryAddress o; contactPhone := contactPhone o;
     status := status o; statusHistory := statusHistory o;
     estimatedDeliveryTime := t;
     actualDeliveryTime := actualDeliveryTime o; paymentInfo := paymentInfo o;
     deliveryTracking := deliveryTracking o; rating := rating o;
     cancellationReason := cancellationReason o |}.

Definition set_actualDeliveryTime (t : option Z) (o : Order) : Order :=
  {| orderNumber := orderNumber o; o_user := o_user o;
     o_restaurant := o_restaurant o; items := items o; pricing := pricing o;
     deliveryAddress := deliveryAddress o; contactPhone := contactPhone o;
     status := status o; statusHistory := statusHistory o;
     estimatedDeliveryTime := estimatedDeliveryTime o;
     actualDeliveryTime := t; paymentInfo := paymentInfo o;
     deliveryTracking := deliveryTracking o; rating := rating o;
     cancellationReason := cancellationReason o |}.

Definition set_paymentInfo (p : PaymentInfo) (o : Order) : Order :=
  {| orderNumber := orderNumber o; o_user := o_user o;
     o_restaurant := o_restaurant o; items := items o; pricing := pricing o;
     deliveryAddress := deliveryAddress o; contactPhone := contactPhone o;
     status := status o; statusHistory := statusHistory o;
     estimatedDeliveryTime := estimatedDeliveryTime o;
     actualDeliveryTime := actualDeliveryTime o; paymentInfo := p;
     deliveryTracking := deliveryTracking o; rating := rating o;
     cancellationReason := cancellationReason o |}.

Definition set_deliveryTracking (d : DeliveryTracking) (o : Order) : Order :=
  {| orderNumber := orderNumber o; o_user := o_user o;
     o_restaurant := o_restaurant o; items := items o; pricing := pricing o;
     deliveryAddress := deliveryAddress o; contactPhone := contactPhone o;
     status := status o; statusHistory := statusHistory o;
     estimatedDeliveryTime := estimatedDeliveryTime o;
     actualDeliveryTime := actualDeliveryTime o; paymentInfo := paymentInfo o;
     deliveryTracking := d; rating := rating o;
     cancellationReason := cancellationReason o |}.

Definition set_rating (r : Rating) (o : Order) : Order :=
  {| orderNumber := orderNumber o; o_user := o_user o;
     o_restaurant := o_restaurant o; items := items o; pricing := pricing o;
     deliveryAddress := deliveryAddress o; contactPhone := contactPhone o;
     status := status o; statusHistory := statusHistory o;
     estimatedDeliveryTime := estimatedDeliveryTime o;
     actualDeliveryTime := actualDeliveryTime o; paymentInfo := paymentInfo o;
     deliveryTracking := deliveryTracking o; rating := r;
     cancellationReason := cancellationReason o |}.

Definition set_cancellationReason (r : option string) (o : Order) : Order :=
  {| orderNumber := orderNumber o; o_user := o_user o;
     o_restaurant := o_restaurant o; items := items o; pricing := pricing o;
     deliveryAddress := deliveryAddress o; contactPhone := contactPhone o;
     status := status o; statusHistory := statusHistory o;
     estimatedDeliveryTime := estimatedDeliveryTime o;
     actualDeliveryTime := actualDeliveryTime o; paymentInfo := paymentInfo o;
     deliveryTracking := deliveryTracking o; rating := rating o;
     cancellationReason := r |}.

(** The mutations of the method [updateStatus], before its [save]. *)
Definition updateStatus_assign (env : Env) (newStatus : OrderStatus)
    (note : string) (updatedBy : option ObjectId) (this : Order) : Order :=
  let this := set_status newStatus this in
  let this := push_statusHistory
                {| se_status := newStatus; se_timestamp := now env;
                   se_note := note; se_updatedBy := updatedBy |} this in
  match newStatus with
  | confirmed =>
      let prepTime := 30 in
      let deliveryTime := 20 in
      set_estimatedDeliveryTime (now env + (prepTime + deliveryTime) * 60000) this
  | out_for_delivery =>
      set_deliveryTracking
        {| pickedUpAt := Some (now env);
           estimatedArrival := Some (now env + 20 * 60000) |} this
  | delivered => set_actualDeliveryTime (Some (now env)) this
  | _ => this
  end.

(** The method [canBeCancelled]. *)
Definition nonCancellableStatuses : list OrderStatus :=
  [out_for_delivery; delivered; cancelled; refunded].

Definition canBeCancelled (this : Order) : bool :=
  negb (includes nonCancellableStatuses (status this)).

(** The method [calculateRefundAmount]. *)
Definition calculateRefundAmount (this : Order) : Q :=
  if bool_decide (status this = pending) || bool_decide (status this = confirmed)
  then total (pricing this)
  else if bool_decide (status this = preparing)
  then (total (pricing this) * (8 # 10))%Q
  else if bool_decide (status this = ready_for_pickup)
  then (total (pricing this) * (5 # 10))%Q
  else 0%Q.

(** The validators of the order schema on the fields of the embedding:
    [required] on the order number, on the name of a line, on the price of
    each of its add-ons and on the address and contact strings (an empty
    string does not pass [required]); [min] on prices, quantities and the
    pricing fields. *)
Definition isSome {A} (x : option A) : bool :=
  match x with Some _ => true | None => false end.

Definition nonEmpty (s : string) : bool :=
  match s with EmptyString => false | _ => true end.

Definition validOrderItem (i : OrderItem) : bool :=
  nonEmpty (oi_name i)
  && Qle_bool 0 (oi_price i) && (1 <=? oi_quantity i)
  && forallb (fun a => isSome (sa_price a)) (oi_addOns i).

Definition validPricing (p : Pricing) : bool :=
  Qle_bool 0 (subtotal p) && Qle_bool 0 (deliveryFee p) && Qle_bool 0 (tax p)
  && Qle_bool 0 (discount_amount p) && Qle_bool 0 (tip p) && Qle_bool 0 (total p).

Definition validateOrder (o : Order) : bool :=
  isSome (orderNumber o)
  && forallb validOrderItem (items o)
  && validPricing (pricing o)
  && nonEmpty (street (deliveryAddress o)) && nonEmpty (city (deliveryAddress o))
  && nonEmpty (state (deliveryAddress o)) && nonEmpty (zipCode (deliveryAddress o))
  && nonEmpty (contactPhone o).

(** ** Restaurants, users, reviews, events *)

Record Restaurant := {
  rest_owner : ObjectId;
  rest_status : RestaurantStatus;
  rest_deliveryFee : Q;
  rest_minimumOrder : Q;
  rest_ratingAverage : option Q;
  rest_ratingCount : Z;
  rest_totalOrders : Z;
  rest_totalRevenue : Q
}.

Record User := {
  u_id : ObjectId;
  u_role : Role;
  u_name : string
}.

Record Review := {
  rv_user : ObjectId;
  rv_restaurant : ObjectId;
  rv_order : ObjectId;
  rv_overall : Z;
  rv_food : Z;
  rv_delivery : Z;
  rv_service : Z;
  rv_packaging : Z;
  rv_comment : string;
  rv_isVerifiedPurchase : bool
}.

(** What is emitted on the socket: the room and the event. *)
Inductive Event :=
  | NewOrder (restaurant order : ObjectId) (total : Q) (itemCount : nat)
  | OrderStatusUpdate (order : ObjectId) (s : OrderStatus)
  | OrderCancelled (restaurant order : ObjectId) (reason : string).

(** ** The world and the handler monad *)

Record World := {
  orders : gmap N Order;
  menuItems : gmap N MenuItem;
  restaurants : gmap N Restaurant;
  reviews : list Review;
  charges : list (PaymentMethod * Q);     (* calls made to the gateway *)
  emitted : list Event
}.

Definition upd_orders (f : gmap N Order → gmap N Order) (w : World) : World :=
  {| orders := f (orders w); menuItems := menuItems w;
     restaurants := restaurants w; reviews := reviews w;
     charges := charges w; emitted := emitted w |}.

Definition upd_menuItems (f : gmap N MenuItem → gmap N MenuItem) (w : World) : World :=
  {| orders := orders w; menuItems := f (menuItems w);
     restaurants := restaurants w; reviews := reviews w;
     charges := charges w; emitted := emitted w |}.

Definition upd_restaurants (f : gmap N Restaurant → gmap N Restaurant) (w : World) : World :=
  {| orders := orders w; menuItems := menuItems w;
     restaurants := f (restaurants w); reviews := reviews w;
     charges := charges w; emitted := emitted w |}.

Definition upd_reviews (f : list Review → list Review) (w : World) : World :=
  {| orders := orders w; menuItems := menuItems w;
     restaurants := restaurants w; reviews := f (reviews w);
     charges := charges w; emitted := emitted w |}.

Definition upd_charges (f : list (PaymentMethod * Q) → list (PaymentMethod * Q))
    (w : World) : World :=
  {| orders := orders w; menuItems := menuItems w;
     restaurants := restaurants w; reviews := reviews w;
     charges := f (charges w); emitted := emitted w |}.

Definition upd_emitted (f : list Event → list Event) (w : World) : World :=
  {| orders := orders w; menuItems := menuItems w;
     restaurants := restaurants w; reviews := reviews w;
     charges := charges w; emitted := f (emitted w) |}.

Definition Handler (A : Type) : Type := World → Result A * World.

Definition ret {A} (a : A) : Handler A := fun w => (Ok a, w).

Definition throw {A} (e : ErrorKind) : Handler A := fun w => (Err e, w).

Definition bind {A B} (c : Handler A) (k : A → Handler B) : Handler B :=
  fun w =>
    match c w with
    | (Ok a, w') => k a w'
    | (Err e, w') => (Err e, w')
    end.

(** [try { c } catch (e) { h e }]. *)
Definition try_catch {A} (c : Handler A) (h : ErrorKind → Handler A) : Handler A :=
  fun w =>
    match c w with
    | (Ok a, w') => (Ok a, w')
    | (Err e, w') => h e w'
    end.

Definition gets {A} (f : World → A) : Handler A := fun w => (Ok (f w), w).

Definition modify (f : World → World) : Handler unit := fun w => (Ok tt, f w).

Notation "x <~ c ;; k" := (bind c (fun x => k))
  (at level 20, c at level 99, k at level 200, format "x  <~  c  ;;  '//' k").
Notation "c ;;; k" := (bind c (fun _ => k))
  (at level 20, k at level 200, format "c  ;;;  '//' k").

(** A computation that touches no collection, run inside a handler. *)
Definition lift {A} (r : Result A) : Handler A := fun w => (r, w).

(** [if (cond) throw new E(...)]. *)
Definition throw_if (cond : bool) (e : ErrorKind) : Handler unit :=
  if cond then throw e else ret tt.

(** ** Collections *)

Definition Order_findById (id : ObjectId) : Handler (option Order) :=
  gets (fun w => orders w !! id).

(** [save] of a document that is already stored. *)
Definition Order_save (id : ObjectId) (o : Order) : Handler unit :=
  modify (upd_orders (insert id o)).

Definition Order_findByIdAndDelete (id : ObjectId) : Handler unit :=
  modify (upd_orders (delete id)).

(** The pre-save hook of the order schema, for a new document: the order
    number and the initial entry of the status history. *)
Definition order_preSave_new (env : Env) (count : nat) (this : Order) : Order :=
  let this := set_orderNumber (Some (now env, S count)) this in
  push_statusHistory
    {| se_status := status this; se_timestamp := now env;
       se_note := "Order placed"; se_updatedBy := None |} this.

(** [Order.create]: the validation of the schema, which Mongoose runs
    before the [pre('save')] hooks of the schema, then the hook above, and
    the insertion under the new document's [_id], which the unique index
    on [_id] refuses for an id already stored. *)
Definition Order_create (env : Env) (orderData : Order) : Handler Order :=
  throw_if (negb (validateOrder orderData)) MongooseValidation ;;;
  count <~ gets (fun w => size (orders w)) ;;
  let order := order_preSave_new env count orderData in
  existing <~ Order_findById (newOrderId env) ;;
  match existing with
  | Some _ => throw DuplicateKey
  | None => Order_save (newOrderId env) order ;;; ret order
  end.

Definition MenuItem_findById (id : ObjectId) : Handler (option MenuItem) :=
  gets (fun w => menuItems w !! id).

(** [menuItem.save()]: runs the pre-save hook on the document and stores it;
    the result is the document as the hook left it. *)
Definition MenuItem_save (id : ObjectId) (m : MenuItem) : Handler MenuItem :=
  let m := menuItem_preSave m in
  modify (upd_menuItems (insert id m)) ;;; ret m.

(** [MenuItem.find({ _id: { $in: ids }, restaurant, status: 'active' })]:
    the stored documents matching the query, each once. *)
Definition MenuItem_find_query (ids : list N) (restaurantId : N)
    (kv : N * MenuItem) : Prop :=
  kv.1 ∈ ids ∧ mi_restaurant kv.2 = restaurantId ∧ mi_status kv.2 = active.

#[global] Instance MenuItem_find_query_dec ids r kv :
  Decision (MenuItem_find_query ids r kv).
Proof. unfold MenuItem_find_query. apply _. Defined.

Definition MenuItem_find (ids : list N) (restaurantId : N) : Handler (gmap N MenuItem) :=
  gets (fun w => filter (MenuItem_find_query ids restaurantId) (menuItems w)).

(** The method [updateRating] of the restaurant model (models/Restaurant.js).
    With no review of the restaurant the average becomes [newRating] and
    the count 1.  Otherwise the average is computed from
    [reviews.reduce((sum, review) => sum + review.rating, 0)]:
    [review.rating] is an object, so the sum is a string that reads as no
    number, the average is [NaN], the schema's [Number] does not take it
    and [save] rejects. *)
Definition set_restaurantRating (average : option Q) (count : Z)
    (this : Restaurant) : Restaurant :=
  {| rest_owner := rest_owner this; rest_status := rest_status this;
     rest_deliveryFee := rest_deliveryFee this;
     rest_minimumOrder := rest_minimumOrder this;
     rest_ratingAverage := average; rest_ratingCount := count;
     rest_totalOrders := rest_totalOrders this;
     rest_totalRevenue := rest_totalRevenue this |}.

Definition Restaurant_updateRating (id : ObjectId) (this : Restaurant)
    (newRating : option Q) : Handler unit :=
  reviews <~ gets (fun w => filter (fun r => rv_restaurant r = id) (reviews w)) ;;
  if (length reviews =? 0)%nat then
    modify (upd_restaurants (insert id (set_restaurantRating newRating 1 this)))
  else throw MongooseValidation.

(** The validators of the review schema on the fields of the embedding. *)
Definition markInRange (mark : Z) : bool := (1 <=? mark) && (mark <=? 5).

Definition validReview (r : Review) : bool :=
  markInRange (rv_overall r) && markInRange (rv_food r)
  && markInRange (rv_delivery r) && markInRange (rv_service r)
  && markInRange (rv_packaging r)
  && nonEmpty (rv_comment r) && (String.length (rv_comment r) <=? 1000)%nat.

(** [Review.create]: validation, insertion, and the [post('save')] hook
    of the review schema (models/Review.js), which recomputes the rating of
    the review's restaurant when that restaurant is stored.  The review is
    stored when the hook runs, its status is the default, active, and it
    names no menu item, so the hook's second part does nothing. *)
Definition Review_create (r : Review) : Handler unit :=
  throw_if (negb (validReview r)) MongooseValidation ;;;
  modify (upd_reviews (fun l => l ++ [r])) ;;;
  restaurant <~ gets (fun w => restaurants w !! rv_restaurant r) ;;
  match restaurant with
  | Some restaurant => Restaurant_updateRating (rv_restaurant r) restaurant None
  | None => ret tt
  end.

Definition emit (e : Event) : Handler unit :=
  modify (upd_emitted (fun l => l ++ [e])).

(** ** The mocked payment gateway *)

Record PaymentResult := {
  pr_transactionId : string;
  pr_status : PaymentStatus;
  pr_gateway : PaymentGateway
}.

Definition processPayment (env : Env) (paymentMethod : PaymentMethod) (amount : Q)
    : Handler PaymentResult :=
  modify (upd_charges (fun l => l ++ [(paymentMethod, amount)])) ;;;
  let isSuccess := gatewayAccepts env in
  if isSuccess then
    ret {| pr_transactionId := newTransactionId env;
           pr_status := pay_completed;
           pr_gateway := if bool_decide (paymentMethod = card) then stripe else razorpay |}
  else throw PaymentError.

(** ** Requests *)

(** The body of [POST /], with the fields typed as the validators and the
    arithmetic of the route read them: quantities and the tip are numbers.
    A quantity sent as a JSON string of digits passes [isInt] as well, and
    the tip has no validator; such bodies are not represented.  The route
    reads both fields only after the availability test of its pricing
    loop. *)
Record OrderItemRequest := {
  ri_menuItem : ObjectId;
  ri_quantity : Z;
  ri_customizations : option (list SelectedCustomization);
  ri_addOns : option (list SelectedAddOn);
  ri_specialInstructions : option string
}.

Record CreateOrderBody := {
  b_restaurant : ObjectId;
  b_items : list OrderItemRequest;
  b_deliveryAddress : DeliveryAddress;
  b_phone : string;
  b_paymentMethod : PaymentMethod;
  b_tip : option Q
}.

Record RateBody := {
  rb_food : Z;
  rb_delivery : Z;
  rb_overall : Z;
  rb_review : option string
}.

Definition validRateBody (b : RateBody) : bool :=
  (1 <=? rb_food b) && (rb_food b <=? 5)
  && (1 <=? rb_delivery b) && (rb_delivery b <=? 5)
  && (1 <=? rb_overall b) && (rb_overall b <=? 5)
  && match rb_review b with
     | Some r => (String.length r <=? 500)%nat
     | None => true
     end.

(** The statuses the validator of [PATCH /:id/status] lets through. *)
Definition statusBodyValues : list OrderStatus :=
  [pending; confirmed; preparing; ready_for_pickup;
   out_for_delivery; delivered; cancelled].

(** The table [validTransitions]; a status without a key reads as
    [undefined]. *)
Definition validTransitions (s : OrderStatus) : option (list OrderStatus) :=
  match s with
  | pending => Some [confirmed; cancelled]
  | confirmed => Some [preparing; cancelled]
  | preparing => Some [ready_for_pickup; cancelled]
  | ready_for_pickup => Some [out_for_delivery]
  | out_for_delivery => Some [delivered]
  | delivered => Some []
  | cancelled => Some []
  | refunded => None
  end.

(** ** The order routes (routes/orders.js) *)

(** The order document that [POST /] hands to [Order.create], given the
    restaurant and the result of the pricing loop. *)
Definition orderDataOf (env : Env) (user : User) (body : CreateOrderBody)
    (restaurant : Restaurant) (subtotal : Q) (orderItems : list OrderItem) : Order :=
  let deliveryFee := rest_deliveryFee restaurant in
  let tax := (subtotal * (8 # 100))%Q in
  let discount := 0%Q in
  let tip := orQ (b_tip body) 0 in
  let total := (subtotal + deliveryFee + tax - discount + tip)%Q in
  {| orderNumber := None;
     o_user := u_id user; o_restaurant := b_restaurant body;
     items := orderItems;
     pricing := {| subtotal := subtotal; deliveryFee := deliveryFee;
                   tax := tax; discount_amount := discount;
                   tip := tip; total := total |};
     deliveryAddress := b_deliveryAddress body;
     contactPhone := b_phone body;
     status := pending; statusHistory := [];
     estimatedDeliveryTime := now env + 45 * 60000;
     actualDeliveryTime := None;
     paymentInfo := {| pi_method := b_paymentMethod body;
                       pi_status := pay_pending;
                       pi_transactionId := None;
                       pi_paymentGateway := None;
                       pi_paidAt := None; pi_refundedAt := None;
                       pi_refundAmount := 0 |};
     deliveryTracking := {| pickedUpAt := None; estimatedArrival := None |};
     rating := noRating; cancellationReason := None |}.

Section Routes.

(** The phone check of the validation library. *)
Variable isMobilePhone : string → bool.

Definition validCreateBody (b : CreateOrderBody) : bool :=
  negb (length (b_items b) =? 0)%nat
  && forallb (fun i => 1 <=? ri_quantity i) (b_items b)
  && nonEmpty (street (b_deliveryAddress b))
  && nonEmpty (city (b_deliveryAddress b))
  && nonEmpty (state (b_deliveryAddress b))
  && nonEmpty (zipCode (b_deliveryAddress b))
  && isMobilePhone (b_phone b).

(** The first loop of [POST /]: availability checks and pricing, line by
    line, accumulating [subtotal] and [orderItems]. *)
Fixpoint priceItems (env : Env) (menuItems : gmap N MenuItem)
    (items : list OrderItemRequest) (subtotal : Q) (orderItems : list OrderItem)
    : Handler (Q * list OrderItem) :=
  match items with
  | [] => ret (subtotal, orderItems)
  | orderItem :: rest =>
      match menuItems !! ri_menuItem orderItem with
      | None => throw ServerError
      | Some menuItem =>
          available <~ lift (isCurrentlyAvailable env menuItem) ;;
          throw_if (negb available) Validation ;;;
          throw_if (match availableQuantity (mi_availability menuItem) with
                    | Some q => q <? ri_quantity orderItem
                    | None => false
                    end) Validation ;;;
          let itemPrice :=
            calculatePrice menuItem
              (default [] (ri_customizations orderItem))
              (default [] (ri_addOns orderItem)) in
          let itemTotal := (itemPrice * inject_Z (ri_quantity orderItem))%Q in
          let subtotal := (subtotal + itemTotal)%Q in
          priceItems env menuItems rest subtotal
            (orderItems ++
             [{| oi_menuItem := ri_menuItem orderItem;
                 oi_name := mi_name menuItem;
                 oi_price := itemPrice;
                 oi_quantity := ri_quantity orderItem;
                 oi_customizations := default [] (ri_customizations orderItem);
                 oi_addOns := default [] (ri_addOns orderItem);
                 oi_specialInstructions :=
                   orString (ri_specialInstructions orderItem) EmptyString;
                 oi_itemTotal := itemTotal |}])
      end
  end.

(** The second loop of [POST /]: the loaded menu item documents are
    decremented and saved. *)
Fixpoint updateQuantities (menuItems : gmap N MenuItem)
    (items : list OrderItemRequest) : Handler unit :=
  match items with
  | [] => ret tt
  | orderItem :: rest =>
      match menuItems !! ri_menuItem orderItem with
      | None => throw ServerError
      | Some menuItem =>
          menuItem <~
            match availableQuantity (mi_availability menuItem) with
            | Some q =>
                MenuItem_save (ri_menuItem orderItem)
                  (set_availableQuantity (Some (q - ri_quantity orderItem)) menuItem)
            | None => ret menuItem
            end ;;
          menuItem <~
            MenuItem_save (ri_menuItem orderItem)
              (set_orderCount (mi_orderCount menuItem + ri_quantity orderItem) menuItem) ;;
          updateQuantities (<[ri_menuItem orderItem := menuItem]> menuItems) rest
      end
  end.

(** The payment step of [POST /]. *)
Definition payOrder (env : Env) (method : PaymentMethod) (total : Q)
    (id : ObjectId) (order : Order) : Handler Order :=
  if negb (bool_decide (method = cash_on_delivery)) then
    try_catch
      (paymentResult <~ processPayment env method total ;;
       let order :=
         set_paymentInfo
           {| pi_method := pi_method (paymentInfo order);
              pi_status := pr_status paymentResult;
              pi_transactionId := Some (pr_transactionId paymentResult);
              pi_paymentGateway := Some (pr_gateway paymentResult);
              pi_paidAt := Some (now env);
              pi_refundedAt := pi_refundedAt (paymentInfo order);
              pi_refundAmount := pi_refundAmount (paymentInfo order) |} order in
       Order_save id order ;;; ret order)
      (fun paymentError =>
         Order_findByIdAndDelete id ;;; throw paymentError)
  else ret order.

(** [POST /api/orders], up to and including [Order.create]. *)
Definition placeOrder (env : Env) (user : User) (body : CreateOrderBody)
    : Handler (Order * Restaurant * gmap N MenuItem) :=
  throw_if (negb (validCreateBody body)) Validation ;;;
  let restaurantId := b_restaurant body in
  let items := b_items body in
  restaurant <~ gets (fun w => restaurants w !! restaurantId) ;;
  match restaurant with
  | None => throw NotFound
  | Some restaurant =>
      throw_if (negb (bool_decide (rest_status restaurant = r_active))) NotFound ;;;
      let menuItemIds := map ri_menuItem items in
      menuItems <~ MenuItem_find menuItemIds restaurantId ;;
      throw_if (negb (size menuItems =? length menuItemIds)%nat) Validation ;;;
      priced <~ priceItems env menuItems items 0%Q [] ;;
      let subtotal := priced.1 in
      let orderItems := priced.2 in
      throw_if (Qltb subtotal (rest_minimumOrder restaurant)) Validation ;;;
      let orderData := orderDataOf env user body restaurant subtotal orderItems in
      order <~ Order_create env orderData ;;
      ret (order, restaurant, menuItems)
  end.

(** [POST /api/orders]. *)
Definition createOrder (env : Env) (user : User) (body : CreateOrderBody)
    : Handler Order :=
  placed <~ placeOrder env user body ;;
  let '(order, restaurant, menuItems) := placed in
  let amount := total (pricing order) in
  order <~ payOrder env (b_paymentMethod body) amount (newOrderId env) order ;;
  updateQuantities menuItems (b_items body) ;;;
  modify (upd_restaurants (insert (b_restaurant body)
    {| rest_owner := rest_owner restaurant; rest_status := rest_status restaurant;
       rest_deliveryFee := rest_deliveryFee restaurant;
       rest_minimumOrder := rest_minimumOrder restaurant;
       rest_ratingAverage := rest_ratingAverage restaurant;
       rest_ratingCount := rest_ratingCount restaurant;
       rest_totalOrders := rest_totalOrders restaurant + 1;
       rest_totalRevenue := (rest_totalRevenue restaurant + amount)%Q |})) ;;;
  emit (NewOrder (b_restaurant body) (newOrderId env)
          (total (pricing order)) (length (items order))) ;;;
  ret order.

(** The method [updateStatus]: the assignments, then [save]. *)
Definition updateStatus (env : Env) (newStatus : OrderStatus) (note : string)
    (updatedBy : option ObjectId) (id : ObjectId) (this : Order) : Handler Order :=
  let this := updateStatus_assign env newStatus note updatedBy this in
  Order_save id this ;;; ret this.

(** [PATCH /api/orders/:id/status]. *)
Definition patchStatus (env : Env) (user : User) (id : ObjectId)
    (newStatus : OrderStatus) (note : option string) : Handler Order :=
  throw_if (negb (includes statusBodyValues newStatus)) Validation ;;;
  order <~ Order_findById id ;;
  match order with
  | None => throw NotFound
  | Some order =>
      populated <~ gets (fun w => restaurants w !! o_restaurant order) ;;
      canUpdate <~
        (if bool_decide (u_role user = role_admin) then ret true
         else if bool_decide (u_role user = role_restaurant_owner) then
           match populated with
           | Some restaurant => ret (bool_decide (rest_owner restaurant = u_id user))
           | None => throw ServerError
           end
         else ret false) ;;
      throw_if (negb canUpdate) Authorization ;;;
      match validTransitions (status order) with
      | None => throw ServerError
      | Some allowed =>
          throw_if (negb (includes allowed newStatus)) Validation ;;;
          order <~ updateStatus env newStatus (default EmptyString note)
                     (Some (u_id user)) id order ;;
          emit (OrderStatusUpdate id (status order)) ;;;
          ret order
      end
  end.

(** The last loop of [PATCH /:id/cancel]: quantities go back to the menu. *)
Fixpoint restoreQuantities (items : list OrderItem) : Handler unit :=
  match items with
  | [] => ret tt
  | item :: rest =>
      menuItem <~ MenuItem_findById (oi_menuItem item) ;;
      match menuItem with
      | Some menuItem =>
          match availableQuantity (mi_availability menuItem) with
          | Some q =>
              MenuItem_save (oi_menuItem item)
                (set_availableQuantity (Some (q + oi_quantity item)) menuItem) ;;;
              ret tt
          | None => ret tt
          end
      | None => ret tt
      end ;;;
      restoreQuantities rest
  end.

Definition cancelNote (user : User) (reason : string) : string :=
  "Cancelled by "
  +:+ (if bool_decide (u_role user = role_admin) then "admin" else "customer")
  +:+ ": " +:+ reason.

(** [PATCH /api/orders/:id/cancel]; the result is the order and the refund
    amount of the response. *)
Definition cancelOrder (env : Env) (user : User) (id : ObjectId) (reason : string)
    : Handler (Order * Q) :=
  throw_if (negb (nonEmpty reason)) Validation ;;;
  order <~ Order_findById id ;;
  match order with
  | None => throw NotFound
  | Some order =>
      throw_if (negb (bool_decide (o_user order = u_id user))
                && negb (bool_decide (u_role user = role_admin))) Authorization ;;;
      throw_if (negb (canBeCancelled order)) Validation ;;;
      let refundAmount := calculateRefundAmount order in
      let order := set_status cancelled order in
      let order := set_cancellationReason (Some reason) order in
      let order :=
        push_statusHistory
          {| se_status := cancelled; se_timestamp := now env;
             se_note := cancelNote user reason;
             se_updatedBy := Some (u_id user) |} order in
      let order :=
        if bool_decide (pi_status (paymentInfo order) = pay_completed)
           && Qltb 0 refundAmount
        then set_paymentInfo
               {| pi_method := pi_method (paymentInfo order);
                  pi_status := pay_refunded;
                  pi_transactionId := pi_transactionId (paymentInfo order);
                  pi_paymentGateway := pi_paymentGateway (paymentInfo order);
                  pi_paidAt := pi_paidAt (paymentInfo order);
                  pi_refundedAt := Some (now env);
                  pi_refundAmount := refundAmount |} order
        else order in
      Order_save id order ;;;
      restoreQuantities (items order) ;;;
      emit (OrderCancelled (o_restaurant order) id reason) ;;;
      ret (order, refundAmount)
  end.

(** [POST /api/orders/:id/rate]; the result is the rating of the response. *)
Definition rateOrder (env : Env) (user : User) (id : ObjectId) (body : RateBody)
    : Handler Rating :=
  throw_if (negb (validRateBody body)) Validation ;;;
  order <~ Order_findById id ;;
  match order with
  | None => throw NotFound
  | Some order =>
      throw_if (negb (bool_decide (o_user order = u_id user))) Authorization ;;;
      throw_if (negb (bool_decide (status order = delivered))) Validation ;;;
      throw_if (truthyZ (r_overall (rating order))) Validation ;;;
      let order :=
        set_rating
          {| r_food := Some (rb_food body);
             r_delivery := Some (rb_delivery body);
             r_overall := Some (rb_overall body);
             r_review := Some (orString (rb_review body) EmptyString);
             r_ratedAt := Some (now env) |} order in
      Order_save id order ;;;
      Review_create
        {| rv_user := u_id user; rv_restaurant := o_restaurant order;
           rv_order := id;
           rv_overall := rb_overall body; rv_food := rb_food body;
           rv_delivery := rb_delivery body;
           rv_service := rb_overall body; rv_packaging := rb_food body;
           rv_comment := orString (rb_review body) "No comment provided";
           rv_isVerifiedPurchase := true |} ;;;
      ret (rating order)
  end.

End Routes.

(** ** What the specification says, as definitions of their own *)

(** §4.3, refund policy by status at cancellation time. *)
Definition refund_policy (totalAmount : Q) (s : OrderStatus) : Q :=
  match s with
  | pending | confirmed => totalAmount
  | preparing => ((80 # 100) * totalAmount)%Q
  | ready_for_pickup => ((50 # 100) * totalAmount)%Q
  | _ => 0%Q
  end.

Definition Qsum (l : list Q) : Q := foldr Qplus 0%Q l.

(** §4.1: a selected customization resolved against the item's
    customization option table; an unmatched name contributes nothing. *)
Definition customizationPrice (m : MenuItem) (c : SelectedCustomization) : Q :=
  match find (fun cfg => String.eqb (cz_name cfg) (sc_name c)) (mi_customizations m) with
  | Some cfg =>
      match find (fun o => String.eqb (opt_name o) (sc_selectedOption c)) (cz_options cfg) with
      | Some o => opt_price o
      | None => 0%Q
      end
  | None => 0%Q
  end.

(** The price of an add-on in the item's add-on table, if it is there. *)
Definition addOnUnitPrice (m : MenuItem) (a : SelectedAddOn) : Q :=
  match find (fun cfg => String.eqb (ao_name cfg) (sa_name a)) (mi_addOns m) with
  | Some cfg => ao_price cfg
  | None => 0%Q
  end.

(** The multiplier as the specification words it: the quantity, 1 when no
    quantity is given. *)
Definition quantity_or_default (a : SelectedAddOn) : Q := default 1%Q (sa_quantity a).

(** The multiplier with a zero quantity counted like a missing one. *)
Definition quantity_or_one (a : SelectedAddOn) : Q :=
  match sa_quantity a with
  | Some q => if Qeq_bool q 0 then 1%Q else q
  | None => 1%Q
  end.

Definition unitPrice_with (multiplier : SelectedAddOn → Q) (m : MenuItem)
    (cs : list SelectedCustomization) (adds : list SelectedAddOn) : Q :=
  (mi_price m
   + Qsum (map (customizationPrice m) cs)
   + Qsum (map (fun a => addOnUnitPrice m a * multiplier a) adds))%Q.

(** Σ unit price × quantity over the line items of an order. *)
Definition lineTotal (items : list OrderItem) : Q :=
  Qsum (map (fun i => oi_price i * inject_Z (oi_quantity i))%Q items).

(** The quantity an order holds of one menu item, over all its lines. *)
Definition orderedQuantity (menuItem : N) (items : list OrderItem) : Z :=
  foldr (fun i acc => if bool_decide (oi_menuItem i = menuItem)
                      then oi_quantity i + acc else acc) 0 items.

(** The menu after the restoring loop of a cancellation, line by line. *)
Definition restore_one (M : gmap N MenuItem) (item : OrderItem) : gmap N MenuItem :=
  match M !! oi_menuItem item with
  | Some m =>
      match availableQuantity (mi_availability m) with
      | Some q =>
          <[oi_menuItem item :=
              menuItem_preSave (set_availableQuantity (Some (q + oi_quantity item)) m)]> M
      | None => M
      end
  | None => M
  end.

Definition restoreMenu (items : list OrderItem) (M : gmap N MenuItem) : gmap N MenuItem :=
  fold_left restore_one items M.

(** The order document as a cancellation leaves it. *)
Definition cancel_assign (env : Env) (user : User) (reason : string) (o : Order) : Order :=
  let refundAmount := calculateRefundAmount o in
  let order := set_status cancelled o in
  let order := set_cancellationReason (Some reason) order in
  let order :=
    push_statusHistory
      {| se_status := cancelled; se_timestamp := now env;
         se_note := cancelNote user reason;
         se_updatedBy := Some (u_id user) |} order in
  if bool_decide (pi_status (paymentInfo order) = pay_completed) && Qltb 0 refundAmount
  then set_paymentInfo
         {| pi_method := pi_method (paymentInfo order);
            pi_status := pay_refunded;
            pi_transactionId := pi_transactionId (paymentInfo order);
            pi_paymentGateway := pi_paymentGateway (paymentInfo order);
            pi_paidAt := pi_paidAt (paymentInfo order);
            pi_refundedAt := Some (now env);
            pi_refundAmount := refundAmount |} order
  else order.

(** Who passes the authorization checks of the routes. *)
Definition mayUpdateStatus (w : World) (user : User) (o : Order) : Prop :=
  u_role user = role_admin
  ∨ (u_role user = role_restaurant_owner
     ∧ ∃ r, restaurants w !! o_restaurant o = Some r ∧ rest_owner r = u_id user).

Definition mayCancel (user : User) (o : Order) : Prop :=
  o_user o = u_id user ∨ u_role user = role_admin.

(** An order is rated when its rating fields are set; the rating of a
    stored order is either absent or complete with an overall mark within
    the schema's bounds. *)
Definition ratingComplete (r : Rating) : Prop :=
  ∃ f d ov rv t,
    r = {| r_food := Some f; r_delivery := Some d; r_overall := Some ov;
           r_review := Some rv; r_ratedAt := Some t |}
    ∧ 1 ≤ ov ≤ 5.

Definition ratingInv (r : Rating) : Prop := r = noRating ∨ ratingComplete r.

(** The rating fields a rating request sets. *)
Definition ratingOf (env : Env) (body : RateBody) : Rating :=
  {| r_food := Some (rb_food body);
     r_delivery := Some (rb_delivery body);
     r_overall := Some (rb_overall body);
     r_review := Some (orString (rb_review body) EmptyString);
     r_ratedAt := Some (now env) |}.

(** The review a rating request publishes. *)
Definition reviewOf (user : User) (restaurant id : ObjectId) (body : RateBody) : Review :=
  {| rv_user := u_id user; rv_restaurant := restaurant; rv_order := id;
     rv_overall := rb_overall body; rv_food := rb_food body;
     rv_delivery := rb_delivery body;
     rv_service := rb_overall body; rv_packaging := rb_food body;
     rv_comment := orString (rb_review body) "No comment provided";
     rv_isVerifiedPurchase := true |}.

(** How a request can change one stored order: the assignments of
    [updateStatus], of a cancellation, or of a rating. *)
Inductive order_change (env : Env) (o : Order) : Order → Prop :=
  | change_status t n u :
      includes statusBodyValues t = true →
      order_change env o (updateStatus_assign env t n u o)
  | change_cancel user reason :
      canBeCancelled o = true →
      order_change env o (cancel_assign env user reason o)
  | change_rate body :
      validRateBody body = true →
      status o = delivered →
      order_change env o (set_rating (ratingOf env body) o).

(** How a request can change the order collection: not at all, or by
    changing one stored order. *)
Inductive orders_step (env : Env) (w w' : World) : Prop :=
  | step_none :
      orders w' = orders w → orders_step env w w'
  | step_change id o o' :
      orders w !! id = Some o →
      order_change env o o' →
      orders w' = <[id := o']> (orders w) →
      orders_step env w w'.

(** The requests that write to the order collection. *)
Inductive Request :=
  | ReqCreate (user : User) (body : CreateOrderBody)
  | ReqPatchStatus (user : User) (id : N) (newStatus : OrderStatus) (note : option string)
  | ReqCancel (user : User) (id : N) (reason : string)
  | ReqRate (user : User) (id : N) (body : RateBody).

(** The world a request leaves behind, whether it succeeds or throws. *)
Definition handle (isMobilePhone : string → bool) (env : Env) (r : Request)
    (w : World) : World :=
  match r with
  | ReqCreate user body => (createOrder isMobilePhone env user body w).2
  | ReqPatchStatus user id newStatus note => (patchStatus env user id newStatus note w).2
  | ReqCancel user id reason => (cancelOrder env user id reason w).2
  | ReqRate user id body => (rateOrder env user id body w).2
  end.

(** ** Sample data *)

Module Sample.

Definition pizza : MenuItem :=
  {| mi_name := "Pizza"; mi_restaurant := 1%N; mi_price := 10;
     mi_customizations :=
       [{| cz_name := "size";
           cz_options := [{| opt_name := "large"; opt_price := 2 |}] |}];
     mi_addOns := [{| ao_name := "cheese"; ao_price := 1 |}];
     mi_availability :=
       {| isAvailable := true; availableQuantity := Some 5; availableDays := [];
          availableHours_start := "00:00"; availableHours_end := "23:59" |};
     mi_orderCount := 0; mi_isPopular := false; mi_status := active |}.

(** The same dish, sold out. *)
Definition soldOut : MenuItem := set_availableQuantity (Some 0) pizza.

Definition large : SelectedCustomization :=
  {| sc_name := "size"; sc_selectedOption := "large" |}.

Definition cheese (q : option Q) : SelectedAddOn :=
  {| sa_name := "cheese"; sa_price := Some 1%Q; sa_quantity := q |}.

Definition diner : Restaurant :=
  {| rest_owner := 7%N; rest_status := r_active; rest_deliveryFee := 2;
     rest_minimumOrder := 5; rest_ratingAverage := Some 0%Q; rest_ratingCount := 0;
     rest_totalOrders := 0; rest_totalRevenue := 0 |}.

Definition alice : User := {| u_id := 5%N; u_role := role_user; u_name := "alice" |}.
Definition owner : User :=
  {| u_id := 7%N; u_role := role_restaurant_owner; u_name := "olive" |}.

Definition env : Env :=
  {| now := 1000; currentDay := "monday"; currentTime := "12:30";
     newOrderId := 100%N; gatewayAccepts := true; newTransactionId := "txn_1" |}.


Definition world : World :=
  {| orders := ∅; menuItems := {[ 10%N := pizza ]};
     restaurants := {[ 1%N := diner ]};
     reviews := []; charges := []; emitted := [] |}.

(** The same world with one pizza left. *)
Definition worldShort : World :=
  {| orders := ∅; menuItems := {[ 10%N := set_availableQuantity (Some 1) pizza ]};
     restaurants := {[ 1%N := diner ]};
     reviews := []; charges := []; emitted := [] |}.

Definition worldSoldOut : World :=
  {| orders := ∅; menuItems := {[ 10%N := soldOut ]};
     restaurants := {[ 1%N := diner ]};
     reviews := []; charges := []; emitted := [] |}.

Definition body (method : PaymentMethod) : CreateOrderBody :=
  {| b_restaurant := 1%N;
     b_items :=
       [{| ri_menuItem := 10%N; ri_quantity := 2;
           ri_customizations := Some [large];
           ri_addOns := Some [cheese (Some 3%Q)];
           ri_specialInstructions := None |}];
     b_deliveryAddress :=
       {| street := "1 Main St"; city := "Springfield"; state := "IL";
          zipCode := "62701" |};
     b_phone := "+15551234567"; b_paymentMethod := method; b_tip := None |}.

Definition anyPhone (s : string) : bool := true.

(** An order as stored, in a given status and with a given total. *)
Definition orderIn (s : OrderStatus) (t : Q) : Order :=
  {| orderNumber := Some (1000, 1%nat); o_user := 5%N; o_restaurant := 1%N;
     items :=
       [{| oi_menuItem := 10%N; oi_name := "Pizza"; oi_price := 15;
           oi_quantity := 2; oi_customizations := [large];
           oi_addOns := [cheese (Some 3%Q)];
           oi_specialInstructions := EmptyString; oi_itemTotal := 30 |}];
     pricing := {| subtotal := 30; deliveryFee := 2; tax := 24 # 10;
                   discount_amount := 0; tip := 0; total := t |};
     deliveryAddress :=
       {| street := "1 Main St"; city := "Springfield"; state := "IL";
          zipCode := "62701" |};
     contactPhone := "+15551234567";
     status := s;
     statusHistory :=
       [{| se_status := s; se_timestamp := 1000; se_note := "Order placed";
           se_updatedBy := None |}];
     estimatedDeliveryTime := 2701000; actualDeliveryTime := None;
     paymentInfo :=
       {| pi_method := cash_on_delivery; pi_status := pay_pending;
          pi_transactionId := None; pi_paymentGateway := None;
          pi_paidAt := None; pi_refundedAt := None; pi_refundAmount := 0 |};
     deliveryTracking := {| pickedUpAt := None; estimatedArrival := None |};
     rating := noRating; cancellationReason := None |}.

(** A world holding that order under id 100, after its two pizzas left the
    stock. *)
Definition worldWith (s : OrderStatus) : World :=
  {| orders := {[ 100%N := orderIn s (344 # 10) ]};
     menuItems := {[ 10%N := set_availableQuantity (Some 3) pizza ]};
     restaurants := {[ 1%N := diner ]};
     reviews := []; charges := []; emitted := [] |}.

Definition fiveStars : RateBody :=
  {| rb_food := 5; rb_delivery := 4; rb_overall := 5; rb_review := None |}.

End Sample.

(** ** More of the order model (models/Order.js) *)

(** The virtual [deliveryTimeRemaining], in minutes; the record always
    holds an [estimatedDeliveryTime], so the branch for a missing one is
    not taken. *)
Definition deliveryTimeRemaining (env : Env) (this : Order) : Z :=
  let remaining := estimatedDeliveryTime this - now env in
  if 0 <? remaining then remaining / (1000 * 60) else 0.

(** The method [getDeliveryDelay], in minutes. *)
Definition getDeliveryDelay (this : Order) : Z :=
  match actualDeliveryTime this with
  | None => 0
  | Some actual => Z.max 0 ((actual - estimatedDeliveryTime this) / (1000 * 60))
  end.

(** The position of a status along the life of an order. *)
Definition statusRank (s : OrderStatus) : nat :=
  match s with
  | pending => 0
  | confirmed => 1
  | preparing => 2
  | ready_for_pickup => 3
  | out_for_delivery => 4
  | delivered => 5
  | cancelled => 6
  | refunded => 7
  end.

(** How a request changes one stored order, with what the route checked
    before changing it. *)
Inductive order_move (env : Env) (o : Order) : Order → Prop :=
  | move_status user t note allowed :
      validTransitions (status o) = Some allowed →
      t ∈ allowed →
      order_move env o (updateStatus_assign env t note (Some (u_id user)) o)
  | move_cancel user reason :
      canBeCancelled o = true →
      order_move env o (cancel_assign env user reason o)
  | move_rate body :
      validRateBody body = true →
      status o = delivered →
      truthyZ (r_overall (rating o)) = false →
      order_move env o (set_rating (ratingOf env body) o).

(** How a request changes the order collection. *)
Inductive orders_move (env : Env) (w w' : World) : Prop :=
  | moved_none :
      orders w' = orders w → orders_move env w w'
  | moved_one id o o' :
      orders w !! id = Some o →
      order_move env o o' →
      orders w' = <[id := o']> (orders w) →
      orders_move env w w'.

(** The history of a stored order ends with its current status. *)
Definition historyEndsWithStatus (o : Order) : Prop :=
  se_status <$> last (statusHistory o) = Some (status o).

(** ** The menu routes (routes/menu.js) *)

Definition set_isAvailable (b : bool) (this : MenuItem) : MenuItem :=
  {| mi_name := mi_name this; mi_restaurant := mi_restaurant this;
     mi_price := mi_price this; mi_customizations := mi_customizations this;
     mi_addOns := mi_addOns this;
     mi_availability :=
       {| isAvailable := b;
          availableQuantity := availableQuantity (mi_availability this);
          availableDays := availableDays (mi_availability this);
          availableHours_start := availableHours_start (mi_availability this);
          availableHours_end := availableHours_end (mi_availability this) |};
     mi_orderCount := mi_orderCount this; mi_isPopular := mi_isPopular this;
     mi_status := mi_status this |}.

Definition set_menuItemStatus (s : MenuItemStatus) (this : MenuItem) : MenuItem :=
  {| mi_name := mi_name this; mi_restaurant := mi_restaurant this;
     mi_price := mi_price this; mi_customizations := mi_customizations this;
     mi_addOns := mi_addOns this; mi_availability := mi_availability this;
     mi_orderCount := mi_orderCount this; mi_isPopular := mi_isPopular this;
     mi_status := s |}.

Section MenuRoutes.

(** The middleware [requireRestaurantOwner] of middleware/auth.js, which the
    routes below run after the authentication and before their validators
    and handler.  Its file is not among the sources, so it is a parameter:
    the error it answers for a user it stops, if any. *)
Variable requireRestaurantOwner : User → option ErrorKind.

Definition runMiddleware (check : option ErrorKind) : Handler unit :=
  match check with
  | Some e => throw e
  | None => ret tt
  end.

(** The ownership check of the menu routes, on the menu item with its
    restaurant populated: an admin passes; for anyone else the owner of the
    restaurant is read, which throws when the restaurant is gone. *)
Definition checkMenuOwnership (user : User) (menuItem : MenuItem) : Handler unit :=
  if negb (bool_decide (u_role user = role_admin)) then
    populated <~ gets (fun w => restaurants w !! mi_restaurant menuItem) ;;
    match populated with
    | Some restaurant =>
        throw_if (negb (bool_decide (rest_owner restaurant = u_id user))) Authorization
    | None => throw ServerError
    end
  else ret tt.

(** [PATCH /api/menu/:id/availability], for an authenticated user; a
    quantity left out of the body is [None]. *)
Definition patchAvailability (user : User) (id : ObjectId)
    (isAvailableBody : bool) (availableQuantityBody : option Z) : Handler MenuItem :=
  runMiddleware (requireRestaurantOwner user) ;;;
  throw_if (match availableQuantityBody with
            | Some q => q <? 0
            | None => false
            end) Validation ;;;
  menuItem <~ MenuItem_findById id ;;
  match menuItem with
  | None => throw NotFound
  | Some menuItem =>
      checkMenuOwnership user menuItem ;;;
      let menuItem := set_isAvailable isAvailableBody menuItem in
      let menuItem :=
        match availableQuantityBody with
        | Some q => set_availableQuantity (Some q) menuItem
        | None => menuItem
        end in
      MenuItem_save id menuItem
  end.

(** [DELETE /api/menu/:id], for an authenticated user: a soft delete. *)
Definition deleteMenuItem (user : User) (id : ObjectId) : Handler unit :=
  runMiddleware (requireRestaurantOwner user) ;;;
  menuItem <~ MenuItem_findById id ;;
  match menuItem with
  | None => throw NotFound
  | Some menuItem =>
      checkMenuOwnership user menuItem ;;;
      let menuItem := set_menuItemStatus inactive menuItem in
      MenuItem_save id menuItem ;;; ret tt
  end.

End MenuRoutes.

(** [GET /api/menu/:id]. *)
Definition getMenuItem (id : ObjectId) : Handler MenuItem :=
  menuItem <~ MenuItem_findById id ;;
  match menuItem with
  | None => throw NotFound
  | Some menuItem =>
      throw_if (negb (bool_decide (mi_status menuItem = active))) NotFound ;;;
      ret menuItem
  end.

(** Who passes the ownership check of the menu routes. *)
Definition ownsMenuItem (w : World) (user : User) (m : MenuItem) : Prop :=
  u_role user = role_admin
  ∨ ∃ r, restaurants w !! mi_restaurant m = Some r ∧ rest_owner r = u_id user.

(** The requests that write to the order or menu collections. *)
Inductive AnyRequest :=
  | OrderReq (r : Request)
  | ReqAvailability (user : User) (id : N) (isAvailableBody : bool)
      (availableQuantityBody : option Z)
  | ReqDeleteMenuItem (user : User) (id : N).

Definition handleAny (isMobilePhone : string → bool)
    (requireRestaurantOwner : User → option ErrorKind) (env : Env) (r : AnyRequest)
    (w : World) : World :=
  match r with
  | OrderReq r => handle isMobilePhone env r w
  | ReqAvailability user id a q =>
      (patchAvailability requireRestaurantOwner user id a q w).2
  | ReqDeleteMenuItem user id => (deleteMenuItem requireRestaurantOwner user id w).2
  end.

(** No stock below zero, and stored orders hold at least one of each line. *)
Definition stockInv (w : World) : Prop :=
  (∀ id m q, menuItems w !! id = Some m →
             availableQuantity (mi_availability m) = Some q → 0 ≤ q)
  ∧ (∀ id o, orders w !! id = Some o →
             Forall (fun i => 1 ≤ oi_quantity i) (items o)).

(** ** Reading orders (routes/orders.js) *)

(** What [GET /:id/tracking] loads: the fields of its [select], the others
    undefined. *)
Record TrackingView := {
  tv_user : option ObjectId;
  tv_orderNumber : option (Z * nat);
  tv_status : OrderStatus;
  tv_statusHistory : list StatusEntry;
  tv_estimatedDeliveryTime : Z;
  tv_actualDeliveryTime : option Z;
  tv_deliveryTracking : DeliveryTracking;
  tv_deliveryAddress : DeliveryAddress
}.

Definition select_tracking (o : Order) : TrackingView :=
  {| tv_user := None;
     tv_orderNumber := orderNumber o;
     tv_status := status o;
     tv_statusHistory := statusHistory o;
     tv_estimatedDeliveryTime := estimatedDeliveryTime o;
     tv_actualDeliveryTime := actualDeliveryTime o;
     tv_deliveryTracking := deliveryTracking o;
     tv_deliveryAddress := deliveryAddress o |}.

(** [GET /api/orders/:id/tracking]. *)
Definition trackOrder (user : User) (id : ObjectId) : Handler TrackingView :=
  order <~ gets (fun w => select_tracking <$> orders w !! id) ;;
  match order with
  | None => throw NotFound
  | Some order =>
      match tv_user order with
      | None => throw ServerError      (* order.user.toString() on undefined *)
      | Some orderUser =>
          throw_if (negb (bool_decide (orderUser = u_id user))
                    && negb (bool_decide (u_role user = role_admin))) Authorization ;;;
          ret order
      end
  end.

Record Pagination := {
  currentPage : nat;
  totalPages : nat;
  totalCount : nat;
  hasNextPage : bool;
  hasPrevPage : bool
}.

(** [Math.ceil(a / b)] on counts, for a positive [b]. *)
Definition Math_ceil_div (a b : nat) : nat := ((a + b - 1) / b)%nat.

(** The paging of [GET /my-orders] and [GET /restaurant/:restaurantId]:
    [found] is what the query matches, in the order of its sort; [page]
    and [limit] are the parsed query parameters. *)
Definition paginate {A} (found : list A) (page limit : nat) : list A * Pagination :=
  let skip := ((page - 1) * limit)%nat in
  let orders := take limit (drop skip found) in
  let totalCount := length found in
  let totalPages := Math_ceil_div totalCount limit in
  (orders,
   {| currentPage := page;
      totalPages := totalPages;
      totalCount := totalCount;
      hasNextPage := (page <? totalPages)%nat;
      hasPrevPage := (1 <? page)%nat |}).

(** ** The error handler (middleware/errorHandler.js) *)

Inductive ErrorCode :=
  | CodeNumber (n : Z)
  | CodeString (s : string).

#[global] Instance ErrorCode_eq_dec : EqDecision ErrorCode.
Proof. solve_decision. Defined.

(** The fields of a thrown error that the handler reads; [None] is
    undefined. *)
Record JsError := {
  err_name : string;
  err_message : string;
  err_statusCode : option Z;
  err_code : option ErrorCode;
  err_keyValue : option (list string);     (* the keys of keyValue *)
  err_errors : option (list string);       (* the messages of errors *)
  err_type : option string;
  err_description : option string;
  err_status : option Z;
  err_retryAfter : option Z
}.

(** [new AppError(message, statusCode)] with the name a subclass sets. *)
Definition AppError (name message : string) (statusCode : Z) : JsError :=
  {| err_name := name; err_message := message; err_statusCode := Some statusCode;
     err_code := None; err_keyValue := None; err_errors := None;
     err_type := None; err_description := None; err_status := None;
     err_retryAfter := None |}.

Definition ValidationError (message : string) : JsError :=
  AppError "ValidationError" message 400.
Definition AuthenticationError (message : string) : JsError :=
  AppError "AuthenticationError" message 401.
Definition AuthorizationError (message : string) : JsError :=
  AppError "AuthorizationError" message 403.
Definition NotFoundError (message : string) : JsError :=
  AppError "NotFoundError" message 404.
Definition ConflictError (message : string) : JsError :=
  AppError "ConflictError" message 409.
(** The class [PaymentError]. *)
Definition PaymentErrorOf (message : string) : JsError :=
  AppError "PaymentError" message 402.

Inductive NodeEnv := development | production | otherEnv.

#[global] Instance NodeEnv_eq_dec : EqDecision NodeEnv.
Proof. solve_decision. Defined.

Record ErrorResponse := {
  res_statusCode : Z;
  res_message : string;
  res_type : option string;
  res_retryAfter : option Z;
  res_stack : bool            (* whether stack and error are in the body *)
}.

(** The local [error]: a copy of [err], replaced by the cases that match. *)
Record ErrorDraft := {
  draft_message : string;
  draft_statusCode : option Z
}.

Definition orZ (x : option Z) (d : Z) : Z :=
  if truthyZ x then default d x else d.

Definition nameIs (err : JsError) (n : string) : bool := String.eqb (err_name err) n.

Definition codeIs (err : JsError) (c : ErrorCode) : bool :=
  bool_decide (err_code err = Some c).

Definition typeIs (err : JsError) (t : string) : bool :=
  bool_decide (err_type err = Some t).

(** One [if] of the handler that replaces [error] by a fixed message and
    status. *)
Definition replaceIf (cond : bool) (message : string) (statusCode : Z)
    (error : ErrorDraft) : ErrorDraft :=
  if cond then {| draft_message := message; draft_statusCode := Some statusCode |}
  else error.

(** The first half of [errorHandler]: the local [error] after the cases
    that replace it; [None] when the handler itself throws, on
    [Object.keys] or [Object.values] of an undefined field. *)
Definition errorHandler_error (err : JsError) : option ErrorDraft :=
  let error := {| draft_message := err_message err;
                  draft_statusCode := err_statusCode err |} in
  let error := replaceIf (nameIs err "CastError") "Resource not found" 404 error in
  error ←
    (if codeIs err (CodeNumber 11000) then
       keys ← err_keyValue err ;
       let message :=
         match head keys with
         | Some field =>
             if String.eqb field "email" then "Email already exists"
             else if String.eqb field "phone" then "Phone number already exists"
             else if String.eqb field "name" then "Name already exists"
             else "Duplicate field value entered"
         | None => "Duplicate field value entered"
         end in
       Some {| draft_message := message; draft_statusCode := Some 400 |}
     else Some error) ;
  error ←
    (if nameIs err "ValidationError" then
       messages ← err_errors err ;
       Some {| draft_message := String.concat ", " messages;
               draft_statusCode := Some 400 |}
     else Some error) ;
  let error := replaceIf (nameIs err "JsonWebTokenError") "Invalid token" 401 error in
  let error := replaceIf (nameIs err "TokenExpiredError") "Token expired" 401 error in
  let error := replaceIf (codeIs err (CodeString "LIMIT_FILE_SIZE"))
                 "File size too large" 400 error in
  let error := replaceIf (codeIs err (CodeString "LIMIT_FILE_COUNT"))
                 "Too many files uploaded" 400 error in
  let error := replaceIf (codeIs err (CodeString "LIMIT_UNEXPECTED_FILE"))
                 "Unexpected file field" 400 error in
  let error := replaceIf (nameIs err "MongoNetworkError")
                 "Database connection error" 500 error in
  let error := replaceIf (nameIs err "MongoTimeoutError")
                 "Database timeout error" 500 error in
  let error := replaceIf (typeIs err "StripeCardError")
                 (orString (Some (err_message err)) "Payment failed") 400 error in
  let error := replaceIf (typeIs err "RazorpayError")
                 (orString (err_description err) "Payment processing failed") 400 error in
  let error := replaceIf (bool_decide (err_status err = Some 429))
                 "Too many requests, please try again later" 429 error in
  Some error.

(** The second half: the status code and the body that are sent. *)
Definition errorHandler_response (nodeEnv : NodeEnv) (err : JsError)
    (error : ErrorDraft) : ErrorResponse :=
  let statusCode := orZ (draft_statusCode error) (orZ (err_statusCode err) 500) in
  let message := orString (Some (draft_message error)) "Server Error" in
  let '(type, retryAfter, message) :=
    if statusCode =? 400 then (Some "ValidationError", None, message)
    else if statusCode =? 401 then (Some "AuthenticationError", None, message)
    else if statusCode =? 403 then (Some "AuthorizationError", None, message)
    else if statusCode =? 404 then (Some "NotFoundError", None, message)
    else if statusCode =? 429 then
      (Some "RateLimitError", Some (orZ (err_retryAfter err) 60), message)
    else if 500 <=? statusCode then
      (Some "ServerError", None,
       if bool_decide (nodeEnv = production) then "Internal Server Error" else message)
    else (None, None, message) in
  {| res_statusCode := statusCode; res_message := message;
     res_type := type; res_retryAfter := retryAfter;
     res_stack := bool_decide (nodeEnv = development) |}.

(** [errorHandler]; the result is [None] when the handler itself throws. *)
Definition errorHandler (nodeEnv : NodeEnv) (err : JsError) : option ErrorResponse :=
  error ← errorHandler_error err ;
  Some (errorHandler_response nodeEnv err error).

(** ** More sample data *)

Module SampleMore.

Definition admin : User := {| u_id := 9%N; u_role := role_admin; u_name := "ada" |}.


(** A middleware that lets restaurant owners and admins through. *)
Definition ownersAndAdmins (user : User) : option ErrorKind :=
  if bool_decide (u_role user = role_restaurant_owner)
     || bool_decide (u_role user = role_admin)
  then None else Some Authorization.

(** A stored, pending order that was paid by card, and a world that holds
    it under id 100. *)
Definition paidByCard : Order :=
  set_paymentInfo
    {| pi_method := card; pi_status := pay_completed;
       pi_transactionId := Some "txn_1"; pi_paymentGateway := Some stripe;
       pi_paidAt := Some 1000; pi_refundedAt := None; pi_refundAmount := 0 |}
    (Sample.orderIn pending (344 # 10)).

Definition worldPaid : World :=
  upd_orders (insert 100%N paidByCard) (Sample.worldWith pending).

(** A delivered order whose restaurant is no longer stored. *)
Definition worldOrphan : World :=
  upd_restaurants (delete 1%N) (Sample.worldWith delivered).

(** Five orders that a listing query found. *)
Definition found : list Order :=
  map (fun s => Sample.orderIn s (344 # 10))
    [delivered; cancelled; preparing; confirmed; pending].

(** A request that lists the pizza on two lines. *)
Definition bodyTwice : CreateOrderBody :=
  {| b_restaurant := 1%N;
     b_items :=
       [{| ri_menuItem := 10%N; ri_quantity := 1;
           ri_customizations := None; ri_addOns := None;
           ri_specialInstructions := None |};
        {| ri_menuItem := 10%N; ri_quantity := 1;
           ri_customizations := Some [Sample.large]; ri_addOns := None;
           ri_specialInstructions := None |}];
     b_deliveryAddress :=
       {| street := "1 Main St"; city := "Springfield"; state := "IL";
          zipCode := "62701" |};
     b_phone := "+15551234567"; b_paymentMethod := cash_on_delivery;
     b_tip := None |}.

End SampleMore.

(** * Properties *)

(** ** Refund policy *)

(** C3: the refund computed by [calculateRefundAmount] depends only on the
    order's status and total: the whole total for pending and confirmed,
    80% for preparing, 50% for ready_for_pickup, nothing otherwise; on a
    total of 100 that is 100, 80 and 50, and nothing once out for delivery. *)
Theorem refund_is_policy_of_status_and_total :
  (∀ o : Order,
      (calculateRefundAmount o == refund_policy (total (pricing o)) (status o))%Q)
  ∧ (calculateRefundAmount (Sample.orderIn pending 100) == 100)%Q
  ∧ (calculateRefundAmount (Sample.orderIn confirmed 100) == 100)%Q
  ∧ (calculateRefundAmount (Sample.orderIn preparing 100) == 80)%Q
  ∧ (calculateRefundAmount (Sample.orderIn ready_for_pickup 100) == 50)%Q
  ∧ (calculateRefundAmount (Sample.orderIn out_for_delivery 100) == 0)%Q.
Proof.
  split; [| repeat split; reflexivity].
  intros o. unfold calculateRefundAmount, refund_policy.
  destruct (status o); simpl; lra.
Qed.

(** ** Unit price *)

Lemma addCustomization_price (m : MenuItem) (acc : Q) (c : SelectedCustomization) :
  (addCustomization m acc c == acc + customizationPrice m c)%Q.
Proof.
  unfold addCustomization, customizationPrice.
  destruct (find _ (mi_customizations m)) as [cfg|]; [| lra].
  destruct (find _ (cz_options cfg)); lra.
Qed.

Lemma orQ_one (a : SelectedAddOn) : orQ (sa_quantity a) 1 = quantity_or_one a.
Proof.
  unfold orQ, quantity_or_one, truthyQ.
  destruct (sa_quantity a) as [q|]; [| reflexivity].
  destruct (Qeq_bool q 0); reflexivity.
Qed.

Lemma addAddOn_price (m : MenuItem) (acc : Q) (a : SelectedAddOn) :
  (addAddOn m acc a == acc + addOnUnitPrice m a * quantity_or_one a)%Q.
Proof.
  unfold addAddOn, addOnUnitPrice. rewrite orQ_one.
  destruct (find _ (mi_addOns m)); lra.
Qed.

Lemma fold_customizations (m : MenuItem) (cs : list SelectedCustomization) :
  ∀ acc, (fold_left (addCustomization m) cs acc
          == acc + Qsum (map (customizationPrice m) cs))%Q.
Proof.
  induction cs as [|c cs IH]; intros acc; simpl.
  - lra.
  - rewrite IH, addCustomization_price. lra.
Qed.

Lemma fold_addOns (m : MenuItem) (adds : list SelectedAddOn) :
  ∀ acc, (fold_left (addAddOn m) adds acc
          == acc + Qsum (map (fun a => addOnUnitPrice m a * quantity_or_one a) adds))%Q.
Proof.
  induction adds as [|a adds IH]; intros acc; simpl.
  - lra.
  - rewrite IH, addAddOn_price. lra.
Qed.

Lemma find_none_unmatched {A} (p : A → bool) (l : list A) :
  (∀ x, x ∈ l → p x = false) → find p l = None.
Proof.
  induction l as [|y l IH]; intros H; simpl; [reflexivity |].
  rewrite (H y) by left. apply IH. intros x Hx. apply H. by right.
Qed.

(** C5, as the claim words it, fails: a matched add-on sent with quantity 0
    is charged once, where price times quantity would charge nothing. *)
Lemma unit_price_zero_quantity_counterexample :
  ¬ (∀ (m : MenuItem) cs adds,
       (calculatePrice m cs adds == unitPrice_with quantity_or_default m cs adds)%Q).
Proof.
  intros H.
  specialize (H Sample.pizza [] [Sample.cheese (Some 0%Q)]).
  vm_compute in H. discriminate H.
Qed.

(** C5, amended: the unit price is the base price, plus the price of each
    selected option found in the item's customization table, plus each
    matched add-on's price times its quantity, a missing or zero quantity
    counting as 1; a customization or add-on whose name is not in the
    item's tables adds nothing; base 10, an option at +2 and an add-on at
    +1 taken 3 times cost 15. *)
Theorem unit_price_sums_matched_selections :
  (∀ (m : MenuItem) cs adds,
      (calculatePrice m cs adds == unitPrice_with quantity_or_one m cs adds)%Q)
  ∧ (∀ (m : MenuItem) c cs adds,
        (∀ cfg, cfg ∈ mi_customizations m → cz_name cfg ≠ sc_name c) →
        (calculatePrice m (c :: cs) adds == calculatePrice m cs adds)%Q)
  ∧ (∀ (m : MenuItem) a cs adds,
        (∀ cfg, cfg ∈ mi_addOns m → ao_name cfg ≠ sa_name a) →
        (calculatePrice m cs (a :: adds) == calculatePrice m cs adds)%Q)
  ∧ (calculatePrice Sample.pizza [Sample.large] [Sample.cheese (Some 3%Q)] == 15)%Q.
Proof.
  assert (Hmain : ∀ (m : MenuItem) cs adds,
      (calculatePrice m cs adds == unitPrice_with quantity_or_one m cs adds)%Q).
  { intros m cs adds. unfold calculatePrice, unitPrice_with.
    rewrite fold_addOns, fold_customizations. lra. }
  split; [exact Hmain |]. split; [| split].
  - intros m c cs adds Hno. rewrite !Hmain. unfold unitPrice_with. simpl.
    unfold customizationPrice at 1.
    rewrite find_none_unmatched; [lra |].
    intros cfg Hcfg. apply String.eqb_neq. by apply Hno.
  - intros m a cs adds Hno. rewrite !Hmain. unfold unitPrice_with. simpl.
    unfold addOnUnitPrice at 1.
    rewrite find_none_unmatched; [lra |].
    intros cfg Hcfg. apply String.eqb_neq. by apply Hno.
  - reflexivity.
Qed.

Lemma unit_price_sums_matched_selections_witness :
  (calculatePrice Sample.pizza
     ({| sc_name := "crust"; sc_selectedOption := "thin" |} :: [Sample.large])
     [Sample.cheese (Some 3%Q)]
   == calculatePrice Sample.pizza [Sample.large] [Sample.cheese (Some 3%Q)])%Q.
Proof.
  apply (proj1 (proj2 unit_price_sums_matched_selections)).
  intros cfg Hcfg. apply list_elem_of_singleton in Hcfg. subst cfg. discriminate.
Defined.

(** ** Running handlers *)

Lemma bind_Ok {A B} (c : Handler A) (k : A → Handler B) w a w' :
  c w = (Ok a, w') → bind c k w = k a w'.
Proof. intros H. unfold bind. by rewrite H. Qed.

Lemma bind_Err {A B} (c : Handler A) (k : A → Handler B) w e w' :
  c w = (Err e, w') → bind c k w = (Err e, w').
Proof. intros H. unfold bind. by rewrite H. Qed.

Lemma bind_inv_Ok {A B} (c : Handler A) (k : A → Handler B) w b w' :
  bind c k w = (Ok b, w') → ∃ a w1, c w = (Ok a, w1) ∧ k a w1 = (Ok b, w').
Proof.
  unfold bind. destruct (c w) as [[a|e] w1]; intros H; [eauto | discriminate].
Qed.

Lemma bind_assoc {A B C} (c : Handler A) (k1 : A → Handler B) (k2 : B → Handler C) w :
  bind (bind c k1) k2 w = bind c (fun a => bind (k1 a) k2) w.
Proof. unfold bind. by destruct (c w) as [[a|e] w']. Qed.

Lemma throw_if_true {B} e (k : unit → Handler B) w :
  bind (throw_if true e) k w = (Err e, w).
Proof. reflexivity. Qed.

Lemma throw_if_false {B} e (k : unit → Handler B) w :
  bind (throw_if false e) k w = k tt w.
Proof. reflexivity. Qed.

(** Unfolds the reads and straight-line steps of a handler. *)
Ltac run :=
  repeat (first
    [ rewrite bind_assoc
    | rewrite throw_if_true
    | rewrite throw_if_false
    | progress (cbn [bind gets modify ret throw fst snd negb])
    | progress (unfold Order_findById, MenuItem_findById, MenuItem_find) ]).

(** ** Availability *)

Lemma includes_true {A} `{EqDecision A} (l : list A) (x : A) :
  includes l x = true ↔ x ∈ l.
Proof. unfold includes. apply bool_decide_eq_true. Qed.

Lemma includes_false {A} `{EqDecision A} (l : list A) (x : A) :
  includes l x = false ↔ x ∉ l.
Proof. unfold includes. apply bool_decide_eq_false. Qed.

Lemma isCurrentlyAvailable_eq (env : Env) (m : MenuItem) :
  isCurrentlyAvailable env m
  = if negb (isAvailable (mi_availability m))
       || negb (bool_decide (mi_status m = active))
       || match availableQuantity (mi_availability m) with
          | Some q => q <=? 0
          | None => false
          end
    then Ok false else Err ServerError.
Proof.
  unfold isCurrentlyAvailable.
  destruct (negb (isAvailable (mi_availability m))
            || negb (bool_decide (mi_status m = active))); [reflexivity |].
  cbn [orb].
  by destruct (match availableQuantity (mi_availability m) with
               | Some q => q <=? 0
               | None => false
               end).
Qed.

Lemma isCurrentlyAvailable_not_true (env : Env) (m : MenuItem) :
  isCurrentlyAvailable env m ≠ Ok true.
Proof.
  rewrite isCurrentlyAvailable_eq.
  by destruct (negb (isAvailable (mi_availability m))
               || negb (bool_decide (mi_status m = active))
               || match availableQuantity (mi_availability m) with
                  | Some q => q <=? 0
                  | None => false
                  end).
Qed.

Lemma size_list_to_set_le (l : list N) :
  (size (list_to_set (C:=gset N) l) ≤ length l)%nat.
Proof.
  induction l as [|x l IH].
  - rewrite list_to_set_nil, size_empty. reflexivity.
  - rewrite list_to_set_cons, size_union_alt, size_singleton. cbn [length].
    assert (Hdiff : (size (list_to_set (C:=gset N) l ∖ {[x]})
                     ≤ size (list_to_set (C:=gset N) l))%nat).
    { apply subseteq_size, subseteq_difference_l. reflexivity. }
    lia.
Qed.

Lemma size_list_to_set_NoDup (l : list N) :
  size (list_to_set (C:=gset N) l) = length l → NoDup l.
Proof.
  induction l as [|x l IH]; intros Hsize; [constructor |].
  rewrite list_to_set_cons, size_union_alt, size_singleton in Hsize.
  cbn [length] in Hsize.
  pose proof (size_list_to_set_le l) as Hle.
  assert (Hdiff : (size (list_to_set (C:=gset N) l ∖ {[x]})
                   ≤ size (list_to_set (C:=gset N) l))%nat).
  { apply subseteq_size, subseteq_difference_l. reflexivity. }
  apply NoDup_cons. split; [| apply IH; lia].
  intros Hx.
  assert (Hsub : list_to_set (C:=gset N) l ∖ {[x]} ⊂ list_to_set (C:=gset N) l).
  { apply subset_difference_elem_of. by apply elem_of_list_to_set. }
  apply subset_size in Hsub. lia.
Qed.

(** When the query returns as many documents as ids were asked for, every
    id asked for has its document. *)
Lemma MenuItem_find_all_found (ids : list N) (r : N) (M : gmap N MenuItem) :
  size (filter (MenuItem_find_query ids r) M) = length ids →
  ∀ id, id ∈ ids → is_Some (filter (MenuItem_find_query ids r) M !! id).
Proof.
  intros Hsize id Hid.
  set (F := filter (MenuItem_find_query ids r) M) in *.
  assert (Hsub : dom F ⊆ list_to_set (C:=gset N) ids).
  { intros i Hi. apply elem_of_dom in Hi as [x Hx].
    apply map_lookup_filter_Some in Hx as [_ [Hin _]].
    by apply elem_of_list_to_set. }
  assert (Heq : dom F = list_to_set (C:=gset N) ids).
  { apply set_subseteq_size_eq; [exact Hsub |].
    rewrite size_dom, Hsize. apply size_list_to_set_le. }
  apply elem_of_dom. rewrite Heq. by apply elem_of_list_to_set.
Qed.

(** And the ids asked for are distinct. *)
Lemma MenuItem_find_distinct (ids : list N) (r : N) (M : gmap N MenuItem) :
  size (filter (MenuItem_find_query ids r) M) = length ids → NoDup ids.
Proof.
  intros Hsize. apply size_list_to_set_NoDup.
  set (F := filter (MenuItem_find_query ids r) M) in *.
  assert (Hsub : dom F ⊆ list_to_set (C:=gset N) ids).
  { intros i Hi. apply elem_of_dom in Hi as [x Hx].
    apply map_lookup_filter_Some in Hx as [_ [Hin _]].
    by apply elem_of_list_to_set. }
  apply subseteq_size in Hsub. rewrite size_dom, Hsize in Hsub.
  pose proof (size_list_to_set_le ids). lia.
Qed.

(** ** Order placement *)

(** The pricing loop stops at its first line. *)
Lemma priceItems_fails env mis it its sub ois (w : World) :
  ∃ e, priceItems env mis (it :: its) sub ois w = (Err e, w)
       ∧ (e = Validation ∨ e = ServerError).
Proof.
  cbn [priceItems].
  destruct (mis !! ri_menuItem it) as [m|]; [| exists ServerError; by split; [| right]].
  unfold lift. cbn [bind].
  pose proof (isCurrentlyAvailable_not_true env m) as Hnot.
  destruct (isCurrentlyAvailable env m) as [[|]|e] eqn:Hget.
  - done.
  - run. exists Validation. by split; [| left].
  - rewrite isCurrentlyAvailable_eq in Hget.
    destruct (negb (isAvailable (mi_availability m))
              || negb (bool_decide (mi_status m = active))
              || match availableQuantity (mi_availability m) with
                 | Some q => q <=? 0
                 | None => false
                 end); [discriminate |].
    injection Hget as <-. exists ServerError. by split; [| right].
Qed.

Lemma placeOrder_fails isMobilePhone env user body (w : World) :
  ∃ e, placeOrder isMobilePhone env user body w = (Err e, w)
       ∧ (e = Validation ∨ e = NotFound ∨ e = ServerError).
Proof.
  unfold placeOrder.
  destruct (validCreateBody isMobilePhone body) eqn:Hvalid; run.
  2: { exists Validation. split; [done | by left]. }
  destruct (restaurants w !! b_restaurant body) as [r|]; run.
  2: { exists NotFound. split; [done | right; by left]. }
  destruct (bool_decide (rest_status r = r_active)); run.
  2: { exists NotFound. split; [done | right; by left]. }
  destruct (size _ =? length _)%nat; run.
  2: { exists Validation. split; [done | by left]. }
  destruct (b_items body) as [|it its] eqn:Hitems.
  { unfold validCreateBody in Hvalid. by rewrite Hitems in Hvalid. }
  destruct (priceItems_fails env
              (filter (MenuItem_find_query (map ri_menuItem (it :: its))
                         (b_restaurant body)) (menuItems w))
              it its 0%Q [] w) as (e & Hrun & He).
  unfold bind at 1. rewrite Hrun. exists e. split; [done |].
  destruct He as [-> | ->]; [by left | right; by right].
Qed.

(** So [POST /] never gets as far as [Order.create]. *)
Lemma createOrder_fails isMobilePhone env user body (w : World) :
  ∃ e, createOrder isMobilePhone env user body w = (Err e, w)
       ∧ (e = Validation ∨ e = NotFound ∨ e = ServerError).
Proof.
  destruct (placeOrder_fails isMobilePhone env user body w) as (e & Hrun & He).
  exists e. split; [| done]. unfold createOrder. by apply bind_Err.
Qed.

(** C7: the code never judges a menu item currently available.  The getter
    answers false when the flag [isAvailable] is off, the status is not
    active or the remaining quantity is zero or less, and in every other
    case it throws, at the call that asks for the weekday in a style that
    does not exist, before the day list and the hours are looked at.  So
    an order for a dish that is on sale, in stock and within its hours
    ends in a server error, and so does an order that asks for more than
    is left, whereas an order for a dish that is sold out fails with
    Validation; each of them leaves the state as it was. *)
Theorem availability_never_granted :
  (∀ env m,
      isCurrentlyAvailable env m
      = if negb (isAvailable (mi_availability m))
           || negb (bool_decide (mi_status m = active))
           || match availableQuantity (mi_availability m) with
              | Some q => q <=? 0
              | None => false
              end
        then Ok false else Err ServerError)
  ∧ isCurrentlyAvailable Sample.env Sample.pizza = Err ServerError
  ∧ createOrder Sample.anyPhone Sample.env Sample.alice
      (Sample.body cash_on_delivery) Sample.world
    = (Err ServerError, Sample.world)
  ∧ createOrder Sample.anyPhone Sample.env Sample.alice
      (Sample.body cash_on_delivery) Sample.worldShort
    = (Err ServerError, Sample.worldShort)
  ∧ createOrder Sample.anyPhone Sample.env Sample.alice
      (Sample.body cash_on_delivery) Sample.worldSoldOut
    = (Err Validation, Sample.worldSoldOut).
Proof.
  split; [exact isCurrentlyAvailable_eq |].
  repeat split; vm_compute; reflexivity.
Qed.

(** ** Status transitions *)

Lemma successor_passes_validator s allowed t :
  validTransitions s = Some allowed → t ∈ allowed →
  includes statusBodyValues t = true.
Proof.
  intros Hs Ht. apply includes_true.
  destruct s; simpl in Hs; try discriminate; injection Hs as <-;
    repeat (apply elem_of_cons in Ht as [->|Ht];
            [apply (bool_decide_unpack _); vm_compute; exact I |]);
    by apply elem_of_nil in Ht.
Qed.

(** The authorization step of [PATCH /:id/status], for a user who passes. *)
Lemma mayUpdateStatus_passes w user o :
  mayUpdateStatus w user o →
  (u_role user = role_admin)
  ∨ (u_role user = role_restaurant_owner
     ∧ ∃ r, restaurants w !! o_restaurant o = Some r
            ∧ bool_decide (rest_owner r = u_id user) = true).
Proof.
  intros [Hadmin|(Hrole & r & Hr & Hown)]; [by left | right].
  split; [done |]. exists r. split; [done |]. by apply bool_decide_eq_true_2.
Qed.

(** C1: with the successor table of the route (pending to confirmed or
    cancelled, confirmed to preparing or cancelled, preparing to
    ready_for_pickup or cancelled, ready_for_pickup to out_for_delivery,
    out_for_delivery to delivered, nothing after delivered or cancelled), a
    status update whose target is not a successor of the order's current
    status fails and leaves the world, hence the order's status and status
    history, as they were; for a user allowed to update the order the
    failure is Validation. *)
Theorem illegal_transition_refused :
  (validTransitions pending = Some [confirmed; cancelled]
   ∧ validTransitions confirmed = Some [preparing; cancelled]
   ∧ validTransitions preparing = Some [ready_for_pickup; cancelled]
   ∧ validTransitions ready_for_pickup = Some [out_for_delivery]
   ∧ validTransitions out_for_delivery = Some [delivered]
   ∧ validTransitions delivered = Some []
   ∧ validTransitions cancelled = Some [])
  ∧ ∀ env user id target note (w : World) o allowed,
      orders w !! id = Some o →
      validTransitions (status o) = Some allowed →
      target ∉ allowed →
      ∃ e, patchStatus env user id target note w = (Err e, w)
           ∧ (mayUpdateStatus w user o → e = Validation).
Proof.
  split; [repeat split |].
  intros env user id target note w o allowed Ho Hallowed Hnot.
  unfold patchStatus.
  destruct (includes statusBodyValues target); run; [| by exists Validation].
  rewrite Ho. run.
  destruct (decide (u_role user = role_admin)) as [Hadmin|Hadmin].
  { rewrite (bool_decide_eq_true_2 _ Hadmin). run. rewrite Hallowed.
    apply includes_false in Hnot. rewrite Hnot. run. by exists Validation. }
  rewrite (bool_decide_eq_false_2 _ Hadmin).
  destruct (decide (u_role user = role_restaurant_owner)) as [Hown|Hown].
  - rewrite (bool_decide_eq_true_2 _ Hown).
    destruct (restaurants w !! o_restaurant o) as [r|] eqn:Hr; run.
    + destruct (bool_decide (rest_owner r = u_id user)) eqn:Hmine; run.
      * rewrite Hallowed. apply includes_false in Hnot. rewrite Hnot. run.
        by exists Validation.
      * exists Authorization. split; [done |].
        intros Hmay. apply mayUpdateStatus_passes in Hmay
          as [?|(_ & r' & Hr' & Hmine')]; [done |].
        rewrite Hr in Hr'. injection Hr' as <-. congruence.
    + exists ServerError. split; [done |].
      intros Hmay. apply mayUpdateStatus_passes in Hmay
        as [?|(_ & r' & Hr' & _)]; [done |]. congruence.
  - rewrite (bool_decide_eq_false_2 _ Hown). run.
    exists Authorization. split; [done |].
    intros [?|[? _]]; done.
Qed.

Lemma illegal_transition_refused_witness :
  ∃ e, patchStatus Sample.env Sample.owner 100%N delivered None
         (Sample.worldWith pending)
       = (Err e, Sample.worldWith pending)
       ∧ (mayUpdateStatus (Sample.worldWith pending) Sample.owner
            (Sample.orderIn pending (344 # 10)) → e = Validation).
Proof.
  apply (proj2 illegal_transition_refused) with (allowed := [confirmed; cancelled]).
  - reflexivity.
  - reflexivity.
  - apply (bool_decide_unpack _). vm_compute. exact I.
Defined.

(** An order in status [refunded] has no row in the table: for a user who
    passes the authorization check, the lookup of its successors throws. *)
Lemma patchStatus_refunded_order env user id target note (w : World) o :
  orders w !! id = Some o →
  status o = refunded →
  u_role user = role_admin →
  includes statusBodyValues target = true →
  patchStatus env user id target note w = (Err ServerError, w).
Proof.
  intros Ho Hs Hadmin Hbody. unfold patchStatus.
  rewrite Hbody. run. rewrite Ho. run.
  rewrite (bool_decide_eq_true_2 _ Hadmin). run. by rewrite Hs.
Qed.

Lemma patchStatus_legal env user id target note (w : World) o allowed :
  orders w !! id = Some o →
  mayUpdateStatus w user o →
  validTransitions (status o) = Some allowed →
  target ∈ allowed →
  patchStatus env user id target note w
  = (Ok (updateStatus_assign env target (default EmptyString note) (Some (u_id user)) o),
     upd_emitted (fun l => l ++ [OrderStatusUpdate id target])
       (upd_orders
          (insert id (updateStatus_assign env target (default EmptyString note)
                        (Some (u_id user)) o)) w)).
Proof.
  intros Ho Hmay Hallowed Hin.
  assert (Hstatus : status (updateStatus_assign env target (default EmptyString note)
                              (Some (u_id user)) o) = target)
    by (unfold updateStatus_assign; by destruct target).
  unfold patchStatus.
  rewrite (successor_passes_validator _ _ _ Hallowed Hin). run.
  rewrite Ho. run.
  apply includes_true in Hin.
  apply mayUpdateStatus_passes in Hmay as [Hadmin|(Hown & r & Hr & Hmine)].
  - rewrite (bool_decide_eq_true_2 _ Hadmin). run.
    rewrite Hallowed, Hin. run. unfold updateStatus, Order_save, emit. run.
    by rewrite Hstatus.
  - destruct (bool_decide (u_role user = role_admin)); run.
    + rewrite Hallowed, Hin. run. unfold updateStatus, Order_save, emit. run.
      by rewrite Hstatus.
    + rewrite (bool_decide_eq_true_2 _ Hown), Hr. run. rewrite Hmine. run.
      rewrite Hallowed, Hin. run. unfold updateStatus, Order_save, emit. run.
      by rewrite Hstatus.
Qed.

(** C2: a legal status transition, made by a user allowed to update the
    order, succeeds; the stored order's status history is the old one with
    exactly one entry appended, and that last entry carries the order's new
    status, which is the target. *)
Theorem legal_transition_appends_history env user id target note (w : World) o allowed :
  orders w !! id = Some o →
  mayUpdateStatus w user o →
  validTransitions (status o) = Some allowed →
  target ∈ allowed →
  ∃ o' w',
    patchStatus env user id target note w = (Ok o', w')
    ∧ orders w' !! id = Some o'
    ∧ length (statusHistory o') = S (length (statusHistory o))
    ∧ (∃ e, statusHistory o' = statusHistory o ++ [e])
    ∧ se_status <$> last (statusHistory o') = Some (status o')
    ∧ status o' = target.
Proof.
  intros Ho Hmay Hallowed Hin.
  eexists _, _. split; [by eapply patchStatus_legal |].
  split; [apply lookup_insert_eq |].
  unfold updateStatus_assign.
  destruct target; cbn; rewrite ?length_app, ?last_snoc; cbn;
    (split; [lia |]); (split; [by eexists |]); done.
Qed.

Lemma legal_transition_appends_history_witness :
  ∃ o' w',
    patchStatus Sample.env Sample.owner 100%N confirmed None (Sample.worldWith pending)
    = (Ok o', w')
    ∧ orders w' !! 100%N = Some o'
    ∧ length (statusHistory o')
      = S (length (statusHistory (Sample.orderIn pending (344 # 10))))
    ∧ (∃ e, statusHistory o' = statusHistory (Sample.orderIn pending (344 # 10)) ++ [e])
    ∧ se_status <$> last (statusHistory o') = Some (status o')
    ∧ status o' = confirmed.
Proof.
  apply (legal_transition_appends_history Sample.env Sample.owner 100%N confirmed None
           (Sample.worldWith pending) (Sample.orderIn pending (344 # 10))
           [confirmed; cancelled]).
  - reflexivity.
  - right. split; [reflexivity |]. exists Sample.diner. split; reflexivity.
  - reflexivity.
  - left.
Defined.

(** ** Cancellation *)

Lemma menuItem_preSave_availability m :
  mi_availability (menuItem_preSave m) = mi_availability m.
Proof. unfold menuItem_preSave. by destruct (50 <=? mi_orderCount m). Qed.

Lemma upd_menuItems_id (w : World) : upd_menuItems (fun M => M) w = w.
Proof. by destruct w. Qed.

Lemma restoreQuantities_run (its : list OrderItem) :
  ∀ w, restoreQuantities its w = (Ok tt, upd_menuItems (restoreMenu its) w).
Proof.
  induction its as [|it its IH]; intros w.
  { by rewrite upd_menuItems_id. }
  assert (Hstep : ∀ M, restoreMenu (it :: its) M = restoreMenu its (restore_one M it))
    by reflexivity.
  destruct w as [os ms rs rv ch em].
  cbn [restoreQuantities]. run. unfold upd_menuItems.
  cbn -[restoreMenu restore_one]. rewrite Hstep. unfold restore_one at 1.
  destruct (ms !! oi_menuItem it) as [m|]; cbn -[restoreMenu restore_one].
  - destruct (availableQuantity (mi_availability m)) as [q|];
      cbn -[restoreMenu restore_one]; by rewrite IH.
  - by rewrite IH.
Qed.

Lemma restoreMenu_lookup (its : list OrderItem) :
  ∀ (M : gmap N MenuItem) mid m,
    M !! mid = Some m →
    ∃ m', restoreMenu its M !! mid = Some m'
          ∧ availableQuantity (mi_availability m')
            = (fun q => q + orderedQuantity mid its)
                <$> availableQuantity (mi_availability m)
          ∧ (availableQuantity (mi_availability m) = None → m' = m).
Proof.
  induction its as [|it its IH]; intros M mid m Hm.
  { exists m. simpl. split; [done |]. split; [| done].
    destruct (availableQuantity (mi_availability m)); simpl; [| done].
    f_equal. lia. }
  change (restoreMenu (it :: its) M) with (restoreMenu its (restore_one M it)).
  unfold restore_one at 1. cbn [orderedQuantity foldr].
  fold (orderedQuantity mid its).
  destruct (decide (oi_menuItem it = mid)) as [Heq|Hne].
  - rewrite (bool_decide_eq_true_2 _ Heq). rewrite Heq, Hm.
    destruct (availableQuantity (mi_availability m)) as [q|] eqn:Hq.
    + destruct (IH (<[mid := menuItem_preSave
                             (set_availableQuantity (Some (q + oi_quantity it)) m)]> M)
                   mid _ (lookup_insert_eq _ _ _)) as (m' & Hm' & Hqty & _).
      exists m'. split; [done |]. split; [| done].
      rewrite Hqty, menuItem_preSave_availability. simpl. f_equal. lia.
    + destruct (IH M mid m Hm) as (m' & Hm' & Hqty & Hsame).
      exists m'. split; [done |]. rewrite Hq in Hqty, Hsame. by split.
  - rewrite (bool_decide_eq_false_2 _ Hne).
    destruct (M !! oi_menuItem it) as [m0|] eqn:Hm0; [| by apply IH].
    destruct (availableQuantity (mi_availability m0)) as [q0|]; [| by apply IH].
    apply IH. by rewrite lookup_insert_ne.
Qed.

Lemma orderedQuantity_absent mid (its : list OrderItem) :
  mid ∉ map oi_menuItem its → orderedQuantity mid its = 0.
Proof.
  induction its as [|it its IH]; intros Hnot; simpl; [done |].
  apply not_elem_of_cons in Hnot as [Hne Hnot].
  rewrite bool_decide_eq_false_2 by done. by apply IH.
Qed.

Lemma orderedQuantity_single (its : list OrderItem) it :
  NoDup (map oi_menuItem its) → it ∈ its →
  orderedQuantity (oi_menuItem it) its = oi_quantity it.
Proof.
  induction its as [|it0 its IH]; intros Hnd Hin; [by apply elem_of_nil in Hin |].
  apply NoDup_cons in Hnd as [Hnot Hnd]. simpl.
  apply elem_of_cons in Hin as [->|Hin].
  - rewrite bool_decide_eq_true_2 by done.
    rewrite orderedQuantity_absent by done. lia.
  - rewrite bool_decide_eq_false_2; [by apply IH |].
    intros Heq. apply Hnot. rewrite Heq. apply list_elem_of_fmap. eauto.
Qed.

Lemma canBeCancelled_false (o : Order) :
  canBeCancelled o = false ↔ status o ∈ nonCancellableStatuses.
Proof.
  unfold canBeCancelled. rewrite negb_false_iff. apply includes_true.
Qed.

Lemma cancelOrder_refused env user id reason (w : World) o :
  orders w !! id = Some o →
  nonEmpty reason = true →
  mayCancel user o →
  canBeCancelled o = false →
  cancelOrder env user id reason w = (Err Validation, w).
Proof.
  intros Ho Hreason Hmay Hcan. unfold cancelOrder.
  rewrite Hreason. run. rewrite Ho. run.
  assert (Hauth : negb (bool_decide (o_user o = u_id user))
                  && negb (bool_decide (u_role user = role_admin)) = false).
  { destruct Hmay as [H|H]; rewrite (bool_decide_eq_true_2 _ H); simpl;
      [done | apply andb_false_r]. }
  rewrite Hauth. run. rewrite Hcan. by run.
Qed.

Lemma cancelOrder_accepted env user id reason (w : World) o :
  orders w !! id = Some o →
  nonEmpty reason = true →
  mayCancel user o →
  canBeCancelled o = true →
  cancelOrder env user id reason w
  = (Ok (cancel_assign env user reason o, calculateRefundAmount o),
     upd_emitted (fun l => l ++ [OrderCancelled (o_restaurant o) id reason])
       (upd_menuItems (restoreMenu (items o))
          (upd_orders (insert id (cancel_assign env user reason o)) w))).
Proof.
  intros Ho Hreason Hmay Hcan. unfold cancelOrder.
  rewrite Hreason. run. rewrite Ho. run.
  assert (Hauth : negb (bool_decide (o_user o = u_id user))
                  && negb (bool_decide (u_role user = role_admin)) = false).
  { destruct Hmay as [H|H]; rewrite (bool_decide_eq_true_2 _ H); simpl;
      [done | apply andb_false_r]. }
  rewrite Hauth. run. rewrite Hcan. run.
  unfold Order_save, emit. run.
  rewrite (bind_Ok _ _ _ _ _ (restoreQuantities_run _ _)). run.
  unfold cancel_assign. cbn -[restoreMenu].
  destruct (bool_decide (pi_status (paymentInfo o) = pay_completed)
            && Qltb 0 (calculateRefundAmount o)); reflexivity.
Qed.

Lemma cancel_assign_status env user reason o :
  status (cancel_assign env user reason o) = cancelled.
Proof.
  unfold cancel_assign. cbn.
  by destruct (bool_decide (pi_status (paymentInfo o) = pay_completed)
               && Qltb 0 (calculateRefundAmount o)).
Qed.

(** C4: for a request with a reason, made by the order's customer or an
    admin, the cancellation fails with Validation exactly when the order's
    status is out_for_delivery, delivered, cancelled or refunded, and then
    changes nothing; in every other status, ready_for_pickup included, it
    succeeds and leaves the order cancelled. *)
Theorem cancellation_refused_exactly env user id reason (w : World) o :
  orders w !! id = Some o →
  nonEmpty reason = true →
  mayCancel user o →
  ((cancelOrder env user id reason w).1 = Err Validation
   ↔ status o ∈ [out_for_delivery; delivered; cancelled; refunded])
  ∧ (status o ∈ [out_for_delivery; delivered; cancelled; refunded] →
     cancelOrder env user id reason w = (Err Validation, w))
  ∧ (status o ∉ [out_for_delivery; delivered; cancelled; refunded] →
     ∃ o' refund w',
       cancelOrder env user id reason w = (Ok (o', refund), w')
       ∧ orders w' !! id = Some o'
       ∧ status o' = cancelled).
Proof.
  intros Ho Hreason Hmay.
  assert (Hno : status o ∈ [out_for_delivery; delivered; cancelled; refunded] →
                cancelOrder env user id reason w = (Err Validation, w)).
  { intros Hin. apply cancelOrder_refused with (o := o); try done.
    by apply canBeCancelled_false. }
  assert (Hyes : status o ∉ [out_for_delivery; delivered; cancelled; refunded] →
                 cancelOrder env user id reason w
                 = (Ok (cancel_assign env user reason o, calculateRefundAmount o),
                    upd_emitted (fun l => l ++ [OrderCancelled (o_restaurant o) id reason])
                      (upd_menuItems (restoreMenu (items o))
                         (upd_orders (insert id (cancel_assign env user reason o)) w)))).
  { intros Hnot. apply cancelOrder_accepted; try done.
    destruct (canBeCancelled o) eqn:Hcan; [done |].
    by apply canBeCancelled_false in Hcan. }
  split; [| split].
  - split; [| by intros Hin; rewrite Hno].
    intros Hres.
    destruct (decide (status o ∈ [out_for_delivery; delivered; cancelled; refunded]))
      as [Hin|Hnot]; [done |].
    rewrite (Hyes Hnot) in Hres. discriminate Hres.
  - exact Hno.
  - intros Hnot. eexists _, _, _. split; [by apply Hyes |].
    split; [apply lookup_insert_eq | apply cancel_assign_status].
Qed.

Lemma cancellation_refused_exactly_witness :
  ∃ o' refund w',
    cancelOrder Sample.env Sample.alice 100%N "changed my mind"
      (Sample.worldWith ready_for_pickup)
    = (Ok (o', refund), w')
    ∧ orders w' !! 100%N = Some o'
    ∧ status o' = cancelled.
Proof.
  apply (cancellation_refused_exactly Sample.env Sample.alice 100%N "changed my mind"
           (Sample.worldWith ready_for_pickup)
           (Sample.orderIn ready_for_pickup (344 # 10))).
  - reflexivity.
  - reflexivity.
  - left. reflexivity.
  - apply (bool_decide_unpack _). vm_compute. exact I.
Defined.

(** C10: after a successful cancellation every menu item that had a
    non-null [availableQuantity] holds that quantity plus the quantities of
    the order's lines that reference it, so each line gives back exactly
    its own quantity (for an order whose lines reference distinct menu
    items, the increase of a line's menu item is that line's quantity); a
    menu item with a null [availableQuantity] is left as it was. *)
Theorem cancellation_restores_inventory env user id reason (w w' : World) o res :
  orders w !! id = Some o →
  cancelOrder env user id reason w = (Ok res, w') →
  (∀ mid m,
      menuItems w !! mid = Some m →
      ∃ m', menuItems w' !! mid = Some m'
            ∧ availableQuantity (mi_availability m')
              = (fun q => q + orderedQuantity mid (items o))
                  <$> availableQuantity (mi_availability m)
            ∧ (availableQuantity (mi_availability m) = None → m' = m))
  ∧ (NoDup (map oi_menuItem (items o)) →
     ∀ item m q,
       item ∈ items o →
       menuItems w !! oi_menuItem item = Some m →
       availableQuantity (mi_availability m) = Some q →
       ∃ m', menuItems w' !! oi_menuItem item = Some m'
             ∧ availableQuantity (mi_availability m') = Some (q + oi_quantity item)).
Proof.
  intros Ho Hrun.
  assert (Hw' : menuItems w' = restoreMenu (items o) (menuItems w)).
  { unfold cancelOrder in Hrun.
    destruct (nonEmpty reason); [| discriminate Hrun].
    revert Hrun. run. rewrite Ho. run.
    destruct (negb (bool_decide (o_user o = u_id user))
              && negb (bool_decide (u_role user = role_admin)));
      [discriminate |].
    run. destruct (canBeCancelled o); [| discriminate]. run.
    unfold Order_save, emit. run.
    rewrite (bind_Ok _ _ _ _ _ (restoreQuantities_run _ _)). run.
    intros [= _ <-]. cbn -[restoreMenu].
    by destruct (bool_decide (pi_status (paymentInfo o) = pay_completed)
                 && Qltb 0 (calculateRefundAmount o)). }
  assert (Hall : ∀ mid m,
      menuItems w !! mid = Some m →
      ∃ m', menuItems w' !! mid = Some m'
            ∧ availableQuantity (mi_availability m')
              = (fun q => q + orderedQuantity mid (items o))
                  <$> availableQuantity (mi_availability m)
            ∧ (availableQuantity (mi_availability m) = None → m' = m)).
  { intros mid m Hm. rewrite Hw'. by apply restoreMenu_lookup. }
  split; [exact Hall |].
  intros Hnd item m q Hin Hm Hq.
  destruct (Hall _ _ Hm) as (m' & Hm' & Hqty & _).
  exists m'. split; [done |].
  rewrite Hqty, Hq. simpl. by rewrite orderedQuantity_single.
Qed.

Lemma cancellation_restores_inventory_witness :
  ∃ m', menuItems
          (cancelOrder Sample.env Sample.alice 100%N "changed my mind"
             (Sample.worldWith preparing)).2 !! 10%N = Some m'
        ∧ availableQuantity (mi_availability m') = Some (3 + 2).
Proof.
  refine (proj2 (cancellation_restores_inventory Sample.env Sample.alice 100%N
                   "changed my mind" (Sample.worldWith preparing)
                   (cancelOrder Sample.env Sample.alice 100%N "changed my mind"
                      (Sample.worldWith preparing)).2
                   (Sample.orderIn preparing (344 # 10))
                   (cancel_assign Sample.env Sample.alice "changed my mind"
                      (Sample.orderIn preparing (344 # 10)),
                    calculateRefundAmount (Sample.orderIn preparing (344 # 10)))
                   _ _) _
            {| oi_menuItem := 10%N; oi_name := "Pizza"; oi_price := 15;
               oi_quantity := 2; oi_customizations := [Sample.large];
               oi_addOns := [Sample.cheese (Some 3%Q)];
               oi_specialInstructions := EmptyString; oi_itemTotal := 30 |}
            (set_availableQuantity (Some 3) Sample.pizza) 3 _ _ _).
  - reflexivity.
  - vm_compute. reflexivity.
  - apply (bool_decide_unpack _). vm_compute. exact I.
  - left.
  - reflexivity.
  - reflexivity.
Defined.

(** ** Rating *)

Lemma validRateBody_overall body :
  validRateBody body = true → 1 ≤ rb_overall body ≤ 5.
Proof.
  unfold validRateBody. rewrite !andb_true_iff.
  intros [[[[[[_ _] _] _] H1] H5] _].
  apply Z.leb_le in H1, H5. lia.
Qed.

Lemma ratingComplete_truthy r : ratingComplete r → truthyZ (r_overall r) = true.
Proof.
  intros (f & d & ov & rv & t & -> & Hov). simpl.
  apply negb_true_iff, Z.eqb_neq. lia.
Qed.

Lemma ratingOf_complete env body :
  validRateBody body = true → ratingComplete (ratingOf env body).
Proof.
  intros Hvalid. unfold ratingComplete, ratingOf.
  eexists _, _, _, _, _. split; [reflexivity |]. by apply validRateBody_overall.
Qed.

Lemma reviewOf_valid user restaurant id body :
  validRateBody body = true → validReview (reviewOf user restaurant id body) = true.
Proof.
  unfold validRateBody, validReview, markInRange, reviewOf.
  cbn [rv_overall rv_food rv_delivery rv_service rv_packaging rv_comment].
  rewrite !andb_true_iff.
  intros [[[[[[Hf1 Hf5] Hd1] Hd5] Ho1] Ho5] Hlen].
  repeat split; try done.
  - unfold orString. by destruct (rb_review body) as [[|]|].
  - unfold orString. destruct (rb_review body) as [[|a r]|]; try done.
    apply Nat.leb_le in Hlen. apply Nat.leb_le. lia.
Qed.

(** [Review.create] stores a valid review and then fails in the hook
    whenever the review's restaurant is stored. *)
Lemma Review_create_run (r : Review) (w : World) :
  validReview r = true →
  Review_create r w
  = (if isSome (restaurants w !! rv_restaurant r)
     then Err MongooseValidation else Ok tt,
     upd_reviews (fun l => l ++ [r]) w).
Proof.
  intros Hvalid. unfold Review_create. rewrite Hvalid. run.
  cbn [restaurants upd_reviews].
  destruct (restaurants w !! rv_restaurant r) as [rest|]; [| reflexivity].
  unfold Restaurant_updateRating. run. cbn [reviews upd_reviews isSome].
  rewrite filter_app, filter_cons_True by done.
  rewrite length_app. cbn [length filter].
  by replace (length (filter (λ r0, rv_restaurant r0 = rv_restaurant r) (reviews w))
              + 1 =? 0)%nat with false by (symmetry; apply Nat.eqb_neq; lia).
Qed.

Lemma Review_create_invalid (r : Review) (w : World) :
  validReview r = false → Review_create r w = (Err MongooseValidation, w).
Proof. intros Hinvalid. unfold Review_create. rewrite Hinvalid. by run. Qed.

Lemma rateOrder_refused env user id body (w : World) o :
  orders w !! id = Some o →
  ratingInv (rating o) →
  ¬ (status o = delivered ∧ rating o = noRating) →
  ∃ e, rateOrder env user id body w = (Err e, w)
       ∧ (o_user o = u_id user → e = Validation).
Proof.
  intros Ho Hinv Hnot. unfold rateOrder.
  destruct (validRateBody body); run; [| by exists Validation].
  rewrite Ho. run.
  destruct (decide (o_user o = u_id user)) as [Hmine|Hother].
  2: { rewrite (bool_decide_eq_false_2 _ Hother). run. by exists Authorization. }
  rewrite (bool_decide_eq_true_2 _ Hmine). run.
  destruct (decide (status o = delivered)) as [Hd|Hd].
  2: { rewrite (bool_decide_eq_false_2 _ Hd). run. by exists Validation. }
  rewrite (bool_decide_eq_true_2 _ Hd). run.
  destruct Hinv as [Hnone|Hcomplete]; [by destruct Hnot |].
  rewrite (ratingComplete_truthy _ Hcomplete). run. by exists Validation.
Qed.

(** The first valid rating of a delivered order by its customer. *)
Lemma rateOrder_first env user id body (w : World) o :
  orders w !! id = Some o →
  o_user o = u_id user →
  status o = delivered →
  rating o = noRating →
  validRateBody body = true →
  rateOrder env user id body w
  = (if isSome (restaurants w !! o_restaurant o)
     then Err MongooseValidation else Ok (ratingOf env body),
     upd_reviews (fun l => l ++ [reviewOf user (o_restaurant o) id body])
       (upd_orders (insert id (set_rating (ratingOf env body) o)) w)).
Proof.
  intros Ho Hmine Hd Hnone Hvalid. unfold rateOrder.
  rewrite Hvalid. run. rewrite Ho. run.
  rewrite (bool_decide_eq_true_2 _ Hmine), (bool_decide_eq_true_2 _ Hd). run.
  rewrite Hnone. cbn [noRating r_overall truthyZ]. run.
  unfold Order_save. run.
  fold (reviewOf user (o_restaurant o) id body). fold (ratingOf env body).
  unfold bind at 1.
  rewrite (Review_create_run _ _ (reviewOf_valid user (o_restaurant o) id body Hvalid)).
  cbn [rv_restaurant reviewOf restaurants upd_orders].
  by destruct (restaurants w !! o_restaurant o).
Qed.

(** What a rating request does to the state. *)
Lemma rateOrder_world env user id body (w : World) :
  (rateOrder env user id body w).2 = w
  ∨ ∃ o, orders w !! id = Some o
         ∧ o_user o = u_id user
         ∧ validRateBody body = true
         ∧ status o = delivered
         ∧ truthyZ (r_overall (rating o)) = false
         ∧ (rateOrder env user id body w).2
           = upd_reviews (fun l => l ++ [reviewOf user (o_restaurant o) id body])
               (upd_orders (insert id (set_rating (ratingOf env body) o)) w).
Proof.
  destruct (validRateBody body) eqn:Hvalid.
  2: { left. unfold rateOrder. rewrite Hvalid. by run. }
  destruct (orders w !! id) as [o0|] eqn:Ho.
  2: { left. unfold rateOrder. rewrite Hvalid. run. rewrite Ho. by run. }
  destruct (decide (o_user o0 = u_id user)) as [Hmine|Hother].
  2: { left. unfold rateOrder. rewrite Hvalid. run. rewrite Ho. run.
       rewrite (bool_decide_eq_false_2 _ Hother). by run. }
  destruct (decide (status o0 = delivered)) as [Hd|Hd].
  2: { left. unfold rateOrder. rewrite Hvalid. run. rewrite Ho. run.
       rewrite (bool_decide_eq_true_2 _ Hmine), (bool_decide_eq_false_2 _ Hd).
       by run. }
  destruct (truthyZ (r_overall (rating o0))) eqn:Hrated.
  { left. unfold rateOrder. rewrite Hvalid. run. rewrite Ho. run.
    rewrite (bool_decide_eq_true_2 _ Hmine), (bool_decide_eq_true_2 _ Hd). run.
    rewrite Hrated. by run. }
  right. exists o0. repeat split; try done.
  unfold rateOrder. rewrite Hvalid. run. rewrite Ho. run.
  rewrite (bool_decide_eq_true_2 _ Hmine), (bool_decide_eq_true_2 _ Hd). run.
  rewrite Hrated. run. unfold Order_save. run.
  fold (reviewOf user (o_restaurant o0) id body). fold (ratingOf env body).
  unfold bind at 1.
  rewrite (Review_create_run _ _ (reviewOf_valid user (o_restaurant o0) id body Hvalid)).
  cbn [rv_restaurant reviewOf restaurants upd_orders].
  by destruct (restaurants w !! o_restaurant o0).
Qed.

(** C9: for a stored order, whose rating is either absent or complete,
    rating fails unless the order is delivered and not yet rated, with
    Validation when the caller is the order's customer, and then nothing
    changes, the existing rating included; the first valid rating of a
    delivered order by its customer stores exactly the submitted rating
    fields, after which every further rating request fails with Validation
    and changes nothing.  But that first rating is not answered with the
    rating: whenever the order's restaurant is stored, the review hook's
    update of the restaurant's rating fails and the request ends in that
    validation error, after the rating was stored. *)
Theorem rating_only_once env user id body (w : World) o :
  orders w !! id = Some o →
  ratingInv (rating o) →
  (¬ (status o = delivered ∧ rating o = noRating) →
   ∃ e, rateOrder env user id body w = (Err e, w)
        ∧ (o_user o = u_id user → e = Validation))
  ∧ (status o = delivered → rating o = noRating →
     o_user o = u_id user → validRateBody body = true →
     ∃ w', rateOrder env user id body w
           = (if isSome (restaurants w !! o_restaurant o)
              then Err MongooseValidation else Ok (ratingOf env body), w')
           ∧ orders w' !! id = Some (set_rating (ratingOf env body) o)
           ∧ ∀ env2 body2,
               rateOrder env2 user id body2 w' = (Err Validation, w')).
Proof.
  intros Ho Hinv. split; [by apply rateOrder_refused |].
  intros Hd Hnone Hmine Hvalid.
  eexists. split; [by apply rateOrder_first |].
  assert (Ho' : orders
                  (upd_reviews (fun l => l ++ [reviewOf user (o_restaurant o) id body])
                     (upd_orders (insert id (set_rating (ratingOf env body) o)) w))
                !! id = Some (set_rating (ratingOf env body) o))
    by (cbn; apply lookup_insert_eq).
  split; [done |].
  intros env2 body2.
  destruct (rateOrder_refused env2 user id body2 _ _ Ho') as (e & Hrun2 & He).
  - right. by apply ratingOf_complete.
  - intros [_ Hrated]. discriminate Hrated.
  - rewrite Hrun2. by rewrite He.
Qed.

Lemma rating_only_once_witness :
  ∃ w', rateOrder Sample.env Sample.alice 100%N Sample.fiveStars
          (Sample.worldWith delivered)
        = (if isSome (restaurants (Sample.worldWith delivered)
                        !! o_restaurant (Sample.orderIn delivered (344 # 10)))
           then Err MongooseValidation
           else Ok (ratingOf Sample.env Sample.fiveStars), w')
        ∧ orders w' !! 100%N
          = Some (set_rating (ratingOf Sample.env Sample.fiveStars)
                    (Sample.orderIn delivered (344 # 10)))
        ∧ ∀ env2 body2,
            rateOrder env2 Sample.alice 100%N body2 w' = (Err Validation, w').
Proof.
  apply (proj2 (rating_only_once Sample.env Sample.alice 100%N Sample.fiveStars
                  (Sample.worldWith delivered) (Sample.orderIn delivered (344 # 10))
                  eq_refl (or_introl eq_refl)));
    reflexivity.
Defined.

(** ** Payment *)




(** ** How requests change the order collection *)

Lemma createOrder_step isMobilePhone env user body (w : World) :
  orders_step env w (createOrder isMobilePhone env user body w).2.
Proof.
  destruct (createOrder_fails isMobilePhone env user body w) as (e & -> & _).
  by apply step_none.
Qed.

Lemma patchStatus_step env user id target note (w : World) :
  orders_step env w (patchStatus env user id target note w).2.
Proof.
  unfold patchStatus.
  destruct (includes statusBodyValues target) eqn:Hbody; run; [| by apply step_none].
  destruct (orders w !! id) as [o0|] eqn:Ho; run; [| by apply step_none].
  assert (Hgo : orders_step env w
        (match validTransitions (status o0) with
         | Some allowed =>
             throw_if (negb (includes allowed target)) Validation ;;;
             order <~ updateStatus env target (default EmptyString note)
                        (Some (u_id user)) id o0 ;;
             emit (OrderStatusUpdate id (status order)) ;;; ret order
         | None => throw ServerError
         end w).2).
  { destruct (validTransitions (status o0)) as [allowed|]; [| by apply step_none].
    destruct (includes allowed target); run; [| by apply step_none].
    unfold updateStatus, Order_save, emit. run.
    eapply step_change; [exact Ho | by apply change_status | done]. }
  destruct (bool_decide (u_role user = role_admin)); run; [exact Hgo |].
  destruct (bool_decide (u_role user = role_restaurant_owner)); run;
    [| by apply step_none].
  destruct (restaurants w !! o_restaurant o0); run; [| by apply step_none].
  destruct (bool_decide (rest_owner _ = u_id user)); run;
    [exact Hgo | by apply step_none].
Qed.

Lemma cancelOrder_step env user id reason (w : World) :
  orders_step env w (cancelOrder env user id reason w).2.
Proof.
  unfold cancelOrder.
  destruct (nonEmpty reason); run; [| by apply step_none].
  destruct (orders w !! id) as [o0|] eqn:Ho; run; [| by apply step_none].
  destruct (negb (bool_decide (o_user o0 = u_id user))
            && negb (bool_decide (u_role user = role_admin))); run;
    [by apply step_none |].
  destruct (canBeCancelled o0) eqn:Hcan; run; [| by apply step_none].
  unfold Order_save, emit. run.
  rewrite (bind_Ok _ _ _ _ _ (restoreQuantities_run _ _)). run.
  eapply step_change; [exact Ho | by apply (change_cancel _ _ user reason) | done].
Qed.

Lemma rateOrder_step env user id body (w : World) :
  orders_step env w (rateOrder env user id body w).2.
Proof.
  destruct (rateOrder_world env user id body w)
    as [->|(o & Ho & _ & Hvalid & Hd & _ & ->)]; [by apply step_none |].
  eapply step_change; [exact Ho | by apply (change_rate _ _ body) | done].
Qed.

(** Every request changes the order collection in one of the two ways. *)
Lemma handle_step isMobilePhone env req (w : World) :
  orders_step env w (handle isMobilePhone env req w).
Proof.
  destruct req; simpl.
  - apply createOrder_step.
  - apply patchStatus_step.
  - apply cancelOrder_step.
  - apply rateOrder_step.
Qed.

(** No request puts a stored order in status [refunded]. *)
Lemma handle_never_refunded isMobilePhone env req (w : World) :
  (∀ id o, orders w !! id = Some o → status o ≠ refunded) →
  ∀ id o, orders (handle isMobilePhone env req w) !! id = Some o →
          status o ≠ refunded.
Proof.
  intros Hinv id o.
  destruct (handle_step isMobilePhone env req w)
    as [Hsame|id0 o0 o0' Ho0 Hchange ->].
  - rewrite Hsame. apply Hinv.
  - destruct (decide (id0 = id)) as [<-|Hne].
    + rewrite lookup_insert_eq. intros [= <-].
      destruct Hchange as [t n u Hbody|user reason _|body _ _].
      * unfold updateStatus_assign.
        destruct t; cbn; first [discriminate | vm_compute in Hbody; discriminate Hbody].
      * by rewrite cancel_assign_status.
      * cbn. by apply (Hinv id0).
    + rewrite lookup_insert_ne by done. apply Hinv.
Qed.

(** Every request keeps the ratings of the stored orders absent or
    complete. *)
Lemma handle_keeps_ratingInv isMobilePhone env req (w : World) :
  (∀ id o, orders w !! id = Some o → ratingInv (rating o)) →
  ∀ id o, orders (handle isMobilePhone env req w) !! id = Some o →
          ratingInv (rating o).
Proof.
  intros Hinv id o.
  destruct (handle_step isMobilePhone env req w)
    as [Hsame|id0 o0 o0' Ho0 Hchange ->].
  - rewrite Hsame. apply Hinv.
  - destruct (decide (id0 = id)) as [<-|Hne].
    + rewrite lookup_insert_eq. intros [= <-].
      destruct Hchange as [t n u _|user reason _|body Hvalid _].
      * replace (rating (updateStatus_assign env t n u o0)) with (rating o0)
          by (unfold updateStatus_assign; by destruct t).
        by apply (Hinv id0).
      * replace (rating (cancel_assign env user reason o0)) with (rating o0).
        { by apply (Hinv id0). }
        unfold cancel_assign. cbn.
        by destruct (bool_decide (pi_status (paymentInfo o0) = pay_completed)
                     && Qltb 0 (calculateRefundAmount o0)).
      * right. by apply ratingOf_complete.
    + rewrite lookup_insert_ne by done. apply Hinv.
Qed.

(** ** Pricing *)


(** * Further properties *)

(** ** How requests move the order collection *)

Lemma createOrder_move isMobilePhone env user body (w : World) :
  orders_move env w (createOrder isMobilePhone env user body w).2.
Proof.
  destruct (createOrder_fails isMobilePhone env user body w) as (e & -> & _).
  by apply moved_none.
Qed.

Lemma patchStatus_move env user id target note (w : World) :
  orders_move env w (patchStatus env user id target note w).2.
Proof.
  unfold patchStatus.
  destruct (includes statusBodyValues target) eqn:Hbody; run; [| by apply moved_none].
  destruct (orders w !! id) as [o0|] eqn:Ho; run; [| by apply moved_none].
  assert (Hgo : orders_move env w
        (match validTransitions (status o0) with
         | Some allowed =>
             throw_if (negb (includes allowed target)) Validation ;;;
             order <~ updateStatus env target (default EmptyString note)
                        (Some (u_id user)) id o0 ;;
             emit (OrderStatusUpdate id (status order)) ;;; ret order
         | None => throw ServerError
         end w).2).
  { destruct (validTransitions (status o0)) as [allowed|] eqn:Hallowed;
      [| by apply moved_none].
    destruct (includes allowed target) eqn:Hin; run; [| by apply moved_none].
    unfold updateStatus, Order_save, emit. run.
    eapply moved_one; [exact Ho | | done].
    eapply move_status; [exact Hallowed | by apply includes_true]. }
  destruct (bool_decide (u_role user = role_admin)); run; [exact Hgo |].
  destruct (bool_decide (u_role user = role_restaurant_owner)); run;
    [| by apply moved_none].
  destruct (restaurants w !! o_restaurant o0); run; [| by apply moved_none].
  destruct (bool_decide (rest_owner _ = u_id user)); run;
    [exact Hgo | by apply moved_none].
Qed.

Lemma cancelOrder_move env user id reason (w : World) :
  orders_move env w (cancelOrder env user id reason w).2.
Proof.
  unfold cancelOrder.
  destruct (nonEmpty reason); run; [| by apply moved_none].
  destruct (orders w !! id) as [o0|] eqn:Ho; run; [| by apply moved_none].
  destruct (negb (bool_decide (o_user o0 = u_id user))
            && negb (bool_decide (u_role user = role_admin))); run;
    [by apply moved_none |].
  destruct (canBeCancelled o0) eqn:Hcan; run; [| by apply moved_none].
  unfold Order_save, emit. run.
  rewrite (bind_Ok _ _ _ _ _ (restoreQuantities_run _ _)). run.
  eapply moved_one; [exact Ho | by apply (move_cancel _ _ user reason) | done].
Qed.

Lemma rateOrder_move env user id body (w : World) :
  orders_move env w (rateOrder env user id body w).2.
Proof.
  destruct (rateOrder_world env user id body w)
    as [->|(o & Ho & _ & Hvalid & Hd & Hrated & ->)]; [by apply moved_none |].
  eapply moved_one; [exact Ho | by apply (move_rate _ _ body) | done].
Qed.

Lemma handle_move isMobilePhone env req (w : World) :
  orders_move env w (handle isMobilePhone env req w).
Proof.
  destruct req; simpl.
  - apply createOrder_move.
  - apply patchStatus_move.
  - apply cancelOrder_move.
  - apply rateOrder_move.
Qed.

(** A relation between the old and the new document of a stored order that
    holds across every change holds across every request. *)
Lemma handle_relates (R : Order → Order → Prop) isMobilePhone env req (w : World) :
  (∀ o, R o o) →
  (∀ o o', order_move env o o' → R o o') →
  ∀ id o, orders w !! id = Some o →
          ∃ o', orders (handle isMobilePhone env req w) !! id = Some o' ∧ R o o'.
Proof.
  intros Hrefl Hmove id o Ho.
  destruct (handle_move isMobilePhone env req w)
    as [Hsame|id0 o0 o0' Ho0 Hchange Hw'].
  - rewrite Hsame. eauto.
  - rewrite Hw'. destruct (decide (id0 = id)) as [<-|Hne].
    + rewrite lookup_insert_eq. rewrite Ho0 in Ho. injection Ho as <-. eauto.
    + rewrite lookup_insert_ne by done. eauto.
Qed.

(** A property of stored orders that every change keeps is kept by every
    request. *)
Lemma handle_keeps (P : Order → Prop) isMobilePhone env req (w : World) :
  (∀ o o', P o → order_move env o o' → P o') →
  (∀ id o, orders w !! id = Some o → P o) →
  ∀ id o, orders (handle isMobilePhone env req w) !! id = Some o → P o.
Proof.
  intros Hmove Hinv id o.
  destruct (handle_move isMobilePhone env req w)
    as [Hsame|id0 o0 o0' Ho0 Hchange ->].
  - rewrite Hsame. apply Hinv.
  - destruct (decide (id0 = id)) as [<-|Hne].
    + rewrite lookup_insert_eq. intros [= <-]. eapply Hmove; [| done]. by eapply Hinv.
    + rewrite lookup_insert_ne by done. apply Hinv.
Qed.

(** The orders of the sample world that holds one order. *)
Lemma worldWith_orders (s : OrderStatus) (P : Order → Prop) :
  P (Sample.orderIn s (344 # 10)) →
  ∀ id o, orders (Sample.worldWith s) !! id = Some o → P o.
Proof.
  intros HP id o Ho. cbn in Ho.
  apply lookup_singleton_Some in Ho as [_ <-]. exact HP.
Qed.

(** ** Invariants of stored orders *)

(** X1: no request (creation, status update, cancellation, rating) leaves
    a stored order in status refunded, if none was before. *)
Theorem orders_never_refunded isMobilePhone env req (w : World) :
  (∀ id o, orders w !! id = Some o → status o ≠ refunded) →
  ∀ id o, orders (handle isMobilePhone env req w) !! id = Some o →
          status o ≠ refunded.
Proof.
  apply (handle_keeps (fun o => status o ≠ refunded)).
  - intros o o' Ho [user t note allowed Hallowed Hin|user reason _|body _ _ _].
    + replace (status (updateStatus_assign env t note (Some (u_id user)) o)) with t
        by (unfold updateStatus_assign; by destruct t).
      intros ->. destruct (status o); simpl in Hallowed; try discriminate;
        injection Hallowed as <-;
        repeat (apply elem_of_cons in Hin as [Hin|Hin]; [discriminate Hin |]);
        by apply elem_of_nil in Hin.
    + by rewrite cancel_assign_status.
    + done.
Qed.

Lemma orders_never_refunded_witness :
  status (updateStatus_assign Sample.env confirmed EmptyString (Some 7%N)
            (Sample.orderIn pending (344 # 10))) ≠ refunded.
Proof.
  apply (orders_never_refunded Sample.anyPhone Sample.env
           (ReqPatchStatus Sample.owner 100%N confirmed None)
           (Sample.worldWith pending)
           (worldWith_orders pending (fun o => status o ≠ refunded)
              ltac:(discriminate))
           100%N).
  vm_compute. reflexivity.
Defined.

(** X2: every request keeps the rating of every stored order either absent
    or complete (all five fields set, overall mark between 1 and 5). *)
Theorem ratings_stay_absent_or_complete isMobilePhone env req (w : World) :
  (∀ id o, orders w !! id = Some o → ratingInv (rating o)) →
  ∀ id o, orders (handle isMobilePhone env req w) !! id = Some o →
          ratingInv (rating o).
Proof.
  apply (handle_keeps (fun o => ratingInv (rating o))).
  - intros o o' Ho [user t note allowed _ _|user reason _|body Hvalid _ _].
    + replace (rating (updateStatus_assign env t note (Some (u_id user)) o))
        with (rating o) by (unfold updateStatus_assign; by destruct t).
      done.
    + replace (rating (cancel_assign env user reason o)) with (rating o); [done |].
      unfold cancel_assign. cbn.
      by destruct (bool_decide (pi_status (paymentInfo o) = pay_completed)
                   && Qltb 0 (calculateRefundAmount o)).
    + right. by apply ratingOf_complete.
Qed.

Lemma ratings_stay_absent_or_complete_witness :
  ratingInv (rating (set_rating (ratingOf Sample.env Sample.fiveStars)
                       (Sample.orderIn delivered (344 # 10)))).
Proof.
  apply (ratings_stay_absent_or_complete Sample.anyPhone Sample.env
           (ReqRate Sample.alice 100%N Sample.fiveStars)
           (Sample.worldWith delivered)
           (worldWith_orders delivered (fun o => ratingInv (rating o))
              (or_introl eq_refl))
           100%N).
  vm_compute. reflexivity.
Defined.

Lemma order_move_history env o o' :
  order_move env o o' →
  statusHistory o' = statusHistory o
  ∨ ∃ e, statusHistory o' = statusHistory o ++ [e] ∧ se_status e = status o'.
Proof.
  intros [user t note allowed _ _|user reason _|body _ _ _].
  - right. unfold updateStatus_assign. destruct t; cbn; by eexists.
  - right. unfold cancel_assign. cbn.
    destruct (bool_decide (pi_status (paymentInfo o) = pay_completed)
              && Qltb 0 (calculateRefundAmount o)); cbn; by eexists.
  - by left.
Qed.

(** X3: the status history is append-only: after any request the history
    of a stored order starts with its history of before. *)
Theorem history_append_only isMobilePhone env req (w : World) id o :
  orders w !! id = Some o →
  ∃ o', orders (handle isMobilePhone env req w) !! id = Some o'
        ∧ statusHistory o `prefix_of` statusHistory o'.
Proof.
  apply (handle_relates (fun o o' => statusHistory o `prefix_of` statusHistory o')).
  - done.
  - intros o1 o2 Hmove.
    destruct (order_move_history _ _ _ Hmove) as [->|(e & -> & _)];
      [done | by apply prefix_app_r].
Qed.

Lemma history_append_only_witness :
  ∃ o', orders (handle Sample.anyPhone Sample.env
                  (ReqCancel Sample.alice 100%N "too slow")
                  (Sample.worldWith preparing)) !! 100%N = Some o'
        ∧ statusHistory (Sample.orderIn preparing (344 # 10))
            `prefix_of` statusHistory o'.
Proof.
  apply (history_append_only Sample.anyPhone Sample.env
           (ReqCancel Sample.alice 100%N "too slow") (Sample.worldWith preparing)).
  reflexivity.
Defined.

(** X4: if the history of every stored order ends with the order's current
    status, it still does after any request, for the orders that were
    stored and for the one a creation adds. *)
Theorem history_ends_with_status isMobilePhone env req (w : World) :
  (∀ id o, orders w !! id = Some o → historyEndsWithStatus o) →
  ∀ id o, orders (handle isMobilePhone env req w) !! id = Some o →
          historyEndsWithStatus o.
Proof.
  apply (handle_keeps historyEndsWithStatus).
  - intros o o' Ho Hmove. unfold historyEndsWithStatus in *.
    destruct (order_move_history _ _ _ Hmove) as [Hsame|(e & -> & <-)].
    + rewrite Hsame.
      destruct Hmove as [user t note allowed _ _|user reason _|body _ _ _];
        [| | done].
      * exfalso. revert Hsame. unfold updateStatus_assign.
        destruct t; cbn; intros Habs;
          apply (f_equal length) in Habs; rewrite length_app in Habs;
          cbn in Habs; lia.
      * exfalso. revert Hsame. unfold cancel_assign. cbn.
        destruct (bool_decide (pi_status (paymentInfo o) = pay_completed)
                  && Qltb 0 (calculateRefundAmount o)); cbn; intros Habs;
          apply (f_equal length) in Habs; rewrite length_app in Habs;
          cbn in Habs; lia.
    + by rewrite last_snoc.
Qed.

Lemma history_ends_with_status_witness :
  historyEndsWithStatus
    (updateStatus_assign Sample.env confirmed EmptyString (Some 7%N)
       (Sample.orderIn pending (344 # 10))).
Proof.
  apply (history_ends_with_status Sample.anyPhone Sample.env
           (ReqPatchStatus Sample.owner 100%N confirmed None)
           (Sample.worldWith pending)
           (worldWith_orders pending historyEndsWithStatus eq_refl)
           100%N).
  vm_compute. reflexivity.
Defined.

(** X5: delivered, cancelled and refunded are final: no request changes
    the status of a stored order that is in one of them. *)
Theorem final_statuses_stay isMobilePhone env req (w : World) id o :
  orders w !! id = Some o →
  status o = delivered ∨ status o = cancelled ∨ status o = refunded →
  ∃ o', orders (handle isMobilePhone env req w) !! id = Some o'
        ∧ status o' = status o.
Proof.
  intros Ho Hfinal.
  destruct (handle_relates
              (fun o o' => (status o = delivered ∨ status o = cancelled
                            ∨ status o = refunded) → status o' = status o)
              isMobilePhone env req w) with (id := id) (o := o)
    as (o' & Ho' & Hkeep); [done | | done | eauto].
  intros o1 o2 [user t note allowed Hallowed Hin|user reason Hcan|body _ _ _] Hf.
  - exfalso. destruct Hf as [Hs|[Hs|Hs]]; rewrite Hs in Hallowed;
      simpl in Hallowed; try discriminate;
      injection Hallowed as <-; by apply elem_of_nil in Hin.
  - exfalso. unfold canBeCancelled in Hcan.
    destruct Hf as [Hs|[Hs|Hs]]; rewrite Hs in Hcan; vm_compute in Hcan;
      discriminate.
  - done.
Qed.

Lemma final_statuses_stay_witness :
  ∃ o', orders (handle Sample.anyPhone Sample.env
                  (ReqPatchStatus SampleMore.admin 100%N pending None)
                  (Sample.worldWith delivered)) !! 100%N = Some o'
        ∧ status o' = status (Sample.orderIn delivered (344 # 10)).
Proof.
  apply (final_statuses_stay Sample.anyPhone Sample.env
           (ReqPatchStatus SampleMore.admin 100%N pending None)
           (Sample.worldWith delivered)).
  - reflexivity.
  - left. reflexivity.
Defined.

(** X6: the status of a stored order only moves forward: across any
    request it stays what it was or moves to a status further along
    pending, confirmed, preparing, ready_for_pickup, out_for_delivery,
    delivered, cancelled; so no order comes back to a status it left. *)
Theorem status_only_moves_forward isMobilePhone env req (w : World) id o :
  orders w !! id = Some o →
  ∃ o', orders (handle isMobilePhone env req w) !! id = Some o'
        ∧ (status o' = status o
           ∨ (statusRank (status o) < statusRank (status o'))%nat).
Proof.
  apply (handle_relates
           (fun o o' => status o' = status o
                        ∨ (statusRank (status o) < statusRank (status o'))%nat)).
  - by left.
  - intros o1 o2 [user t note allowed Hallowed Hin|user reason Hcan|body _ _ _].
    + right.
      replace (status (updateStatus_assign env t note (Some (u_id user)) o1)) with t
        by (unfold updateStatus_assign; by destruct t).
      destruct (status o1); simpl in Hallowed; try discriminate;
        injection Hallowed as <-;
        repeat (apply elem_of_cons in Hin as [->|Hin]; [simpl; lia |]);
        by apply elem_of_nil in Hin.
    + right. rewrite cancel_assign_status. unfold canBeCancelled in Hcan.
      destruct (status o1); vm_compute in Hcan; try discriminate; simpl; lia.
    + by left.
Qed.

Lemma status_only_moves_forward_witness :
  ∃ o', orders (handle Sample.anyPhone Sample.env
                  (ReqPatchStatus Sample.owner 100%N preparing None)
                  (Sample.worldWith confirmed)) !! 100%N = Some o'
        ∧ (status o' = status (Sample.orderIn confirmed (344 # 10))
           ∨ (statusRank (status (Sample.orderIn confirmed (344 # 10)))
              < statusRank (status o'))%nat).
Proof.
  apply (status_only_moves_forward Sample.anyPhone Sample.env
           (ReqPatchStatus Sample.owner 100%N preparing None)
           (Sample.worldWith confirmed)).
  reflexivity.
Defined.

Lemma order_move_keeps env o o' :
  order_move env o o' →
  o_user o' = o_user o ∧ o_restaurant o' = o_restaurant o
  ∧ orderNumber o' = orderNumber o
  ∧ deliveryAddress o' = deliveryAddress o
  ∧ contactPhone o' = contactPhone o
  ∧ items o' = items o
  ∧ pricing o' = pricing o.
Proof.
  intros [user t note allowed _ _|user reason _|body _ _ _].
  - unfold updateStatus_assign. by destruct t.
  - unfold cancel_assign. cbn.
    by destruct (bool_decide (pi_status (paymentInfo o) = pay_completed)
                 && Qltb 0 (calculateRefundAmount o)).
  - done.
Qed.

(** X7: no request changes the customer, the restaurant, the order number,
    the delivery address, the contact phone, the lines or the prices of a
    stored order. *)
Theorem references_are_immutable isMobilePhone env req (w : World) id o :
  orders w !! id = Some o →
  ∃ o', orders (handle isMobilePhone env req w) !! id = Some o'
        ∧ o_user o' = o_user o
        ∧ o_restaurant o' = o_restaurant o
        ∧ orderNumber o' = orderNumber o
        ∧ deliveryAddress o' = deliveryAddress o
        ∧ contactPhone o' = contactPhone o
        ∧ items o' = items o
        ∧ pricing o' = pricing o.
Proof.
  apply (handle_relates
           (fun o o' => o_user o' = o_user o ∧ o_restaurant o' = o_restaurant o
                        ∧ orderNumber o' = orderNumber o
                        ∧ deliveryAddress o' = deliveryAddress o
                        ∧ contactPhone o' = contactPhone o
                        ∧ items o' = items o
                        ∧ pricing o' = pricing o)).
  - done.
  - intros o1 o2. apply order_move_keeps.
Qed.

Lemma references_are_immutable_witness :
  ∃ o', orders (handle Sample.anyPhone Sample.env
                  (ReqCancel SampleMore.admin 100%N "fraud")
                  (Sample.worldWith confirmed)) !! 100%N = Some o'
        ∧ o_user o' = o_user (Sample.orderIn confirmed (344 # 10))
        ∧ o_restaurant o' = o_restaurant (Sample.orderIn confirmed (344 # 10))
        ∧ orderNumber o' = orderNumber (Sample.orderIn confirmed (344 # 10))
        ∧ deliveryAddress o' = deliveryAddress (Sample.orderIn confirmed (344 # 10))
        ∧ contactPhone o' = contactPhone (Sample.orderIn confirmed (344 # 10))
        ∧ items o' = items (Sample.orderIn confirmed (344 # 10))
        ∧ pricing o' = pricing (Sample.orderIn confirmed (344 # 10)).
Proof.
  apply (references_are_immutable Sample.anyPhone Sample.env
           (ReqCancel SampleMore.admin 100%N "fraud") (Sample.worldWith confirmed)).
  reflexivity.
Defined.

(** ** Order creation *)

(** X8: an order request to an active restaurant that lists the same menu
    item on two lines is refused with Validation, and nothing changes. *)
Theorem duplicate_line_refused isMobilePhone env user body (w : World) r :
  restaurants w !! b_restaurant body = Some r →
  rest_status r = r_active →
  ¬ NoDup (map ri_menuItem (b_items body)) →
  createOrder isMobilePhone env user body w = (Err Validation, w).
Proof.
  intros Hr Hact Hdup. unfold createOrder. apply bind_Err. unfold placeOrder.
  destruct (validCreateBody isMobilePhone body); run; [| reflexivity].
  rewrite Hr. run. rewrite bool_decide_eq_true_2 by done. run.
  destruct (Nat.eqb_spec
              (size (filter (MenuItem_find_query (map ri_menuItem (b_items body))
                               (b_restaurant body)) (menuItems w)))
              (length (map ri_menuItem (b_items body)))) as [Hsz|Hsz];
    run; [| reflexivity].
  destruct Hdup. by eapply MenuItem_find_distinct.
Qed.

Lemma duplicate_line_refused_witness :
  createOrder Sample.anyPhone Sample.env Sample.alice SampleMore.bodyTwice Sample.world
  = (Err Validation, Sample.world).
Proof.
  apply (duplicate_line_refused Sample.anyPhone Sample.env Sample.alice
           SampleMore.bodyTwice Sample.world Sample.diner).
  - reflexivity.
  - reflexivity.
  - intros Hnd. apply NoDup_cons in Hnd as [Hnot _]. apply Hnot. left.
Defined.

(** X9: every order request fails, with Validation, NotFound or a server
    error, and leaves the whole state as it was: orders, menu, restaurants,
    reviews, the gateway's log and the emitted events. *)
Theorem order_requests_always_fail isMobilePhone env user body (w : World) :
  ∃ e, createOrder isMobilePhone env user body w = (Err e, w)
       ∧ e ∈ [Validation; NotFound; ServerError].
Proof.
  destruct (createOrder_fails isMobilePhone env user body w) as (e & Hrun & He).
  exists e. split; [done |].
  destruct He as [-> | [-> | ->]]; set_solver.
Qed.

Lemma patchStatus_frame env user id target note (w : World) :
  menuItems (patchStatus env user id target note w).2 = menuItems w
  ∧ restaurants (patchStatus env user id target note w).2 = restaurants w.
Proof.
  unfold patchStatus.
  destruct (includes statusBodyValues target); run; [| done].
  destruct (orders w !! id) as [o0|]; run; [| done].
  assert (Hgo : ∀ w1 : World,
      w1 = (match validTransitions (status o0) with
            | Some allowed =>
                throw_if (negb (includes allowed target)) Validation ;;;
                order <~ updateStatus env target (default EmptyString note)
                           (Some (u_id user)) id o0 ;;
                emit (OrderStatusUpdate id (status order)) ;;; ret order
            | None => throw ServerError
            end w).2 →
      menuItems w1 = menuItems w ∧ restaurants w1 = restaurants w).
  { intros w1 ->.
    destruct (validTransitions (status o0)) as [allowed|]; [| done].
    destruct (includes allowed target); run; [| done].
    unfold updateStatus, Order_save, emit. by run. }
  destruct (bool_decide (u_role user = role_admin)); run; [by apply Hgo |].
  destruct (bool_decide (u_role user = role_restaurant_owner)); run; [| done].
  destruct (restaurants w !! o_restaurant o0); run; [| done].
  destruct (bool_decide (rest_owner _ = u_id user)); run; [by apply Hgo | done].
Qed.

Lemma cancelOrder_restaurants env user id reason (w : World) :
  restaurants (cancelOrder env user id reason w).2 = restaurants w.
Proof.
  unfold cancelOrder.
  destruct (nonEmpty reason); run; [| done].
  destruct (orders w !! id) as [o0|]; run; [| done].
  destruct (negb (bool_decide (o_user o0 = u_id user))
            && negb (bool_decide (u_role user = role_admin))); run; [done |].
  destruct (canBeCancelled o0); run; [| done].
  unfold Order_save, emit. run.
  rewrite (bind_Ok _ _ _ _ _ (restoreQuantities_run _ _)). by run.
Qed.

Lemma rateOrder_frame env user id body (w : World) :
  menuItems (rateOrder env user id body w).2 = menuItems w
  ∧ restaurants (rateOrder env user id body w).2 = restaurants w.
Proof.
  by destruct (rateOrder_world env user id body w)
    as [->|(o & _ & _ & _ & _ & _ & ->)].
Qed.

(** X12: no request to the order routes changes a restaurant: the order
    count and the revenue are never counted up, since no order request gets
    that far, and the rating of a restaurant is never updated, since the
    update fails whenever a rating reaches it. *)
Theorem order_routes_leave_restaurants_alone isMobilePhone env req (w : World) :
  restaurants (handle isMobilePhone env req w) = restaurants w.
Proof.
  destruct req as [user body|user id target note|user id reason|user id body];
    cbn [handle].
  - by destruct (createOrder_fails isMobilePhone env user body w) as (e & -> & _).
  - apply patchStatus_frame.
  - apply cancelOrder_restaurants.
  - apply rateOrder_frame.
Qed.

(** ** Cancellation and rating *)

Lemma cancelOrder_Ok_inv env user id reason (w w' : World) res :
  cancelOrder env user id reason w = (Ok res, w') →
  ∃ o, orders w !! id = Some o
       ∧ nonEmpty reason = true
       ∧ mayCancel user o
       ∧ canBeCancelled o = true
       ∧ res = (cancel_assign env user reason o, calculateRefundAmount o)
       ∧ w' = upd_emitted (fun l => l ++ [OrderCancelled (o_restaurant o) id reason])
                (upd_menuItems (restoreMenu (items o))
                   (upd_orders (insert id (cancel_assign env user reason o)) w)).
Proof.
  intros Hrun.
  destruct (nonEmpty reason) eqn:Hreason.
  2: { revert Hrun. unfold cancelOrder. rewrite Hreason. run. discriminate. }
  destruct (orders w !! id) as [o|] eqn:Ho.
  2: { revert Hrun. unfold cancelOrder. rewrite Hreason. run. rewrite Ho. run.
       discriminate. }
  assert (Hmay : mayCancel user o).
  { destruct (decide (o_user o = u_id user)) as [Hu|Hu]; [by left |].
    destruct (decide (u_role user = role_admin)) as [Ha|Ha]; [by right |].
    exfalso. revert Hrun. unfold cancelOrder. rewrite Hreason. run. rewrite Ho. run.
    rewrite (bool_decide_eq_false_2 _ Hu), (bool_decide_eq_false_2 _ Ha). run.
    discriminate. }
  destruct (canBeCancelled o) eqn:Hcan.
  2: { rewrite (cancelOrder_refused _ _ _ _ _ _ Ho Hreason Hmay Hcan) in Hrun.
       discriminate. }
  rewrite (cancelOrder_accepted _ _ _ _ _ _ Ho Hreason Hmay Hcan) in Hrun.
  injection Hrun as <- <-. exists o. repeat split; done.
Qed.

Lemma cancelOrder_Err_world env user id reason (w w' : World) e :
  cancelOrder env user id reason w = (Err e, w') → w' = w.
Proof.
  unfold cancelOrder.
  destruct (nonEmpty reason); run; [| by intros [= _ <-]].
  destruct (orders w !! id) as [o0|]; run; [| by intros [= _ <-]].
  destruct (negb (bool_decide (o_user o0 = u_id user))
            && negb (bool_decide (u_role user = role_admin))); run;
    [by intros [= _ <-] |].
  destruct (canBeCancelled o0); run; [| by intros [= _ <-]].
  unfold Order_save, emit. run.
  rewrite (bind_Ok _ _ _ _ _ (restoreQuantities_run _ _)). run. discriminate.
Qed.

Lemma patchStatus_final env user id target note (w : World) o :
  orders w !! id = Some o →
  validTransitions (status o) = Some [] →
  ∃ e, patchStatus env user id target note w = (Err e, w).
Proof.
  intros Ho Hfinal. unfold patchStatus.
  destruct (includes statusBodyValues target); run; [| by eexists].
  rewrite Ho. run.
  assert (Hgo : ∃ e,
      match validTransitions (status o) with
      | Some allowed =>
          throw_if (negb (includes allowed target)) Validation ;;;
          order <~ updateStatus env target (default EmptyString note)
                     (Some (u_id user)) id o ;;
          emit (OrderStatusUpdate id (status order)) ;;; ret order
      | None => throw ServerError
      end w = (Err e, w)).
  { rewrite Hfinal. run. by eexists. }
  destruct (bool_decide (u_role user = role_admin)); run; [exact Hgo |].
  destruct (bool_decide (u_role user = role_restaurant_owner)); run; [| by eexists].
  destruct (restaurants w !! o_restaurant o); run; [| by eexists].
  destruct (bool_decide (rest_owner _ = u_id user)); run; [exact Hgo | by eexists].
Qed.

(** X16: a successful cancellation answers with the refund of
    [calculateRefundAmount] and stores the order as cancelled with the
    reason given; when the payment was completed and the refund is
    positive the payment becomes refunded, with that amount and the
    current time, and otherwise the payment fields stay as they were (an
    unpaid order is never marked refunded); every other payment field is
    kept in both cases. *)
Theorem cancellation_records_refund env user id reason (w w' : World) o o' refund :
  orders w !! id = Some o →
  cancelOrder env user id reason w = (Ok (o', refund), w') →
  refund = calculateRefundAmount o
  ∧ orders w' !! id = Some o'
  ∧ status o' = cancelled
  ∧ cancellationReason o' = Some reason
  ∧ pi_method (paymentInfo o') = pi_method (paymentInfo o)
  ∧ pi_transactionId (paymentInfo o') = pi_transactionId (paymentInfo o)
  ∧ pi_paidAt (paymentInfo o') = pi_paidAt (paymentInfo o)
  ∧ (if bool_decide (pi_status (paymentInfo o) = pay_completed) && Qltb 0 refund
     then pi_status (paymentInfo o') = pay_refunded
          ∧ pi_refundAmount (paymentInfo o') = refund
          ∧ pi_refundedAt (paymentInfo o') = Some (now env)
     else paymentInfo o' = paymentInfo o).
Proof.
  intros Ho Hrun.
  apply cancelOrder_Ok_inv in Hrun as (o0 & Ho0 & _ & _ & _ & Hres & ->).
  rewrite Ho in Ho0. injection Ho0 as <-. injection Hres as -> ->.
  split; [done |]. split; [cbn; apply lookup_insert_eq |].
  unfold cancel_assign. cbn [paymentInfo set_status set_cancellationReason
                               push_statusHistory].
  destruct (bool_decide (pi_status (paymentInfo o) = pay_completed)
            && Qltb 0 (calculateRefundAmount o)); repeat split; done.
Qed.

Lemma cancellation_records_refund_witness :
  calculateRefundAmount SampleMore.paidByCard
  = calculateRefundAmount SampleMore.paidByCard
  ∧ orders (cancelOrder Sample.env Sample.alice (newOrderId Sample.env)
              "changed my mind" SampleMore.worldPaid).2 !! newOrderId Sample.env
    = Some (cancel_assign Sample.env Sample.alice "changed my mind"
              SampleMore.paidByCard)
  ∧ status (cancel_assign Sample.env Sample.alice "changed my mind"
              SampleMore.paidByCard) = cancelled
  ∧ cancellationReason (cancel_assign Sample.env Sample.alice "changed my mind"
                          SampleMore.paidByCard) = Some "changed my mind"
  ∧ pi_method (paymentInfo (cancel_assign Sample.env Sample.alice "changed my mind"
                              SampleMore.paidByCard))
    = pi_method (paymentInfo SampleMore.paidByCard)
  ∧ pi_transactionId (paymentInfo (cancel_assign Sample.env Sample.alice
                                     "changed my mind" SampleMore.paidByCard))
    = pi_transactionId (paymentInfo SampleMore.paidByCard)
  ∧ pi_paidAt (paymentInfo (cancel_assign Sample.env Sample.alice "changed my mind"
                              SampleMore.paidByCard))
    = pi_paidAt (paymentInfo SampleMore.paidByCard)
  ∧ (if bool_decide (pi_status (paymentInfo SampleMore.paidByCard) = pay_completed)
        && Qltb 0 (calculateRefundAmount SampleMore.paidByCard)
     then pi_status (paymentInfo (cancel_assign Sample.env Sample.alice
                                    "changed my mind" SampleMore.paidByCard))
          = pay_refunded
          ∧ pi_refundAmount (paymentInfo (cancel_assign Sample.env Sample.alice
                                            "changed my mind" SampleMore.paidByCard))
            = calculateRefundAmount SampleMore.paidByCard
          ∧ pi_refundedAt (paymentInfo (cancel_assign Sample.env Sample.alice
                                          "changed my mind" SampleMore.paidByCard))
            = Some (now Sample.env)
     else paymentInfo (cancel_assign Sample.env Sample.alice "changed my mind"
                         SampleMore.paidByCard)
          = paymentInfo SampleMore.paidByCard).
Proof.
  apply (cancellation_records_refund Sample.env Sample.alice
           (newOrderId Sample.env) "changed my mind" SampleMore.worldPaid).
  - reflexivity.
  - vm_compute. reflexivity.
Defined.



(** X18: a cancellation is final: once an order was cancelled, every
    further cancellation and every status update of that order is refused
    and leaves the whole state as it was, so the stock of its lines is
    given back once only. *)
Theorem cancellation_is_final env user id reason (w w' : World) res :
  cancelOrder env user id reason w = (Ok res, w') →
  (∀ env2 user2 reason2,
      ∃ e, cancelOrder env2 user2 id reason2 w' = (Err e, w'))
  ∧ (∀ env2 user2 target note,
        ∃ e, patchStatus env2 user2 id target note w' = (Err e, w')).
Proof.
  intros Hrun.
  apply cancelOrder_Ok_inv in Hrun as (o & Ho & _ & _ & _ & _ & ->).
  assert (Ho' : orders
                  (upd_emitted (fun l => l ++ [OrderCancelled (o_restaurant o) id reason])
                     (upd_menuItems (restoreMenu (items o))
                        (upd_orders (insert id (cancel_assign env user reason o)) w)))
                !! id = Some (cancel_assign env user reason o))
    by (cbn; apply lookup_insert_eq).
  split.
  - intros env2 user2 reason2.
    destruct (cancelOrder env2 user2 id reason2 _) as [[res2|e] w2] eqn:Hrun2.
    + apply cancelOrder_Ok_inv in Hrun2 as (o2 & Ho2 & _ & _ & Hcan & _).
      rewrite Ho' in Ho2. injection Ho2 as <-.
      unfold canBeCancelled in Hcan. rewrite cancel_assign_status in Hcan.
      discriminate.
    + exists e. by rewrite (cancelOrder_Err_world _ _ _ _ _ _ _ Hrun2).
  - intros env2 user2 target note.
    apply (patchStatus_final _ _ _ _ _ _ _ Ho').
    by rewrite cancel_assign_status.
Qed.

Lemma cancellation_is_final_witness :
  (∀ env2 user2 reason2,
      ∃ e, cancelOrder env2 user2 100%N reason2
             (cancelOrder Sample.env Sample.alice 100%N "changed my mind"
                (Sample.worldWith confirmed)).2
           = (Err e, (cancelOrder Sample.env Sample.alice 100%N "changed my mind"
                        (Sample.worldWith confirmed)).2))
  ∧ (∀ env2 user2 target note,
        ∃ e, patchStatus env2 user2 100%N target note
               (cancelOrder Sample.env Sample.alice 100%N "changed my mind"
                  (Sample.worldWith confirmed)).2
             = (Err e, (cancelOrder Sample.env Sample.alice 100%N "changed my mind"
                          (Sample.worldWith confirmed)).2)).
Proof.
  apply (cancellation_is_final Sample.env Sample.alice 100%N "changed my mind"
           (Sample.worldWith confirmed) _
           (cancel_assign Sample.env Sample.alice "changed my mind"
              (Sample.orderIn confirmed (344 # 10)),
            calculateRefundAmount (Sample.orderIn confirmed (344 # 10)))).
  apply cancelOrder_accepted; [reflexivity | reflexivity | by left | reflexivity].
Defined.

(** X19: the first valid rating of a delivered order by its customer
    publishes exactly one review, appended to the reviews: by the rating
    user, for the order's restaurant and the order, marked as a verified
    purchase, with the service mark copied from the overall mark, the
    packaging mark from the food mark and the comment "No comment provided"
    when the review text is missing or empty.  The request is then
    answered with a validation error when the order's restaurant is
    stored, and with the rating when it is not; menu and restaurants are
    as before either way. *)
Theorem rating_publishes_one_review env user id body (w : World) o :
  orders w !! id = Some o →
  o_user o = u_id user →
  status o = delivered →
  rating o = noRating →
  validRateBody body = true →
  ∃ res w',
    rateOrder env user id body w = (res, w')
    ∧ reviews w'
      = reviews w
        ++ [{| rv_user := u_id user; rv_restaurant := o_restaurant o;
               rv_order := id;
               rv_overall := rb_overall body; rv_food := rb_food body;
               rv_delivery := rb_delivery body;
               rv_service := rb_overall body;
               rv_packaging := rb_food body;
               rv_comment := orString (rb_review body) "No comment provided";
               rv_isVerifiedPurchase := true |}]
    ∧ (is_Some (restaurants w !! o_restaurant o) → res = Err MongooseValidation)
    ∧ (restaurants w !! o_restaurant o = None → res = Ok (ratingOf env body))
    ∧ restaurants w' = restaurants w
    ∧ menuItems w' = menuItems w.
Proof.
  intros Ho Hmine Hd Hnone Hvalid.
  eexists _, _. split; [by apply rateOrder_first |].
  split; [done |]. split; [| split; [| done]].
  - intros [r ->]. done.
  - intros ->. done.
Qed.

Lemma rating_publishes_one_review_witness :
  ∃ res w',
    rateOrder Sample.env Sample.alice 100%N Sample.fiveStars
      (Sample.worldWith delivered) = (res, w')
    ∧ reviews w'
      = reviews (Sample.worldWith delivered)
        ++ [{| rv_user := u_id Sample.alice;
               rv_restaurant := o_restaurant (Sample.orderIn delivered (344 # 10));
               rv_order := 100%N;
               rv_overall := rb_overall Sample.fiveStars;
               rv_food := rb_food Sample.fiveStars;
               rv_delivery := rb_delivery Sample.fiveStars;
               rv_service := rb_overall Sample.fiveStars;
               rv_packaging := rb_food Sample.fiveStars;
               rv_comment :=
                 orString (rb_review Sample.fiveStars) "No comment provided";
               rv_isVerifiedPurchase := true |}]
    ∧ (is_Some (restaurants (Sample.worldWith delivered)
                  !! o_restaurant (Sample.orderIn delivered (344 # 10))) →
       res = Err MongooseValidation)
    ∧ (restaurants (Sample.worldWith delivered)
         !! o_restaurant (Sample.orderIn delivered (344 # 10)) = None →
       res = Ok (ratingOf Sample.env Sample.fiveStars))
    ∧ restaurants w' = restaurants (Sample.worldWith delivered)
    ∧ menuItems w' = menuItems (Sample.worldWith delivered).
Proof.
  apply (rating_publishes_one_review Sample.env Sample.alice 100%N Sample.fiveStars
           (Sample.worldWith delivered) (Sample.orderIn delivered (344 # 10)));
    reflexivity.
Defined.

(** ** Delivery times *)

(** X20: the delivery delay is a whole number of minutes, never negative:
    it is zero for an order that is not delivered yet and for one
    delivered less than a minute after the estimate, and otherwise it is
    the number of full minutes between the estimate and the delivery; for
    an order marked delivered through [updateStatus] the delivery time is
    the time of that update. *)
Theorem delivery_delay_counts_full_minutes (o : Order) :
  0 ≤ getDeliveryDelay o
  ∧ (actualDeliveryTime o = None → getDeliveryDelay o = 0)
  ∧ (∀ actual, actualDeliveryTime o = Some actual →
       (getDeliveryDelay o = 0 ↔ actual < estimatedDeliveryTime o + 60000)
       ∧ (estimatedDeliveryTime o ≤ actual →
          getDeliveryDelay o * 60000 ≤ actual - estimatedDeliveryTime o
          ∧ actual - estimatedDeliveryTime o < (getDeliveryDelay o + 1) * 60000))
  ∧ (∀ env note updatedBy,
       getDeliveryDelay (updateStatus_assign env delivered note updatedBy o)
       = Z.max 0 ((now env - estimatedDeliveryTime o) / 60000)).
Proof.
  unfold getDeliveryDelay. change (1000 * 60) with 60000.
  split; [destruct (actualDeliveryTime o); lia |].
  split; [by intros -> |].
  split; [| done].
  intros actual ->.
  pose proof (Z.div_mod (actual - estimatedDeliveryTime o) 60000 ltac:(lia)) as Hdiv.
  pose proof (Z.mod_pos_bound (actual - estimatedDeliveryTime o) 60000 ltac:(lia)) as Hmod.
  split; [split |]; intros; nia.
Qed.

(** X21: the remaining delivery time is a whole number of minutes, never
    negative, zero once less than a minute is left, and never more than
    what is left until the estimate; for an order confirmed at one reading
    of the clock and looked at at a later one it is the 50 minutes of the
    new estimate less the time between the two readings, whatever the
    estimate was before: at most 50, and 49 during the first minute after
    the confirmation. *)
Theorem time_remaining_counts_full_minutes (env : Env) (o : Order) :
  0 ≤ deliveryTimeRemaining env o
  ∧ (deliveryTimeRemaining env o = 0 ↔ estimatedDeliveryTime o < now env + 60000)
  ∧ (now env ≤ estimatedDeliveryTime o →
     deliveryTimeRemaining env o * 60000 ≤ estimatedDeliveryTime o - now env
     ∧ estimatedDeliveryTime o - now env < (deliveryTimeRemaining env o + 1) * 60000)
  ∧ (∀ envThen note updatedBy,
       now envThen ≤ now env →
       deliveryTimeRemaining env
         (updateStatus_assign envThen confirmed note updatedBy o)
       = Z.max 0 ((50 * 60000 - (now env - now envThen)) / 60000)
       ∧ deliveryTimeRemaining env
           (updateStatus_assign envThen confirmed note updatedBy o) ≤ 50
       ∧ (now envThen < now env ≤ now envThen + 60000 →
          deliveryTimeRemaining env
            (updateStatus_assign envThen confirmed note updatedBy o) = 49)).
Proof.
  unfold deliveryTimeRemaining. change (1000 * 60) with 60000.
  split; [| split; [| split]].
  - destruct (Z.ltb_spec 0 (estimatedDeliveryTime o - now env)); [| lia].
    apply Z.div_pos; lia.
  - pose proof (Z.div_mod (estimatedDeliveryTime o - now env) 60000 ltac:(lia)) as Hdiv.
    pose proof (Z.mod_pos_bound (estimatedDeliveryTime o - now env) 60000 ltac:(lia))
      as Hmod.
    destruct (Z.ltb_spec 0 (estimatedDeliveryTime o - now env)); split; intros; nia.
  - intros Hle.
    pose proof (Z.div_mod (estimatedDeliveryTime o - now env) 60000 ltac:(lia)) as Hdiv.
    pose proof (Z.mod_pos_bound (estimatedDeliveryTime o - now env) 60000 ltac:(lia))
      as Hmod.
    destruct (Z.ltb_spec 0 (estimatedDeliveryTime o - now env)); split; nia.
  - intros envThen note updatedBy Hle.
    cbn [updateStatus_assign estimatedDeliveryTime set_estimatedDeliveryTime].
    replace (now envThen + (30 + 20) * 60000 - now env)
      with (50 * 60000 - (now env - now envThen)) by lia.
    pose proof (Z.div_mod (50 * 60000 - (now env - now envThen)) 60000 ltac:(lia))
      as Hdiv.
    pose proof (Z.mod_pos_bound (50 * 60000 - (now env - now envThen)) 60000
                  ltac:(lia)) as Hmod.
    destruct (Z.ltb_spec 0 (50 * 60000 - (now env - now envThen)));
      (split; [| split]); try intros [? ?]; nia.
Qed.

(** ** Reading orders *)

(** X22: the tracking route never answers with an order: for an order
    that does not exist it fails with NotFound, and for one that exists
    its ownership check reads the customer of a document loaded without
    that field, so it fails with a server error for every user, the
    customer and an admin included; nothing is changed. *)
Theorem tracking_never_answers user id (w : World) :
  ∃ e, trackOrder user id w = (Err e, w)
       ∧ (orders w !! id = None → e = NotFound)
       ∧ (is_Some (orders w !! id) → e = ServerError).
Proof.
  unfold trackOrder. run.
  destruct (orders w !! id) as [o|]; cbn.
  - exists ServerError. split; [done |]. split; [discriminate | done].
  - exists NotFound. split; [done |]. split; [done |]. intros [? ?]. discriminate.
Qed.

Lemma Math_ceil_div_lt (a b page : nat) :
  (1 ≤ b)%nat → (page < Math_ceil_div a b)%nat ↔ (page * b < a)%nat.
Proof.
  intros Hb. unfold Math_ceil_div.
  pose proof (Nat.div_mod_eq (a + b - 1) b) as Hdiv.
  pose proof (Nat.mod_upper_bound (a + b - 1) b ltac:(lia)) as Hmod.
  split; intros; nia.
Qed.

Lemma pages_concat {A} (found : list A) (limit : nat) :
  ∀ n k,
    concat (map (fun p => take limit (drop ((p - 1) * limit) found)) (seq (S k) n))
    = take (n * limit) (drop (k * limit) found).
Proof.
  induction n as [|n IH]; intros k; [done |].
  cbn [seq map concat]. rewrite IH.
  replace (S k - 1)%nat with k by lia.
  replace (S k * limit)%nat with (k * limit + limit)%nat by lia.
  rewrite <- drop_drop.
  replace (S n * limit)%nat with (limit + n * limit)%nat by lia.
  by rewrite take_take_drop.
Qed.

(** X23: the pages of the order listings, for a page size of at least
    one: the pages from the first to the last of [totalPages], one after
    the other, are exactly the orders that the query found, none lost and
    none twice; for a page number of at least one the page holds no more
    than [limit] orders, it is not empty exactly when its number is at
    most [totalPages], [hasNextPage] is set exactly when the next page is
    not empty, and [hasPrevPage] exactly when the page is not the
    first. *)
Theorem pages_partition_the_orders {A} (found : list A) (limit : nat) :
  (1 ≤ limit)%nat →
  concat (map (fun page => (paginate found page limit).1)
            (seq 1 (totalPages (paginate found 1 limit).2)))
  = found
  ∧ ∀ page,
      (1 ≤ page)%nat →
      (length (paginate found page limit).1 ≤ limit)%nat
      ∧ ((paginate found page limit).1 ≠ []
         ↔ (page ≤ totalPages (paginate found page limit).2)%nat)
      ∧ (hasNextPage (paginate found page limit).2 = true
         ↔ (paginate found (S page) limit).1 ≠ [])
      ∧ (hasPrevPage (paginate found page limit).2 = true ↔ (1 < page)%nat)
      ∧ totalCount (paginate found page limit).2 = length found.
Proof.
  intros Hlimit. unfold paginate. cbn [fst snd totalPages hasNextPage hasPrevPage
                                         totalCount].
  assert (Hnonempty : ∀ page, (1 ≤ page)%nat →
            take limit (drop ((page - 1) * limit) found) ≠ []
            ↔ ((page - 1) * limit < length found)%nat).
  { intros page Hpage. rewrite <- length_zero_iff_nil.
    rewrite length_take, length_drop. lia. }
  split.
  - rewrite pages_concat. rewrite drop_0. apply take_ge.
    pose proof (Math_ceil_div_lt (length found) limit
                  (Math_ceil_div (length found) limit) Hlimit) as H.
    lia.
  - intros page Hpage. split; [rewrite length_take; lia |].
    split; [| split; [| split]].
    + rewrite (Hnonempty page Hpage).
      rewrite <- (Math_ceil_div_lt (length found) limit (page - 1) Hlimit). lia.
    + rewrite (Hnonempty (S page) ltac:(lia)).
      replace (S page - 1)%nat with page by lia.
      rewrite <- (Math_ceil_div_lt (length found) limit page Hlimit).
      apply Nat.ltb_lt.
    + apply Nat.ltb_lt.
    + done.
Qed.

Lemma pages_partition_the_orders_witness :
  concat (map (fun page => (paginate SampleMore.found page 2).1)
            (seq 1 (totalPages (paginate SampleMore.found 1 2).2)))
  = SampleMore.found
  ∧ ∀ page,
      (1 ≤ page)%nat →
      (length (paginate SampleMore.found page 2).1 ≤ 2)%nat
      ∧ ((paginate SampleMore.found page 2).1 ≠ []
         ↔ (page ≤ totalPages (paginate SampleMore.found page 2).2)%nat)
      ∧ (hasNextPage (paginate SampleMore.found page 2).2 = true
         ↔ (paginate SampleMore.found (S page) 2).1 ≠ [])
      ∧ (hasPrevPage (paginate SampleMore.found page 2).2 = true ↔ (1 < page)%nat)
      ∧ totalCount (paginate SampleMore.found page 2).2 = length SampleMore.found.
Proof.
  apply (pages_partition_the_orders SampleMore.found 2). lia.
Defined.

(** ** The error handler *)

Lemma orZ_nonzero (x : option Z) (d : Z) : d ≠ 0 → orZ x d ≠ 0.
Proof.
  intros Hd. unfold orZ, truthyZ. destruct x as [z|]; cbn; [| done].
  destruct (Z.eqb_spec z 0); cbn; done.
Qed.

Lemma orString_nonempty (s : option string) (d : string) :
  d ≠ EmptyString → orString s d ≠ EmptyString.
Proof. intros Hd. unfold orString. by destruct s as [[|]|]. Qed.

(** X24: the error handler itself throws, and sends nothing, exactly for
    an error named ValidationError that carries no [errors] and for an
    error with code 11000 that carries no [keyValue]; the ValidationError
    that the routes throw for a refused request is of the first kind, so
    the handler never answers it. *)
Theorem error_handler_throws_exactly (nodeEnv : NodeEnv) :
  (∀ err,
      errorHandler nodeEnv err = None
      ↔ (err_code err = Some (CodeNumber 11000) ∧ err_keyValue err = None)
        ∨ (err_name err = "ValidationError" ∧ err_errors err = None))
  ∧ (∀ message, errorHandler nodeEnv (ValidationError message) = None).
Proof.
  assert (Hall : ∀ err,
      errorHandler nodeEnv err = None
      ↔ (err_code err = Some (CodeNumber 11000) ∧ err_keyValue err = None)
        ∨ (err_name err = "ValidationError" ∧ err_errors err = None)).
  { intros err. unfold errorHandler, errorHandler_error, codeIs, nameIs.
    destruct (decide (err_code err = Some (CodeNumber 11000))) as [Hc|Hc];
      [rewrite (bool_decide_eq_true_2 _ Hc) | rewrite (bool_decide_eq_false_2 _ Hc)];
      (destruct (String.eqb_spec (err_name err) "ValidationError") as [Hn|Hn]);
      destruct (err_keyValue err), (err_errors err); cbn;
      split; intros H; try done; try (by left); try (by right);
      by destruct H as [[? ?]|[? ?]]. }
  split; [exact Hall |].
  intros message. apply Hall. by right.
Qed.

(** X25: whenever the handler answers, the status code is not zero and
    the message is not empty; the stack is part of the body only in
    development; in production a status of 500 or more always carries the
    message "Internal Server Error"; a [retryAfter] is given exactly with
    status 429; and the body has no [type] exactly when the status is
    below 500 and none of 400, 401, 403, 404 and 429. *)
Theorem error_response_shape (nodeEnv : NodeEnv) (err : JsError) r :
  errorHandler nodeEnv err = Some r →
  res_statusCode r ≠ 0
  ∧ res_message r ≠ EmptyString
  ∧ (res_stack r = true ↔ nodeEnv = development)
  ∧ (nodeEnv = production → 500 ≤ res_statusCode r →
     res_message r = "Internal Server Error")
  ∧ (is_Some (res_retryAfter r) ↔ res_statusCode r = 429)
  ∧ (res_type r = None
     ↔ res_statusCode r < 500
       ∧ res_statusCode r ∉ [400; 401; 403; 404; 429]).
Proof.
  unfold errorHandler. destruct (errorHandler_error err) as [d|]; [| discriminate].
  cbn. intros [= <-]. unfold errorHandler_response.
  pose proof (orZ_nonzero (draft_statusCode d) (orZ (err_statusCode err) 500)
                (orZ_nonzero _ 500 ltac:(done))) as Hsc.
  pose proof (orString_nonempty (Some (draft_message d)) "Server Error"
                ltac:(done)) as Hmsg.
  revert Hsc Hmsg.
  generalize (orZ (draft_statusCode d) (orZ (err_statusCode err) 500)).
  generalize (orString (Some (draft_message d)) "Server Error").
  intros message statusCode Hsc Hmsg.
  assert (Hin : ∀ P : Prop, statusCode ∉ [400; 401; 403; 404; 429]
                → statusCode = 400 ∨ statusCode = 401 ∨ statusCode = 403
                  ∨ statusCode = 404 ∨ statusCode = 429 → P).
  { intros P Hnot Hcase. exfalso. apply Hnot.
    destruct Hcase as [->|[->|[->|[->| ->]]]]; set_solver. }
  assert (Hnotin : statusCode ≠ 400 → statusCode ≠ 401 → statusCode ≠ 403 →
                   statusCode ≠ 404 → statusCode ≠ 429 →
                   statusCode ∉ [400; 401; 403; 404; 429]).
  { intros ? ? ? ? ? Hel.
    repeat (apply elem_of_cons in Hel as [Hel|Hel]; [done |]).
    by apply elem_of_nil in Hel. }
  destruct (Z.eqb_spec statusCode 400);
    [| destruct (Z.eqb_spec statusCode 401);
       [| destruct (Z.eqb_spec statusCode 403);
          [| destruct (Z.eqb_spec statusCode 404);
             [| destruct (Z.eqb_spec statusCode 429);
                [| destruct (Z.leb_spec 500 statusCode)]]]]];
    cbn [res_statusCode res_message res_type res_retryAfter res_stack];
    (split; [done |]);
    (split; [try done; by destruct (bool_decide (nodeEnv = production)) |]);
    (split; [apply bool_decide_eq_true |]);
    (split; [try (intros; lia);
             by intros ->; rewrite bool_decide_eq_true_2 |]);
    (split; [split; [intros [? ?]; done || discriminate | intros; try lia; by eexists] |]);
    (split; [intros Hnone; first [discriminate | split; [lia | by apply Hnotin]]
            | intros [Hlt Hnot]; try done; try lia;
              apply (Hin _ Hnot); lia]).
Qed.

Lemma error_response_shape_witness :
  res_statusCode (errorHandler_response production (NotFoundError "Order not found")
                    {| draft_message := "Order not found";
                       draft_statusCode := Some 404 |}) ≠ 0
  ∧ res_message (errorHandler_response production (NotFoundError "Order not found")
                   {| draft_message := "Order not found";
                      draft_statusCode := Some 404 |}) ≠ EmptyString
  ∧ (res_stack (errorHandler_response production (NotFoundError "Order not found")
                  {| draft_message := "Order not found";
                     draft_statusCode := Some 404 |}) = true
     ↔ production = development)
  ∧ (production = production →
     500 ≤ res_statusCode (errorHandler_response production
                             (NotFoundError "Order not found")
                             {| draft_message := "Order not found";
                                draft_statusCode := Some 404 |}) →
     res_message (errorHandler_response production (NotFoundError "Order not found")
                    {| draft_message := "Order not found";
                       draft_statusCode := Some 404 |})
     = "Internal Server Error")
  ∧ (is_Some (res_retryAfter (errorHandler_response production
                                (NotFoundError "Order not found")
                                {| draft_message := "Order not found";
                                   draft_statusCode := Some 404 |}))
     ↔ res_statusCode (errorHandler_response production
                         (NotFoundError "Order not found")
                         {| draft_message := "Order not found";
                            draft_statusCode := Some 404 |}) = 429)
  ∧ (res_type (errorHandler_response production (NotFoundError "Order not found")
                 {| draft_message := "Order not found";
                    draft_statusCode := Some 404 |}) = None
     ↔ res_statusCode (errorHandler_response production
                         (NotFoundError "Order not found")
                         {| draft_message := "Order not found";
                            draft_statusCode := Some 404 |}) < 500
       ∧ res_statusCode (errorHandler_response production
                           (NotFoundError "Order not found")
                           {| draft_message := "Order not found";
                              draft_statusCode := Some 404 |})
         ∉ [400; 401; 403; 404; 429]).
Proof.
  apply (error_response_shape production (NotFoundError "Order not found")).
  reflexivity.
Defined.

(** X26: the errors that the routes throw on purpose, other than
    ValidationError, reach the client as they are when their message is
    not empty: NotFoundError, AuthorizationError and AuthenticationError
    with their status code, their message and their name as [type];
    ConflictError and PaymentError with their status code and message but
    no [type]. *)
Theorem operational_errors_pass_through (nodeEnv : NodeEnv) (message : string) :
  message ≠ EmptyString →
  errorHandler nodeEnv (NotFoundError message)
  = Some {| res_statusCode := 404; res_message := message;
            res_type := Some "NotFoundError"; res_retryAfter := None;
            res_stack := bool_decide (nodeEnv = development) |}
  ∧ errorHandler nodeEnv (AuthorizationError message)
    = Some {| res_statusCode := 403; res_message := message;
              res_type := Some "AuthorizationError"; res_retryAfter := None;
              res_stack := bool_decide (nodeEnv = development) |}
  ∧ errorHandler nodeEnv (AuthenticationError message)
    = Some {| res_statusCode := 401; res_message := message;
              res_type := Some "AuthenticationError"; res_retryAfter := None;
              res_stack := bool_decide (nodeEnv = development) |}
  ∧ errorHandler nodeEnv (ConflictError message)
    = Some {| res_statusCode := 409; res_message := message;
              res_type := None; res_retryAfter := None;
              res_stack := bool_decide (nodeEnv = development) |}
  ∧ errorHandler nodeEnv (PaymentErrorOf message)
    = Some {| res_statusCode := 402; res_message := message;
              res_type := None; res_retryAfter := None;
              res_stack := bool_decide (nodeEnv = development) |}.
Proof.
  intros Hmsg. destruct message as [|a s]; [done |].
  repeat split; reflexivity.
Qed.

Lemma operational_errors_pass_through_witness :
  errorHandler production (NotFoundError "Order not found")
  = Some {| res_statusCode := 404; res_message := "Order not found";
            res_type := Some "NotFoundError"; res_retryAfter := None;
            res_stack := bool_decide (production = development) |}
  ∧ errorHandler production (AuthorizationError "Order not found")
    = Some {| res_statusCode := 403; res_message := "Order not found";
              res_type := Some "AuthorizationError"; res_retryAfter := None;
              res_stack := bool_decide (production = development) |}
  ∧ errorHandler production (AuthenticationError "Order not found")
    = Some {| res_statusCode := 401; res_message := "Order not found";
              res_type := Some "AuthenticationError"; res_retryAfter := None;
              res_stack := bool_decide (production = development) |}
  ∧ errorHandler production (ConflictError "Order not found")
    = Some {| res_statusCode := 409; res_message := "Order not found";
              res_type := None; res_retryAfter := None;
              res_stack := bool_decide (production = development) |}
  ∧ errorHandler production (PaymentErrorOf "Order not found")
    = Some {| res_statusCode := 402; res_message := "Order not found";
              res_type := None; res_retryAfter := None;
              res_stack := bool_decide (production = development) |}.
Proof.
  apply (operational_errors_pass_through production "Order not found").
  discriminate.
Defined.

(** ** The menu routes *)

Lemma checkMenuOwnership_inv user m (w : World) res w' :
  checkMenuOwnership user m w = (res, w') →
  w' = w
  ∧ match res with
    | Ok _ => ownsMenuItem w user m
    | Err e =>
        u_role user ≠ role_admin
        ∧ match restaurants w !! mi_restaurant m with
          | Some r => rest_owner r ≠ u_id user ∧ e = Authorization
          | None => e = ServerError
          end
    end.
Proof.
  unfold checkMenuOwnership, ownsMenuItem.
  destruct (decide (u_role user = role_admin)) as [Ha|Ha].
  { rewrite (bool_decide_eq_true_2 _ Ha). cbn. intros [= <- <-]. split; [done |].
    by left. }
  rewrite (bool_decide_eq_false_2 _ Ha). run.
  destruct (restaurants w !! mi_restaurant m) as [r|]; run.
  2: { intros [= <- <-]. done. }
  destruct (decide (rest_owner r = u_id user)) as [Ho|Ho].
  - rewrite (bool_decide_eq_true_2 _ Ho). run. intros [= <- <-]. split; [done |].
    right. by exists r.
  - rewrite (bool_decide_eq_false_2 _ Ho). run. intros [= <- <-]. done.
Qed.

Lemma patchAvailability_inv requireRestaurantOwner user id a q (w : World) res w' :
  patchAvailability requireRestaurantOwner user id a q w = (res, w') →
  match res with
  | Err _ => w' = w
  | Ok m =>
      ∃ m0, requireRestaurantOwner user = None
            ∧ menuItems w !! id = Some m0
            ∧ (∀ z, q = Some z → 0 ≤ z)
            ∧ ownsMenuItem w user m0
            ∧ m = menuItem_preSave
                    match q with
                    | Some z => set_availableQuantity (Some z) (set_isAvailable a m0)
                    | None => set_isAvailable a m0
                    end
            ∧ w' = upd_menuItems (insert id m) w
  end.
Proof.
  unfold patchAvailability, runMiddleware.
  destruct (requireRestaurantOwner user) as [e0|] eqn:Hmw; run.
  { by intros [= <- <-]. }
  destruct (match q with Some z => z <? 0 | None => false end) eqn:Hq; run.
  { by intros [= <- <-]. }
  destruct (menuItems w !! id) as [m0|] eqn:Hm0; run.
  2: { by intros [= <- <-]. }
  unfold bind at 1.
  destruct (checkMenuOwnership user m0 w) as [[[]|e] w1] eqn:Hown;
    apply checkMenuOwnership_inv in Hown as [-> Hown]; cbn [fst snd].
  2: { by intros [= <- <-]. }
  unfold MenuItem_save. run. intros [= <- <-].
  exists m0. repeat split; try done.
  intros z ->. by apply Z.ltb_ge in Hq.
Qed.

Lemma deleteMenuItem_inv requireRestaurantOwner user id (w : World) res w' :
  deleteMenuItem requireRestaurantOwner user id w = (res, w') →
  match res with
  | Err _ => w' = w
  | Ok _ =>
      ∃ m0, requireRestaurantOwner user = None
            ∧ menuItems w !! id = Some m0
            ∧ ownsMenuItem w user m0
            ∧ w' = upd_menuItems
                     (insert id (menuItem_preSave (set_menuItemStatus inactive m0))) w
  end.
Proof.
  unfold deleteMenuItem, runMiddleware.
  destruct (requireRestaurantOwner user) as [e0|] eqn:Hmw; run.
  { by intros [= <- <-]. }
  destruct (menuItems w !! id) as [m0|] eqn:Hm0; run.
  2: { by intros [= <- <-]. }
  unfold bind at 1.
  destruct (checkMenuOwnership user m0 w) as [[[]|e] w1] eqn:Hown;
    apply checkMenuOwnership_inv in Hown as [-> Hown]; cbn [fst snd].
  2: { by intros [= <- <-]. }
  unfold MenuItem_save. run. intros [= <- <-].
  exists m0. repeat split; done.
Qed.

Lemma menuItem_preSave_status m :
  mi_status (menuItem_preSave m) = mi_status m.
Proof. unfold menuItem_preSave. by destruct (50 <=? mi_orderCount m). Qed.



(** X28: deleting a menu item is a soft delete: the item stays stored,
    with status inactive and its name, price, availability and order
    count untouched, but [GET /api/menu/:id] now answers NotFound for it;
    no other menu item, no order and no restaurant changes. *)
Theorem deleted_item_is_hidden_not_removed requireRestaurantOwner user id
    (w w' : World) :
  deleteMenuItem requireRestaurantOwner user id w = (Ok tt, w') →
  (∃ m m', menuItems w !! id = Some m
           ∧ menuItems w' !! id = Some m'
           ∧ mi_status m' = inactive
           ∧ mi_name m' = mi_name m
           ∧ mi_price m' = mi_price m
           ∧ mi_restaurant m' = mi_restaurant m
           ∧ mi_availability m' = mi_availability m
           ∧ mi_orderCount m' = mi_orderCount m)
  ∧ getMenuItem id w' = (Err NotFound, w')
  ∧ (∀ other, other ≠ id → menuItems w' !! other = menuItems w !! other)
  ∧ orders w' = orders w
  ∧ restaurants w' = restaurants w.
Proof.
  intros Hrun. apply deleteMenuItem_inv in Hrun as (m0 & _ & Hm0 & _ & ->).
  assert (Hm' : menuItems
                  (upd_menuItems
                     (insert id (menuItem_preSave (set_menuItemStatus inactive m0))) w)
                !! id = Some (menuItem_preSave (set_menuItemStatus inactive m0)))
    by (cbn; apply lookup_insert_eq).
  split; [| split; [| split; [| done]]].
  - exists m0, (menuItem_preSave (set_menuItemStatus inactive m0)).
    split; [done |]. split; [done |].
    rewrite menuItem_preSave_status, menuItem_preSave_availability.
    unfold menuItem_preSave. by destruct (50 <=? _).
  - unfold getMenuItem. run. rewrite Hm'. run.
    rewrite menuItem_preSave_status. cbn [set_menuItemStatus mi_status].
    by run.
  - intros other Hne. cbn. by rewrite lookup_insert_ne.
Qed.

Lemma deleted_item_is_hidden_not_removed_witness :
  (∃ m m', menuItems Sample.world !! 10%N = Some m
           ∧ menuItems (deleteMenuItem SampleMore.ownersAndAdmins Sample.owner 10%N
                          Sample.world).2 !! 10%N
             = Some m'
           ∧ mi_status m' = inactive
           ∧ mi_name m' = mi_name m
           ∧ mi_price m' = mi_price m
           ∧ mi_restaurant m' = mi_restaurant m
           ∧ mi_availability m' = mi_availability m
           ∧ mi_orderCount m' = mi_orderCount m)
  ∧ getMenuItem 10%N
      (deleteMenuItem SampleMore.ownersAndAdmins Sample.owner 10%N Sample.world).2
    = (Err NotFound,
       (deleteMenuItem SampleMore.ownersAndAdmins Sample.owner 10%N Sample.world).2)
  ∧ (∀ other, other ≠ 10%N →
              menuItems (deleteMenuItem SampleMore.ownersAndAdmins Sample.owner 10%N
                           Sample.world).2 !! other
              = menuItems Sample.world !! other)
  ∧ orders (deleteMenuItem SampleMore.ownersAndAdmins Sample.owner 10%N
              Sample.world).2
    = orders Sample.world
  ∧ restaurants (deleteMenuItem SampleMore.ownersAndAdmins Sample.owner 10%N
                   Sample.world).2
    = restaurants Sample.world.
Proof.
  apply (deleted_item_is_hidden_not_removed SampleMore.ownersAndAdmins Sample.owner
           10%N Sample.world).
  vm_compute. reflexivity.
Defined.



(** ** Stock *)

Lemma restoreMenu_None (its : list OrderItem) :
  ∀ (M : gmap N MenuItem) id, M !! id = None → restoreMenu its M !! id = None.
Proof.
  unfold restoreMenu.
  induction its as [|it its IH]; intros M id Hnone; [done |].
  cbn [fold_left]. apply IH. unfold restore_one.
  destruct (M !! oi_menuItem it) as [m|] eqn:Hm; [| done].
  destruct (availableQuantity (mi_availability m)); [| done].
  rewrite lookup_insert_ne; [done |]. intros <-. by rewrite Hnone in Hm.
Qed.

Lemma orderedQuantity_nonneg mid (its : list OrderItem) :
  Forall (fun i => 1 ≤ oi_quantity i) its → 0 ≤ orderedQuantity mid its.
Proof.
  induction 1 as [|it its Hit _ IH]; cbn; [done |].
  fold (orderedQuantity mid its). destruct (bool_decide (oi_menuItem it = mid)); lia.
Qed.

Lemma handle_menu_stock isMobilePhone env req (w : World) :
  stockInv w →
  ∀ id m q, menuItems (handle isMobilePhone env req w) !! id = Some m →
            availableQuantity (mi_availability m) = Some q → 0 ≤ q.
Proof.
  intros [Hmenu Horders] id m q.
  destruct req as [user body|user oid target note|user oid reason|user oid body];
    cbn [handle].
  - destruct (createOrder_fails isMobilePhone env user body w) as (e & -> & _).
    apply Hmenu.
  - rewrite (proj1 (patchStatus_frame env user oid target note w)). apply Hmenu.
  - destruct (cancelOrder env user oid reason w) as [[res|e] w'] eqn:Hrun; cbn [snd].
    2: { rewrite (cancelOrder_Err_world _ _ _ _ _ _ _ Hrun). apply Hmenu. }
    apply cancelOrder_Ok_inv in Hrun as (o & Ho & _ & _ & _ & _ & ->).
    cbn -[restoreMenu]. intros Hm Hq.
    destruct (menuItems w !! id) as [m0|] eqn:Hm0.
    + destruct (restoreMenu_lookup (items o) _ id m0 Hm0) as (m' & Hm' & Hq' & _).
      rewrite Hm in Hm'. injection Hm' as <-. rewrite Hq in Hq'.
      destruct (availableQuantity (mi_availability m0)) as [q0|] eqn:Hq0;
        [| discriminate].
      injection Hq' as ->.
      pose proof (Hmenu id m0 q0 Hm0 Hq0).
      pose proof (orderedQuantity_nonneg id (items o) (Horders oid o Ho)). lia.
    + by rewrite (restoreMenu_None _ _ _ Hm0) in Hm.
  - rewrite (proj1 (rateOrder_frame env user oid body w)). apply Hmenu.
Qed.

(** X30: stock never goes below zero: if no menu item holds a negative
    quantity and every stored order holds at least one of each of its
    lines, the same is true after any request to the order routes
    (creation, status update, cancellation, rating) and to the menu routes
    that set the availability or delete an item, whether the request
    succeeds or fails. *)
Theorem stock_never_negative isMobilePhone requireRestaurantOwner env req (w : World) :
  stockInv w → stockInv (handleAny isMobilePhone requireRestaurantOwner env req w).
Proof.
  intros Hinv. pose proof Hinv as [Hmenu Horders].
  destruct req as [req|user id a q|user id]; cbn [handleAny].
  - split; [by apply handle_menu_stock |].
    apply (handle_keeps (fun o => Forall (fun i => 1 ≤ oi_quantity i) (items o))).
    + intros o o' Ho Hmove.
      by rewrite (proj1 (proj2 (proj2 (proj2 (proj2 (proj2
                   (order_move_keeps _ _ _ Hmove))))))).
    + exact Horders.
  - destruct (patchAvailability requireRestaurantOwner user id a q w)
      as [[m|e] w'] eqn:Hrun; cbn [snd];
      apply patchAvailability_inv in Hrun; [| by subst w'].
    destruct Hrun as (m0 & _ & Hm0 & Hq & _ & -> & ->).
    split; [| exact Horders].
    intros id' m' q'. cbn.
    destruct (decide (id = id')) as [<-|Hne].
    + rewrite lookup_insert_eq. intros [= <-].
      rewrite menuItem_preSave_availability.
      destruct q as [z|]; cbn; [intros [= <-]; by apply Hq |].
      apply (Hmenu id m0 q' Hm0).
    + rewrite lookup_insert_ne by done. apply Hmenu.
  - destruct (deleteMenuItem requireRestaurantOwner user id w)
      as [[[]|e] w'] eqn:Hrun; cbn [snd];
      apply deleteMenuItem_inv in Hrun; [| by subst w'].
    destruct Hrun as (m0 & _ & Hm0 & _ & ->).
    split; [| exact Horders].
    intros id' m' q'. cbn.
    destruct (decide (id = id')) as [<-|Hne].
    + rewrite lookup_insert_eq. intros [= <-].
      rewrite menuItem_preSave_availability. apply (Hmenu id m0 q' Hm0).
    + rewrite lookup_insert_ne by done. apply Hmenu.
Qed.

Lemma stock_never_negative_witness :
  stockInv (handleAny Sample.anyPhone SampleMore.ownersAndAdmins Sample.env
              (OrderReq (ReqCancel Sample.alice 100%N "changed my mind"))
              (Sample.worldWith confirmed)).
Proof.
  apply (stock_never_negative Sample.anyPhone SampleMore.ownersAndAdmins Sample.env
           (OrderReq (ReqCancel Sample.alice 100%N "changed my mind"))
           (Sample.worldWith confirmed)).
  split.
  - intros id m q Hm. cbn in Hm. apply lookup_singleton_Some in Hm as [_ <-].
    cbn. intros [= <-]. lia.
  - intros id o Ho. cbn in Ho. apply lookup_singleton_Some in Ho as [_ <-].
    cbn. constructor; [cbn; lia | constructor].
Defined.
